(** * mqtt-mqtt-duplicator: a shallow embedding of the forwarding pipeline

    The development follows the three source files of the service:
    - [config.ts]  (environment parsing: [getQoS], [getDestMqttConfig], ...),
    - [mqtt.ts]    ([createDuplicator]: the message handler, the audit
                    writer, the counters and their reporting timer),
    - [index.ts]   ([exitGracefully]).

    JavaScript numbers that hold integers are modelled as [Z], byte buffers
    as [list byte], JavaScript strings that hold decoded payload text as
    lists of UTF-16 code units, and [process.env] as a finite map.  Calls
    into the outside world (brokers, file system, clock, timers, logger)
    are recorded as a trace of [Effect]s; what the outside world answers is
    passed in explicitly. *)

From Stdlib Require Import ZArith List Bool Lia Ascii String.
From Stdlib.Strings Require Import Byte.
From stdpp Require Import gmap strings.
Import ListNotations.

Local Open Scope Z_scope.

(** ** Node.js platform: buffers and strings *)

Module Platform.

(** A [Buffer] is a sequence of octets. *)
Definition Buffer := list byte.

Definition byte_to_Z (b : byte) : Z := Z.of_N (Byte.to_N b).

Definition byte_of_Z (z : Z) : byte :=
  match Byte.of_N (Z.to_N (z mod 256)) with
  | Some b => b
  | None => x00
  end.

(** A JavaScript string is a sequence of UTF-16 code units. *)
Definition jsstring := list Z.

(** The JavaScript string whose code units are the characters of an
    ASCII literal. *)
Definition js (s : string) : jsstring :=
  map (fun a => Z.of_N (N_of_ascii a)) (list_ascii_of_string s).

(** [a.equals(b)]: same length and same octets. *)
Fixpoint Buffer_equals (a b : Buffer) : bool :=
  match a, b with
  | [], [] => true
  | x :: a', y :: b' => Byte.eqb x y && Buffer_equals a' b'
  | _, _ => false
  end.

(** *** [buf.toString("utf8")]

    The decoder replaces every maximal ill-formed subsequence by U+FFFD and
    never fails.  [Pending] is the state inside a multi-byte sequence: the
    code point accumulated so far, the number of continuation bytes still
    expected, and the range allowed for the next byte. *)
Record Pending := mkPending {
  p_cp : Z;
  p_remaining : nat;
  p_lower : Z;
  p_upper : Z
}.

Definition REPLACEMENT : Z := 0xFFFD.

Definition utf8_lead (b : Z) : list Z * option Pending :=
  if b <=? 0x7F then ([b], None)
  else if (0xC2 <=? b) && (b <=? 0xDF) then
    ([], Some (mkPending (Z.land b 0x1F) 1 0x80 0xBF))
  else if (0xE0 <=? b) && (b <=? 0xEF) then
    ([], Some (mkPending (Z.land b 0x0F) 2
                 (if b =? 0xE0 then 0xA0 else 0x80)
                 (if b =? 0xED then 0x9F else 0xBF)))
  else if (0xF0 <=? b) && (b <=? 0xF4) then
    ([], Some (mkPending (Z.land b 0x07) 3
                 (if b =? 0xF0 then 0x90 else 0x80)
                 (if b =? 0xF4 then 0x8F else 0xBF)))
  else ([REPLACEMENT], None).

Fixpoint utf8_decode (st : option Pending) (bs : Buffer) : list Z :=
  match bs with
  | [] => match st with None => [] | Some _ => [REPLACEMENT] end
  | b :: rest =>
      let z := byte_to_Z b in
      match st with
      | None =>
          let '(out, st') := utf8_lead z in out ++ utf8_decode st' rest
      | Some p =>
          if (p_lower p <=? z) && (z <=? p_upper p) then
            let cp := Z.lor (Z.shiftl (p_cp p) 6) (Z.land z 0x3F) in
            match p_remaining p with
            | S (S n) =>
                utf8_decode (Some (mkPending cp (S n) 0x80 0xBF)) rest
            | _ => cp :: utf8_decode None rest
            end
          else
            (* the offending byte is looked at again as a lead byte *)
            let '(out, st') := utf8_lead z in
            REPLACEMENT :: out ++ utf8_decode st' rest
      end
  end.

Definition utf16_of_code_point (cp : Z) : jsstring :=
  if cp <? 0x10000 then [cp]
  else
    let v := cp - 0x10000 in
    [0xD800 + Z.shiftr v 10; 0xDC00 + Z.land v 0x3FF].

Definition Buffer_toString_utf8 (buf : Buffer) : jsstring :=
  flat_map utf16_of_code_point (utf8_decode None buf).

(** *** [Buffer.from(str, "utf8")]

    Surrogate pairs are combined; a lone surrogate is written as U+FFFD. *)
Definition is_high_surrogate (u : Z) : bool := (0xD800 <=? u) && (u <=? 0xDBFF).
Definition is_low_surrogate (u : Z) : bool := (0xDC00 <=? u) && (u <=? 0xDFFF).

Definition utf8_of_code_point (cp : Z) : Buffer :=
  if cp <? 0x80 then [byte_of_Z cp]
  else if cp <? 0x800 then
    [byte_of_Z (Z.lor 0xC0 (Z.shiftr cp 6));
     byte_of_Z (Z.lor 0x80 (Z.land cp 0x3F))]
  else if cp <? 0x10000 then
    [byte_of_Z (Z.lor 0xE0 (Z.shiftr cp 12));
     byte_of_Z (Z.lor 0x80 (Z.land (Z.shiftr cp 6) 0x3F));
     byte_of_Z (Z.lor 0x80 (Z.land cp 0x3F))]
  else
    [byte_of_Z (Z.lor 0xF0 (Z.shiftr cp 18));
     byte_of_Z (Z.lor 0x80 (Z.land (Z.shiftr cp 12) 0x3F));
     byte_of_Z (Z.lor 0x80 (Z.land (Z.shiftr cp 6) 0x3F));
     byte_of_Z (Z.lor 0x80 (Z.land cp 0x3F))].

Fixpoint Buffer_from_utf8 (s : jsstring) : Buffer :=
  match s with
  | [] => []
  | u :: s' =>
      if is_high_surrogate u then
        match s' with
        | l :: s'' =>
            if is_low_surrogate l then
              utf8_of_code_point
                (0x10000 + Z.shiftl (u - 0xD800) 10 + (l - 0xDC00))
                ++ Buffer_from_utf8 s''
            else utf8_of_code_point REPLACEMENT ++ Buffer_from_utf8 s'
        | [] => utf8_of_code_point REPLACEMENT
        end
      else if is_low_surrogate u then
        utf8_of_code_point REPLACEMENT ++ Buffer_from_utf8 s'
      else utf8_of_code_point u ++ Buffer_from_utf8 s'
  end.

(** *** [buf.toString("base64")] and [Buffer.from(str, "base64")] *)
Definition base64_table : jsstring :=
  js "ABCDEFGHIJKLMNOPQRSTUVWXYZabcdefghijklmnopqrstuvwxyz0123456789+/".

Definition base64_char (n : Z) : Z := nth (Z.to_nat n) base64_table 0.

Definition PAD : Z := 61.

Fixpoint Buffer_toString_base64 (buf : Buffer) : jsstring :=
  match buf with
  | [] => []
  | [x] =>
      let a := byte_to_Z x in
      [base64_char (Z.shiftr a 2);
       base64_char (Z.shiftl (Z.land a 3) 4);
       PAD; PAD]
  | [x; y] =>
      let a := byte_to_Z x in
      let b := byte_to_Z y in
      [base64_char (Z.shiftr a 2);
       base64_char (Z.lor (Z.shiftl (Z.land a 3) 4) (Z.shiftr b 4));
       base64_char (Z.shiftl (Z.land b 0x0F) 2);
       PAD]
  | x :: y :: z :: rest =>
      let a := byte_to_Z x in
      let b := byte_to_Z y in
      let c := byte_to_Z z in
      base64_char (Z.shiftr a 2)
      :: base64_char (Z.lor (Z.shiftl (Z.land a 3) 4) (Z.shiftr b 4))
      :: base64_char (Z.lor (Z.shiftl (Z.land b 0x0F) 2) (Z.shiftr c 6))
      :: base64_char (Z.land c 0x3F)
      :: Buffer_toString_base64 rest
  end.

(** The decoder accepts both the standard and the URL-safe alphabet, skips
    every other character and stops at the first padding character. *)
Definition unbase64 (c : Z) : option Z :=
  if (65 <=? c) && (c <=? 90) then Some (c - 65)
  else if (97 <=? c) && (c <=? 122) then Some (c - 97 + 26)
  else if (48 <=? c) && (c <=? 57) then Some (c - 48 + 52)
  else if (c =? 43) || (c =? 45) then Some 62
  else if (c =? 47) || (c =? 95) then Some 63
  else None.

Fixpoint base64_sextets (s : jsstring) : list Z :=
  match s with
  | [] => []
  | c :: s' =>
      match unbase64 c with
      | Some v => v :: base64_sextets s'
      | None => if c =? PAD then [] else base64_sextets s'
      end
  end.

Definition unpack1 (hi lo : Z) : byte :=
  byte_of_Z (Z.lor (Z.shiftl (Z.land hi 0x3F) 2) (Z.shiftr (Z.land lo 0x30) 4)).
Definition unpack2 (hi lo : Z) : byte :=
  byte_of_Z (Z.lor (Z.shiftl (Z.land hi 0x0F) 4) (Z.shiftr (Z.land lo 0x3C) 2)).
Definition unpack3 (hi lo : Z) : byte :=
  byte_of_Z (Z.lor (Z.shiftl (Z.land hi 0x03) 6) (Z.land lo 0x3F)).

Fixpoint base64_unpack (vs : list Z) : Buffer :=
  match vs with
  | s1 :: s2 :: s3 :: s4 :: rest =>
      unpack1 s1 s2 :: unpack2 s2 s3 :: unpack3 s3 s4 :: base64_unpack rest
  | [s1; s2; s3] => [unpack1 s1 s2; unpack2 s2 s3]
  | [s1; s2] => [unpack1 s1 s2]
  | _ => []
  end.

Definition Buffer_from_base64 (s : jsstring) : Buffer :=
  base64_unpack (base64_sextets s).

End Platform.

(** ** Exceptions *)

(** A thrown JavaScript value; every value thrown in this program is an
    [Error] object, identified here by its message. *)
Inductive Thrown := JsError (message : string).

Inductive Exc (A : Type) : Type :=
| Ok (a : A)
| Throw (e : Thrown).
Arguments Ok {A} a.
Arguments Throw {A} e.

#[global] Instance Exc_ret : MRet Exc := fun A a => Ok a.

#[global] Instance Exc_bind : MBind Exc := fun A B f m =>
  match m with
  | Ok a => f a
  | Throw e => Throw e
  end.

(** ** config.ts *)

Module Config.
Import Platform.

Local Open Scope string_scope.
Local Open Scope list_scope.
Local Open Scope Z_scope.

Definition quote : string := String "034"%char EmptyString.

(** [mqtt.IClientOptions], as far as this program fills it in. *)
Record IClientOptions := mkClientOptions {
  clientId : jsstring;
  clean : bool;
  username : option jsstring;
  password : option jsstring
}.

Record IClientSubscribeOptions := mkSubscribeOptions {
  sub_qos : Z
}.

Record SourceMqttConfig := mkSourceMqttConfig {
  source_url : jsstring;
  topicFilter : jsstring;
  source_clientOptions : IClientOptions;
  subscribeOptions : IClientSubscribeOptions
}.

Record DestMqttConfig := mkDestMqttConfig {
  dest_url : jsstring;
  dest_clientOptions : IClientOptions;
  qosMax : Z;
  forwardRetain : bool
}.

(** [port] is the result of [parseInt]: [None] is [NaN]. *)
Record HealthCheckConfig := mkHealthCheckConfig {
  port : option Z
}.

Record SaveToFileConfig := mkSaveToFileConfig {
  enabled : bool;
  filePath : jsstring
}.

Record Config := mkConfig {
  source : SourceMqttConfig;
  dest : DestMqttConfig;
  healthCheck : HealthCheckConfig;
  saveToFile : SaveToFileConfig
}.

(** *** [parseInt(str, 10)]

    White space is skipped, then an optional sign, then the longest prefix
    of decimal digits is read; without a digit the result is [NaN], here
    [None].  The result is the mathematical integer: the Number it is
    rounded to is the same integer below 2^53, and beyond that it is still
    none of 0, 1, 2, nor negative when the integer is not.  The Number -0
    is 0 here, as it is for [===] and [<]. *)
Definition isWhiteSpace (c : Z) : bool :=
  ((9 <=? c) && (c <=? 13)) || (c =? 0x20) || (c =? 0xA0) || (c =? 0x1680)
  || ((0x2000 <=? c) && (c <=? 0x200A)) || (c =? 0x2028) || (c =? 0x2029)
  || (c =? 0x202F) || (c =? 0x205F) || (c =? 0x3000) || (c =? 0xFEFF).

Fixpoint trimStart (s : jsstring) : jsstring :=
  match s with
  | c :: s' => if isWhiteSpace c then trimStart s' else s
  | [] => []
  end.

Definition digit10 (c : Z) : option Z :=
  if (48 <=? c) && (c <=? 57) then Some (c - 48) else None.

Fixpoint digits10 (acc : option Z) (s : jsstring) : option Z :=
  match s with
  | c :: s' =>
      match digit10 c with
      | Some d => digits10 (Some (10 * default 0 acc + d)) s'
      | None => acc
      end
  | [] => acc
  end.

Definition parseInt (s : jsstring) : option Z :=
  let t := trimStart s in
  let '(sign, t') :=
    match t with
    | c :: r => if c =? 45 then (-1, r) else if c =? 43 then (1, r) else (1, t)
    | [] => (1, t)
    end in
  match digits10 None t' with
  | Some m => Some (sign * m)
  | None => None
  end.

(** *** The readers of [process.env] *)
Section Env.

Variable process_env : gmap string jsstring.

(** [crypto.randomBytes(size)]: the bytes drawn, or the error thrown for a
    size the platform refuses. *)
Variable randomBytes : Z -> Exc Buffer.

Definition getRequired (envVariable : string) : Exc jsstring :=
  match process_env !! envVariable with
  | None => Throw (JsError (envVariable +:+ " must be defined"))
  | Some variable => Ok variable
  end.

Definition getOptional (envVariable : string) : option jsstring :=
  process_env !! envVariable.

Definition getOptionalNonNegativeInteger (envVariable : string)
  : Exc (option Z) :=
  match getOptional envVariable with
  | Some str =>
      match parseInt str with
      | None =>
          Throw (JsError ("If defined, " +:+ envVariable +:+
                          " must be a non-negative integer."))
      | Some num =>
          if num <? 0 then
            Throw (JsError ("If defined, " +:+ envVariable +:+
                            " must be a non-negative integer."))
          else Ok (Some num)
      end
  | None => Ok None
  end.

Definition getOptionalBooleanWithDefault (envVariable : string)
    (defaultValue : bool) : Exc bool :=
  match getOptional envVariable with
  | Some str =>
      if negb (bool_decide (str ∈ [js "false"; js "true"])) then
        Throw (JsError (envVariable +:+
                        " must be either " +:+ quote +:+ "false"
                        +:+ quote +:+ " or " +:+ quote +:+ "true" +:+ quote))
      else Ok (bool_decide (str = js "true"))
  | None => Ok defaultValue
  end.

Definition getQoS (envVar : string) (defaultStr : string) : Exc Z :=
  match parseInt (default (js defaultStr) (process_env !! envVar)) with
  | Some qos =>
      if negb (qos =? 0) && negb (qos =? 1) && negb (qos =? 2) then
        Throw (JsError ("If defined, " +:+ envVar +:+
                        " must be 0, 1 or 2. Default is " +:+ defaultStr
                        +:+ "."))
      else Ok qos
  | None =>
      Throw (JsError ("If defined, " +:+ envVar +:+
                      " must be 0, 1 or 2. Default is " +:+ defaultStr
                      +:+ "."))
  end.

Definition getSaveToFileConfig : Exc SaveToFileConfig :=
  enabled ← getOptionalBooleanWithDefault "SAVE_MESSAGES_TO_FILE" false;
  let filePath :=
    default (js "./messages.ndjson") (getOptional "SAVE_MESSAGES_FILE_PATH") in
  Ok (mkSaveToFileConfig enabled filePath).

Definition getMqttAuthFromPaths (usernameEnv passwordEnv : string)
  : Exc (option (jsstring * jsstring)) :=
  let usernamePath := process_env !! usernameEnv in
  let passwordPath := process_env !! passwordEnv in
  match usernamePath, passwordPath with
  | Some u, Some p => Ok (Some (u, p))
  | None, None => Ok None
  | _, _ =>
      Throw (JsError ("Either both or neither of " +:+ usernameEnv +:+
                      " and " +:+ passwordEnv +:+ " must be defined"))
  end.

Definition createMqttClientId (prefixEnv suffixLengthEnv : string)
  : Exc jsstring :=
  prefix ← getRequired prefixEnv;
  n ← getOptionalNonNegativeInteger suffixLengthEnv;
  let suffixLength := default 0 n in
  bytes ← randomBytes suffixLength;
  let suffix := take (Z.to_nat suffixLength) (Buffer_toString_base64 bytes) in
  Ok (prefix ++ suffix).

Definition getSourceMqttConfig : Exc SourceMqttConfig :=
  url ← getRequired "SOURCE_MQTT_URL";
  auth ← getMqttAuthFromPaths "SOURCE_MQTT_USERNAME_PATH"
                                    "SOURCE_MQTT_PASSWORD_PATH";
  clientId ← createMqttClientId "SOURCE_MQTT_CLIENT_ID_PREFIX"
                                      "SOURCE_MQTT_CLIENT_ID_SUFFIX_LENGTH";
  topicFilter ← getRequired "SOURCE_MQTT_TOPIC_FILTER";
  qos ← getQoS "SOURCE_MQTT_QOS" "2";
  clean ← getOptionalBooleanWithDefault "SOURCE_MQTT_CLEAN_SESSION" false;
  Ok (mkSourceMqttConfig url topicFilter
        (mkClientOptions clientId clean (fst <$> auth) (snd <$> auth))
        (mkSubscribeOptions qos)).

Definition getDestMqttConfig : Exc DestMqttConfig :=
  url ← getRequired "DEST_MQTT_URL";
  auth ← getMqttAuthFromPaths "DEST_MQTT_USERNAME_PATH"
                                    "DEST_MQTT_PASSWORD_PATH";
  clientId ← createMqttClientId "DEST_MQTT_CLIENT_ID_PREFIX"
                                      "DEST_MQTT_CLIENT_ID_SUFFIX_LENGTH";
  clean ← getOptionalBooleanWithDefault "DEST_MQTT_CLEAN_SESSION" true;
  qosMax ← getQoS "FORWARD_QOS_MAX" "1";
  forwardRetain ← getOptionalBooleanWithDefault "FORWARD_RETAIN" true;
  Ok (mkDestMqttConfig url
        (mkClientOptions clientId clean (fst <$> auth) (snd <$> auth))
        qosMax forwardRetain).

Definition getHealthCheckConfig : Exc HealthCheckConfig :=
  Ok (mkHealthCheckConfig
        (parseInt (default (js "8080") (getOptional "HEALTH_CHECK_PORT")))).

Definition getConfig : Exc Config :=
  source ← getSourceMqttConfig;
  dest ← getDestMqttConfig;
  healthCheck ← getHealthCheckConfig;
  saveToFile ← getSaveToFileConfig;
  Ok (mkConfig source dest healthCheck saveToFile).

End Env.

End Config.

(** ** The outside world: effects, state and the monad of the handlers *)

Module World.
Import Platform Config.

Inductive LogLevel := Debug | Info | Warn | Error | Fatal.

Inductive LogVal :=
| VNum (n : Z)
| VBool (b : bool)
| VStr (s : jsstring)
| VName (s : string)
| VErr (e : Thrown).

Inductive ClientName := SourceClient | DestClient.

Inductive Encoding := utf8 | base64.

(** The object that [JSON.stringify] turns into one NDJSON line. *)
Record AuditRecord := mkAuditRecord {
  time : jsstring;
  topic : jsstring;
  incomingQos : Z;
  incomingRetain : bool;
  dup : bool;
  payloadEncoding : Encoding;
  payload : jsstring
}.

(** The closures that are registered as listeners, by what they capture. *)
Inductive Handler :=
| HLogEvent (lvl : LogLevel) (name : string) (clientId : jsstring) (msg : string)
| HMessage (dest : DestMqttConfig) (saveToFile : option SaveToFileConfig)
| HReport
| HWriterError
| HWriterClose
| HCloseWriterIfOpen.

Inductive Effect :=
| ELog (lvl : LogLevel) (fields : list (string * LogVal)) (msg : string)
| EConnect (url : jsstring) (options : IClientOptions)
| EOn (client : ClientName) (event : string) (h : Handler)
| EMkdirSync (dir : jsstring)
| ECreateWriteStream (path : jsstring)
| EWriterOn (event : string) (h : Handler)
| ESetInterval (h : Handler) (ms : Z)
| EWriterWrite (record : AuditRecord)
| EWriterEnd
| EPublish (topic : jsstring) (message : Buffer) (qos : Z) (retain : bool)
| ESubscribe (topicFilter : jsstring) (options : IClientSubscribeOptions)
| EUnsubscribe (topicFilter : jsstring)
| EClientEnd (client : ClientName)
| ESetHealthOk (isOk : bool)
| ECloseHealthCheckServer
| ESetExitCode (exitCode : Z)
| EProcessExit.

Inductive WriteStream := WriteStreamOn (path : jsstring).

(** The variables that the closures of [createDuplicator] share. *)
Record State := mkState {
  nRecentForwarded : Z;
  nRecentDropped : Z;
  writer : option WriteStream;
  writerClosed : bool
}.

Record Result (A : Type) := mkResult {
  trace : list Effect;
  final : State;
  outcome : Exc A
}.
Arguments mkResult {A} trace final outcome.
Arguments trace {A} r.
Arguments final {A} r.
Arguments outcome {A} r.

(** A computation reads and writes the shared variables, leaves a trace of
    calls to the outside and returns or throws. *)
Record M (A : Type) := mkM { run : State -> Result A }.
Arguments mkM {A} run.
Arguments run {A} m st.

#[global] Instance M_ret : MRet M := fun A a =>
  mkM (fun st => mkResult [] st (Ok a)).

#[global] Instance M_bind : MBind M := fun A B f m =>
  mkM (fun st =>
    match run m st with
    | mkResult t st' (Ok a) =>
        match run (f a) st' with
        | mkResult t' st'' o => mkResult (t ++ t') st'' o
        end
    | mkResult t st' (Throw e) => mkResult t st' (Throw e)
    end).

Definition throw {A} (e : Thrown) : M A :=
  mkM (fun st => mkResult [] st (Throw e)).

(** A call to the outside that cannot fail. *)
Definition perform (e : Effect) : M unit :=
  mkM (fun st => mkResult [e] st (Ok tt)).

(** A call to the outside together with what the outside answers. *)
Definition call (e : Effect) (answer : Exc unit) : M unit :=
  mkM (fun st => mkResult [e] st answer).

Definition try_catch {A} (body : M A) (handler : Thrown -> M A) : M A :=
  mkM (fun st =>
    match run body st with
    | mkResult t st' (Ok a) => mkResult t st' (Ok a)
    | mkResult t st' (Throw e) =>
        match run (handler e) st' with
        | mkResult t' st'' o => mkResult (t ++ t') st'' o
        end
    end).

Definition get : M State := mkM (fun st => mkResult [] st (Ok st)).
Definition put (st : State) : M unit := mkM (fun _ => mkResult [] st (Ok tt)).

Definition when (c : bool) (m : M unit) : M unit := if c then m else mret tt.

(** Addition of 1 to a counter.  A counter starts at 0 and is only ever
    incremented or reset, so it holds an integer between 0 and 2^53; there
    the Number addition is exact below 2^53 and rounds back to 2^53 at
    2^53. *)
Definition add1 (n : Z) : Z := Z.min (n + 1) (2 ^ 53).

Definition Math_min (a b : Z) : Z := Z.min a b.

End World.

(** ** mqtt.ts *)

Module Mqtt.
Import Platform Config World.

Local Open Scope string_scope.
Local Open Scope list_scope.
Local Open Scope Z_scope.

(** The [packet] argument of the "message" listener. *)
Record Packet := mkPacket {
  packet_qos : Z;
  packet_retain : bool;
  packet_dup : bool
}.

(** What the outside answers while one message is handled: the clock read
    by [new Date().toISOString()] and the result of [writer.write]. *)
Record AuditEnv := mkAuditEnv {
  now : jsstring;
  write_answer : Exc unit
}.

(** What the outside answers during [createDuplicator]. *)
Record StartupEnv := mkStartupEnv {
  connect_source : Exc unit;
  connect_dest : Exc unit;
  mkdirSync_answer : Exc unit;
  createWriteStream_answer : Exc unit;
  subscribe_answer : Exc unit
}.

Definition set_nRecentForwarded (n : Z) (st : State) : State :=
  mkState n (nRecentDropped st) (writer st) (writerClosed st).
Definition set_nRecentDropped (n : Z) (st : State) : State :=
  mkState (nRecentForwarded st) n (writer st) (writerClosed st).
Definition set_writer (w : option WriteStream) (st : State) : State :=
  mkState (nRecentForwarded st) (nRecentDropped st) w (writerClosed st).
Definition set_writerClosed (b : bool) (st : State) : State :=
  mkState (nRecentForwarded st) (nRecentDropped st) (writer st) b.

Definition logIntervalInSeconds : Z := 60.

(** [saveToFile?.enabled] *)
Definition saveEnabled (saveToFile : option SaveToFileConfig) : bool :=
  from_option enabled false saveToFile.

Definition connectMqtt (name : string) (url : jsstring)
    (options : IClientOptions) (answer : Exc unit) : M unit :=
  perform (ELog Info [("name", VName name); ("url", VStr url)]
             "Connect to MQTT broker");;
  call (EConnect url options) answer.

Definition attachClientEventLogs (name : string) (client : ClientName)
    (clientId : jsstring) : M unit :=
  perform (EOn client "connect"
             (HLogEvent Debug name clientId "MQTT client connected"));;
  perform (EOn client "reconnect"
             (HLogEvent Warn name clientId "MQTT client reconnecting"));;
  perform (EOn client "close"
             (HLogEvent Warn name clientId "MQTT client connection closed"));;
  perform (EOn client "offline"
             (HLogEvent Warn name clientId "MQTT client offline"));;
  perform (EOn client "error"
             (HLogEvent Error name clientId "MQTT client error")).

(** The body of a listener installed by [attachClientEventLogs]. *)
Definition logEvent (lvl : LogLevel) (name : string) (clientId : jsstring)
    (msg : string) (err : option Thrown) : M unit :=
  perform (ELog lvl
             ([("name", VName name); ("clientId", VStr clientId)]
              ++ match err with Some e => [("err", VErr e)] | None => [] end)
             msg).

(** The body of the timer callback. *)
Definition report : M unit :=
  st ← get;
  perform (ELog Info [("nRecentForwarded", VNum (nRecentForwarded st));
                      ("nRecentDropped", VNum (nRecentDropped st))]
             "messages forwarded to destination MQTT");;
  st ← get;
  put (set_nRecentForwarded 0 st);;
  st ← get;
  put (set_nRecentDropped 0 st).

(** The listeners of the write stream. *)
Definition writerOnError (err : Thrown) : M unit :=
  perform (ELog Error [("err", VErr err)] "File writer error").

Definition writerOnClose : M unit :=
  st ← get;
  put (set_writerClosed true st).

(** The payload text of a record and its encoding. *)
Definition encodePayload (message : Buffer) : M (Encoding * jsstring) :=
  try_catch
    (let payload := Buffer_toString_utf8 message in
     if negb (Buffer_equals (Buffer_from_utf8 payload) message) then
       mret (base64, Buffer_toString_base64 message)
     else mret (utf8, payload))
    (fun _ => mret (base64, Buffer_toString_base64 message)).

(** The two callbacks passed to [then] on the promise of a publish. *)
Definition publishFulfilled (topic : jsstring) (message : Buffer) (qos : Z)
    (retain : bool) : M unit :=
  st ← get;
  put (set_nRecentForwarded (add1 (nRecentForwarded st)) st);;
  perform (ELog Debug [("topic", VStr topic); ("qos", VNum qos);
                       ("retain", VBool retain);
                       ("payloadBytes", VNum (Z.of_nat (length message)))]
             "Published message to destination MQTT").

Section WithHelpers.

(** Two helpers stay parameters: [transformUnknownToError] of util.ts,
    which turns whatever was thrown into an [Error], and [path.dirname] of
    the platform. *)
Variable transformUnknownToError : Thrown -> Thrown.
Variable path_dirname : jsstring -> jsstring.

Definition ensureWriter (saveToFile : option SaveToFileConfig)
    (env : StartupEnv) : M unit :=
  st ← get;
  if negb (saveEnabled saveToFile) || bool_decide (is_Some (writer st))
     || writerClosed st then mret tt
  else
    match saveToFile with
    | None => mret tt
    | Some cfg =>
        try_catch
          (let dir := path_dirname (filePath cfg) in
           when (negb (bool_decide (dir = [])) && negb (bool_decide (dir = js ".")))
             (call (EMkdirSync dir) (mkdirSync_answer env));;
           call (ECreateWriteStream (filePath cfg)) (createWriteStream_answer env);;
           st ← get;
           put (set_writer (Some (WriteStreamOn (filePath cfg))) st);;
           perform (EWriterOn "error" HWriterError);;
           perform (EWriterOn "close" HWriterClose);;
           perform (ELog Info [("filePath", VStr (filePath cfg))]
                      "Enabled save-to-file"))
          (fun err =>
             perform (ELog Error [("err", VErr err)]
                        "Failed to initialize save-to-file writer"))
    end.

Definition publishRejected (topic : jsstring) (qos : Z) (retain : bool)
    (error : Thrown) : M unit :=
  let err := transformUnknownToError error in
  perform (ELog Error [("err", VErr err); ("topic", VStr topic);
                       ("qos", VNum qos); ("retain", VBool retain)]
             "Publishing to destination failed");;
  st ← get;
  put (set_nRecentDropped (add1 (nRecentDropped st)) st).

(** The "message" listener of the source client. *)
Definition onMessage (dest : DestMqttConfig)
    (saveToFile : option SaveToFileConfig)
    (topic : jsstring) (message : Buffer) (packet : Packet)
    (env : AuditEnv) : M unit :=
  let qos := Math_min (packet_qos packet) (qosMax dest) in
  let retain := if forwardRetain dest then packet_retain packet else false in
  perform (ELog Debug [("topic", VStr topic);
                       ("incomingQos", VNum (packet_qos packet));
                       ("incomingRetain", VBool (packet_retain packet));
                       ("dup", VBool (packet_dup packet));
                       ("payloadBytes", VNum (Z.of_nat (length message)))]
             "Received message from source MQTT");;
  st ← get;
  when (saveEnabled saveToFile && bool_decide (is_Some (writer st))
        && negb (writerClosed st))
    (try_catch
       ('(payloadEncoding, payload) ← encodePayload message;
        let record :=
          mkAuditRecord (now env) topic (packet_qos packet)
            (packet_retain packet) (packet_dup packet)
            payloadEncoding payload in
        call (EWriterWrite record) (write_answer env))
       (fun err =>
          perform (ELog Error [("err", VErr err)]
                     "Failed to write message to file")));;
  perform (EPublish topic message qos retain).

Definition unsubscribe (source : SourceMqttConfig) (answer : Exc unit)
  : M unit :=
  try_catch
    (call (EUnsubscribe (topicFilter source)) answer)
    (fun err => throw (transformUnknownToError err)).

Definition closeWriterIfOpen (end_answer : Exc unit) : M unit :=
  st ← get;
  when (bool_decide (is_Some (writer st)) && negb (writerClosed st))
    (try_catch
       (call EWriterEnd end_answer)
       (fun err =>
          perform (ELog Error [("err", VErr err)]
                     "Failed to close file writer"))).

Record DuplicatorClients := mkDuplicatorClients {
  sourceClient : ClientName;
  destClient : ClientName;
  dc_unsubscribe : Exc unit -> M unit
}.

Definition createDuplicator (source : SourceMqttConfig)
    (dest : DestMqttConfig) (saveToFile : option SaveToFileConfig)
    (env : StartupEnv) : M DuplicatorClients :=
  connectMqtt "source" (source_url source) (source_clientOptions source)
    (connect_source env);;
  connectMqtt "dest" (dest_url dest) (dest_clientOptions dest)
    (connect_dest env);;
  attachClientEventLogs "source" SourceClient
    (clientId (source_clientOptions source));;
  attachClientEventLogs "dest" DestClient
    (clientId (dest_clientOptions dest));;
  put (mkState 0 0 None false);;
  ensureWriter saveToFile env;;
  perform (ESetInterval HReport (1000 * logIntervalInSeconds));;
  perform (EOn SourceClient "message" (HMessage dest saveToFile));;
  perform (ELog Info [] "Subscribe to source MQTT topics");;
  try_catch
    (call (ESubscribe (topicFilter source) (subscribeOptions source))
          (subscribe_answer env);;
     perform (ELog Debug [("topicFilter", VStr (topicFilter source));
                          ("qos", VNum (sub_qos (subscribeOptions source)));
                          ("clientId",
                           VStr (clientId (source_clientOptions source)))]
                "Subscribed to source MQTT topics"))
    (fun err =>
       perform (ELog Fatal [("err", VErr err)]
                  "Subscribing to source MQTT topics failed");;
       throw err);;
  perform (EOn SourceClient "close" HCloseWriterIfOpen);;
  perform (EOn DestClient "close" HCloseWriterIfOpen);;
  mret (mkDuplicatorClients SourceClient DestClient (unsubscribe source)).

(** *** The event loop after start-up

    One [Event] is one callback invocation by the platform, with what the
    listener receives and what the outside answers during it. *)
Inductive ClientNotice := Connect | Reconnect | Offline | ClientError (err : Thrown).

Inductive Event :=
| Message (topic : jsstring) (message : Buffer) (packet : Packet) (env : AuditEnv)
| PublishFulfilled (topic : jsstring) (message : Buffer) (qos : Z) (retain : bool)
| PublishRejected (topic : jsstring) (qos : Z) (retain : bool) (error : Thrown)
| Interval
| WriterError (err : Thrown)
| WriterClose
| ClientNoticed (client : ClientName) (what : ClientNotice)
| ClientClose (client : ClientName) (end_answer : Exc unit).

Definition clientName (c : ClientName) : string :=
  match c with SourceClient => "source" | DestClient => "dest" end.

Definition clientIdOf (source : SourceMqttConfig) (dest : DestMqttConfig)
    (c : ClientName) : jsstring :=
  match c with
  | SourceClient => clientId (source_clientOptions source)
  | DestClient => clientId (dest_clientOptions dest)
  end.

(** The listeners of a client's "close" event, in the order in which
    [createDuplicator] installs them. *)
Definition onClientClose (source : SourceMqttConfig) (dest : DestMqttConfig)
    (c : ClientName) (end_answer : Exc unit) : M unit :=
  logEvent Warn (clientName c) (clientIdOf source dest c)
    "MQTT client connection closed" None;;
  closeWriterIfOpen end_answer.

Definition dispatch (source : SourceMqttConfig) (dest : DestMqttConfig)
    (saveToFile : option SaveToFileConfig) (ev : Event) : M unit :=
  match ev with
  | Message topic message packet env =>
      onMessage dest saveToFile topic message packet env
  | PublishFulfilled topic message qos retain =>
      publishFulfilled topic message qos retain
  | PublishRejected topic qos retain error =>
      publishRejected topic qos retain error
  | Interval => report
  | WriterError err => writerOnError err
  | WriterClose => writerOnClose
  | ClientNoticed c Connect =>
      logEvent Debug (clientName c) (clientIdOf source dest c)
        "MQTT client connected" None
  | ClientNoticed c Reconnect =>
      logEvent Warn (clientName c) (clientIdOf source dest c)
        "MQTT client reconnecting" None
  | ClientNoticed c Offline =>
      logEvent Warn (clientName c) (clientIdOf source dest c)
        "MQTT client offline" None
  | ClientNoticed c (ClientError err) =>
      logEvent Error (clientName c) (clientIdOf source dest c)
        "MQTT client error" (Some err)
  | ClientClose c end_answer => onClientClose source dest c end_answer
  end.

Fixpoint dispatchAll (source : SourceMqttConfig) (dest : DestMqttConfig)
    (saveToFile : option SaveToFileConfig) (evs : list Event) : M unit :=
  match evs with
  | [] => mret tt
  | ev :: evs' =>
      dispatch source dest saveToFile ev;;
      dispatchAll source dest saveToFile evs'
  end.

End WithHelpers.

End Mqtt.

(** ** index.ts *)

Module Index.
Import Platform Config World Mqtt.

Local Open Scope string_scope.
Local Open Scope list_scope.
Local Open Scope Z_scope.

(** An [mqtt.AsyncMqttClient], as far as [exitGracefully] uses it. *)
Record AsyncMqttClient := mkAsyncMqttClient {
  client_end : M unit
}.

Definition exitGracefully (exitCode : Z) (exitError : option Thrown)
    (setHealthOk : option (bool -> M unit))
    (closeHealthCheckServer : option (M unit))
    (sourceClient destClient : option AsyncMqttClient)
    (mqttUnsubscribe : option (M unit)) : M unit :=
  match exitError with
  | Some e => perform (ELog Fatal [("err", VErr e)] EmptyString)
  | None => mret tt
  end;;
  perform (ELog Info [] "Start exiting gracefully");;
  perform (ESetExitCode exitCode);;
  try_catch
    match setHealthOk with
    | Some setHealthOk =>
        perform (ELog Info [] "Set health checks to fail");;
        setHealthOk false
    | None => mret tt
    end
    (fun err =>
       perform (ELog Error [("err", VErr err)]
                  "Something went wrong when setting health checks to fail"));;
  try_catch
    match mqttUnsubscribe with
    | Some mqttUnsubscribe =>
        perform (ELog Info [] "Unsubscribe from source MQTT topics");;
        mqttUnsubscribe
    | None => mret tt
    end
    (fun err =>
       perform (ELog Error [("err", VErr err)]
                  "Something went wrong when unsubscribing from MQTT topics"));;
  try_catch
    match sourceClient with
    | Some sourceClient =>
        perform (ELog Info [] "Disconnect source MQTT client");;
        client_end sourceClient
    | None => mret tt
    end
    (fun err =>
       perform (ELog Error [("err", VErr err)]
                  "Something went wrong when disconnecting source MQTT client"));;
  try_catch
    match destClient with
    | Some destClient =>
        perform (ELog Info [] "Disconnect destination MQTT client");;
        client_end destClient
    | None => mret tt
    end
    (fun err =>
       perform (ELog Error [("err", VErr err)]
                  "Something went wrong when disconnecting destination MQTT client"));;
  try_catch
    match closeHealthCheckServer with
    | Some closeHealthCheckServer =>
        perform (ELog Info [] "Close health check server");;
        closeHealthCheckServer
    | None => mret tt
    end
    (fun err =>
       perform (ELog Error [("err", VErr err)]
                  "Something went wrong when closing health check server"));;
  perform (ELog Info [] "Exit process");;
  perform EProcessExit.

(** *** The objects that the main function hands to [exitGracefully]

    What the outside answers to [client.end()]: whether the client's
    "close" event is delivered to its listeners while the call is pending,
    what [writer.end()] answers if a listener calls it, and how the call
    itself ends. *)
Record EndAnswer := mkEndAnswer {
  close_emitted : bool;
  writer_end_answer : Exc unit;
  end_result : Exc unit
}.

Record ShutdownEnv := mkShutdownEnv {
  setHealthOk_answer : Exc unit;
  unsubscribe_answer : Exc unit;
  source_end : EndAnswer;
  dest_end : EndAnswer;
  closeHealthCheckServer_answer : Exc unit
}.

Section Process.

Variable transformUnknownToError : Thrown -> Thrown.
Variable source : SourceMqttConfig.
Variable dest : DestMqttConfig.

(** A connected client on which [createDuplicator] has installed its
    listeners. *)
Definition client (c : ClientName) (ans : EndAnswer) : AsyncMqttClient :=
  mkAsyncMqttClient
    (perform (EClientEnd c);;
     when (close_emitted ans)
       (onClientClose source dest c (writer_end_answer ans));;
     mkM (fun st => mkResult [] st (end_result ans))).

(** Modelled from the spec: healthCheck.ts, whose [createHealthCheckServer]
    returns [setHealthOk] and [closeHealthCheckServer].  The health surface
    is an external collaborator that exposes [setHealthOk(bool)]; both
    operations are calls to the outside that return or throw. *)
Definition setHealthOk (env : ShutdownEnv) (isOk : bool) : M unit :=
  call (ESetHealthOk isOk) (setHealthOk_answer env).

(** Modelled from the spec: healthCheck.ts, the closing of the auxiliary
    health check server. *)
Definition closeHealthCheckServer (env : ShutdownEnv) : M unit :=
  call ECloseHealthCheckServer (closeHealthCheckServer_answer env).

(** [exitHandler] once the main function has received every handle. *)
Definition exitHandler (env : ShutdownEnv) (exitCode : Z)
    (exitError : option Thrown) : M unit :=
  exitGracefully exitCode exitError
    (Some (setHealthOk env))
    (Some (closeHealthCheckServer env))
    (Some (client SourceClient (source_end env)))
    (Some (client DestClient (dest_end env)))
    (Some (unsubscribe transformUnknownToError source (unsubscribe_answer env))).

End Process.

End Index.

(** ** Vocabulary of the properties *)

Module Bits.
Import Platform.

(** Checking a boolean property of small numbers by enumeration. *)
Definition below (n : nat) : list Z := map Z.of_nat (seq 0 n).

(** The four sextets of a group of three octets. *)
Definition sextet1 (a : Z) : Z := Z.shiftr a 2.
Definition sextet2 (a b : Z) : Z := Z.lor (Z.shiftl (Z.land a 3) 4) (Z.shiftr b 4).
Definition sextet3 (b c : Z) : Z := Z.lor (Z.shiftl (Z.land b 0x0F) 2) (Z.shiftr c 6).
Definition sextet4 (c : Z) : Z := Z.land c 0x3F.

Definition is_sextet (v : Z) : bool := (0 <=? v) && (v <? 64).

Definition unbase64_inverts (v : Z) : bool :=
  match unbase64 (base64_char v) with
  | Some w => w =? v
  | None => false
  end.

Definition eqZ2 (f g : Z -> Z -> Z) (a b : Z) : bool := f a b =? g a b.

End Bits.

Module Observe.
Import Platform Config World Mqtt Index.

Local Open Scope string_scope.
Local Open Scope list_scope.
Local Open Scope Z_scope.

(** The condition under which the listener writes a record. *)
Definition auditing (saveToFile : option SaveToFileConfig) (st : State) : bool :=
  saveEnabled saveToFile && bool_decide (is_Some (writer st))
  && negb (writerClosed st).

(** Strict validation: decode to text, encode again, compare the octets. *)
Definition strict_utf8_round_trip (message : Buffer) : bool :=
  Buffer_equals (Buffer_from_utf8 (Buffer_toString_utf8 message)) message.

Definition encoded (message : Buffer) : Encoding * jsstring :=
  if strict_utf8_round_trip message then (utf8, Buffer_toString_utf8 message)
  else (base64, Buffer_toString_base64 message).

Definition recordOf (topic : jsstring) (message : Buffer) (packet : Packet)
    (env : AuditEnv) : AuditRecord :=
  mkAuditRecord (now env) topic (packet_qos packet) (packet_retain packet)
    (packet_dup packet) (fst (encoded message)) (snd (encoded message)).

Definition writeFailureLog (env : AuditEnv) : list Effect :=
  match write_answer env with
  | Ok _ => []
  | Throw e => [ELog Error [("err", VErr e)] "Failed to write message to file"]
  end.

Definition receivedLog (topic : jsstring) (message : Buffer) (packet : Packet)
  : Effect :=
  ELog Debug [("topic", VStr topic);
              ("incomingQos", VNum (packet_qos packet));
              ("incomingRetain", VBool (packet_retain packet));
              ("dup", VBool (packet_dup packet));
              ("payloadBytes", VNum (Z.of_nat (length message)))]
    "Received message from source MQTT".

Definition publishOf (dest : DestMqttConfig) (topic : jsstring)
    (message : Buffer) (packet : Packet) : Effect :=
  EPublish topic message
    (Math_min (packet_qos packet) (qosMax dest))
    (if forwardRetain dest then packet_retain packet else false).

(** A computation of the configuration that throws. *)
Definition is_throw {A} (x : Exc A) : Prop := exists e, x = Throw e.

(** *** Reading a trace *)

Definition is_publish (e : Effect) : bool :=
  match e with EPublish _ _ _ _ => true | _ => false end.

Definition is_error_log (e : Effect) : bool :=
  match e with ELog Error _ _ => true | _ => false end.

(** The calls of [destClient.publish], in order. *)
Definition publishes (t : list Effect) : list Effect := List.filter is_publish t.

Definition published_qos (t : list Effect) : list Z :=
  flat_map (fun e => match e with EPublish _ _ qos _ => [qos] | _ => [] end) t.

Definition published_retain (t : list Effect) : list bool :=
  flat_map (fun e => match e with EPublish _ _ _ retain => [retain] | _ => [] end) t.

Definition published_topic_payload (t : list Effect) : list (jsstring * Buffer) :=
  flat_map (fun e => match e with
                     | EPublish topic message _ _ => [(topic, message)]
                     | _ => []
                     end) t.

(** The records handed to [writer.write], in order. *)
Definition written (t : list Effect) : list AuditRecord :=
  flat_map (fun e => match e with EWriterWrite r => [r] | _ => [] end) t.

Definition error_logs (t : list Effect) : list Effect := List.filter is_error_log t.

(** How a reader of the NDJSON file gets the octets of a payload back:
    the text is encoded as UTF-8 or decoded from Base64 according to the
    [payloadEncoding] field. *)
Definition reconstructed_bytes (r : AuditRecord) : Buffer :=
  match payloadEncoding r with
  | utf8 => Buffer_from_utf8 (payload r)
  | base64 => Buffer_from_base64 (payload r)
  end.

(** One delivery of the "message" event. *)
Record Inbound := mkInbound {
  in_topic : jsstring;
  in_message : Buffer;
  in_packet : Packet;
  in_env : AuditEnv
}.

Definition messageEvent (i : Inbound) : Event :=
  Message (in_topic i) (in_message i) (in_packet i) (in_env i).

(** The trace of one run of the "message" listener. *)
Definition messageTrace (dest : DestMqttConfig)
    (saveToFile : option SaveToFileConfig) (st : State) (i : Inbound)
  : list Effect :=
  receivedLog (in_topic i) (in_message i) (in_packet i)
  :: (if auditing saveToFile st then
        EWriterWrite (recordOf (in_topic i) (in_message i) (in_packet i) (in_env i))
        :: writeFailureLog (in_env i)
      else [])
  ++ [publishOf dest (in_topic i) (in_message i) (in_packet i)].

(** One rejected promise of a destination publish. *)
Record Failure := mkFailure {
  f_topic : jsstring;
  f_qos : Z;
  f_retain : bool;
  f_error : Thrown
}.

Definition rejectedEvent (f : Failure) : Event :=
  PublishRejected (f_topic f) (f_qos f) (f_retain f) (f_error f).

Definition is_subscribe (e : Effect) : bool :=
  match e with ESubscribe _ _ => true | _ => false end.

Definition no_subscribe (t : list Effect) : bool :=
  forallb (fun e => negb (is_subscribe e)) t.

(** *** Reading the trace of a shutdown *)

Definition is_shutdown_step (e : Effect) : bool :=
  match e with
  | ESetHealthOk _ | EUnsubscribe _ | EClientEnd _
  | ECloseHealthCheckServer | EProcessExit => true
  | _ => false
  end.

Definition is_writer_end (e : Effect) : bool :=
  match e with EWriterEnd => true | _ => false end.

(** The steps of the shutdown and the calls of [writer.end], in order. *)
Definition shutdown_view (t : list Effect) : list Effect :=
  List.filter (fun e => is_shutdown_step e || is_writer_end e) t.

Definition writer_open (st : State) : bool :=
  bool_decide (is_Some (writer st)) && negb (writerClosed st).

Inductive Step :=
| StepHealth | StepUnsubscribe | StepSourceEnd | StepDestEnd | StepHealthServer.

Definition thrown (answer : Exc unit) : option Thrown :=
  match answer with Ok _ => None | Throw e => Some e end.

(** What a step of [exitGracefully] catches, if anything. *)
Definition step_failure (toErr : Thrown -> Thrown) (env : ShutdownEnv)
    (s : Step) : option Thrown :=
  match s with
  | StepHealth => thrown (setHealthOk_answer env)
  | StepUnsubscribe => toErr <$> thrown (unsubscribe_answer env)
  | StepSourceEnd => thrown (end_result (source_end env))
  | StepDestEnd => thrown (end_result (dest_end env))
  | StepHealthServer => thrown (closeHealthCheckServer_answer env)
  end.

Definition step_message (s : Step) : string :=
  match s with
  | StepHealth => "Something went wrong when setting health checks to fail"
  | StepUnsubscribe => "Something went wrong when unsubscribing from MQTT topics"
  | StepSourceEnd => "Something went wrong when disconnecting source MQTT client"
  | StepDestEnd =>
      "Something went wrong when disconnecting destination MQTT client"
  | StepHealthServer => "Something went wrong when closing health check server"
  end.

(** The error log of a step that caught something. *)
Definition caught (msg : string) (o : Exc unit) : list Effect :=
  match o with
  | Ok _ => []
  | Throw e => [ELog Error [("err", VErr e)] msg]
  end.

(** The order of the shutdown contract, read on a trace: the audit sink is
    closed only after the destination session has been closed. *)
Definition audit_sink_closed_last (t : list Effect) : Prop :=
  forall l1 l2, t = l1 ++ EWriterEnd :: l2 -> In (EClientEnd DestClient) l1.

(** The payloads of the two examples: the text [{"a":1}] and four octets
    that are no UTF-8. *)
Definition json_payload : Buffer :=
  [x7b; x22; x61; x22; x3a; x31; x7d].

Definition raw_payload : Buffer := [xff; xfe; x00; x01].

End Observe.

(** ** Concrete inputs *)

Module Sample.
Import Platform Config World Mqtt Observe.

Local Open Scope string_scope.
Local Open Scope list_scope.
Local Open Scope Z_scope.

Definition source : SourceMqttConfig :=
  mkSourceMqttConfig (js "mqtt://source") (js "apc-from-vehicle/#")
    (mkClientOptions (js "source-client") false None None)
    (mkSubscribeOptions 2).

Definition dest : DestMqttConfig :=
  mkDestMqttConfig (js "mqtt://dest")
    (mkClientOptions (js "dest-client") true None None) 1 true.

Definition saveToFile : SaveToFileConfig :=
  mkSaveToFileConfig true (js "./messages.ndjson").

(** The shared variables once the writer is open. *)
Definition open_state : State :=
  mkState 0 0 (Some (WriteStreamOn (js "./messages.ndjson"))) false.

Definition clock : jsstring := js "2025-10-30T16:05:00.123Z".

Definition write_ok : AuditEnv := mkAuditEnv clock (Ok tt).
Definition write_fails : AuditEnv := mkAuditEnv clock (Throw (JsError "ENOSPC")).

Definition hi : Buffer := [x68; x69].

(** The text [a], a NUL, the text [b]. *)
Definition with_nul : Buffer := [x61; x00; x62].

Definition inbound : Inbound :=
  mkInbound (js "t/1") hi (mkPacket 2 true false) write_ok.

Definition failure : Failure :=
  mkFailure (js "t/1") 1 true (JsError "connection lost").

Definition startup_ok : StartupEnv :=
  mkStartupEnv (Ok tt) (Ok tt) (Ok tt) (Ok tt) (Ok tt).

Definition toErr (e : Thrown) : Thrown := e.

(** An environment that sets what the destination needs and leaves
    [FORWARD_QOS_MAX] out, and one that sets it to 3. *)
Definition process_env : gmap string jsstring :=
  list_to_map
    [("SOURCE_MQTT_URL", js "mqtt://source");
     ("SOURCE_MQTT_CLIENT_ID_PREFIX", js "dup-source-");
     ("SOURCE_MQTT_TOPIC_FILTER", js "apc-from-vehicle/#");
     ("DEST_MQTT_URL", js "mqtt://dest");
     ("DEST_MQTT_CLIENT_ID_PREFIX", js "dup-dest-")].

Definition process_env_3 : gmap string jsstring :=
  <["FORWARD_QOS_MAX" := js "3"]> process_env.

Definition randomBytes (size : Z) : Exc Buffer :=
  Ok (repeat x00 (Z.to_nat size)).

(** A shutdown in which every call succeeds and each client delivers its
    "close" event while it is being ended. *)
Definition shutdown_env : Index.ShutdownEnv :=
  Index.mkShutdownEnv (Ok tt) (Ok tt)
    (Index.mkEndAnswer true (Ok tt) (Ok tt))
    (Index.mkEndAnswer true (Ok tt) (Ok tt))
    (Ok tt).

(** A shutdown in which unsubscribing fails. *)
Definition shutdown_env_failing : Index.ShutdownEnv :=
  Index.mkShutdownEnv (Ok tt) (Throw (JsError "client disconnecting"))
    (Index.mkEndAnswer true (Ok tt) (Ok tt))
    (Index.mkEndAnswer true (Ok tt) (Ok tt))
    (Ok tt).

Definition dirname (path : jsstring) : jsstring := js ".".

End Sample.

(** ** Vocabulary of the further properties *)

Module Reading.
Import Platform Config World Mqtt Index Observe.

Local Open Scope string_scope.
Local Open Scope list_scope.
Local Open Scope Z_scope.

(** *** The environment variables *)

Definition required_variables : list string :=
  ["SOURCE_MQTT_URL"; "SOURCE_MQTT_CLIENT_ID_PREFIX";
   "SOURCE_MQTT_TOPIC_FILTER"; "DEST_MQTT_URL";
   "DEST_MQTT_CLIENT_ID_PREFIX"].

Definition optional_variables : list string :=
  ["HEALTH_CHECK_PORT";
   "SOURCE_MQTT_USERNAME_PATH"; "SOURCE_MQTT_PASSWORD_PATH";
   "SOURCE_MQTT_CLIENT_ID_SUFFIX_LENGTH"; "SOURCE_MQTT_QOS";
   "SOURCE_MQTT_CLEAN_SESSION";
   "DEST_MQTT_USERNAME_PATH"; "DEST_MQTT_PASSWORD_PATH";
   "DEST_MQTT_CLIENT_ID_SUFFIX_LENGTH"; "DEST_MQTT_CLEAN_SESSION";
   "FORWARD_QOS_MAX"; "FORWARD_RETAIN";
   "SAVE_MESSAGES_TO_FILE"; "SAVE_MESSAGES_FILE_PATH"].

Definition boolean_variables : list string :=
  ["SOURCE_MQTT_CLEAN_SESSION"; "DEST_MQTT_CLEAN_SESSION";
   "FORWARD_RETAIN"; "SAVE_MESSAGES_TO_FILE"].

Definition suffix_length_variables : list string :=
  ["SOURCE_MQTT_CLIENT_ID_SUFFIX_LENGTH"; "DEST_MQTT_CLIENT_ID_SUFFIX_LENGTH"].

(** The characters of the Base64 alphabet, the padding character not
    among them. *)
Definition is_base64_char (c : Z) : bool :=
  ((65 <=? c) && (c <=? 90)) || ((97 <=? c) && (c <=? 122))
  || ((48 <=? c) && (c <=? 57)) || (c =? 43) || (c =? 47).

Definition is_digit (c : Z) : bool := (48 <=? c) && (c <=? 57).

(** A text at which [parseInt] stops reading digits. *)
Definition stops_digits (s : jsstring) : bool :=
  match s with
  | [] => true
  | c :: _ => negb (is_digit c)
  end.

Definition with_port (p : option Z) (cfg : Config) : Config :=
  mkConfig (source cfg) (dest cfg) (mkHealthCheckConfig p) (saveToFile cfg).

(** *** The event loop *)

(** The destination publish that an event starts, if it starts one. *)
Definition publishOfEvent (dest : DestMqttConfig) (ev : Event) : list Effect :=
  match ev with
  | Message topic message packet _ => [publishOf dest topic message packet]
  | _ => []
  end.

Definition is_interval (ev : Event) : bool :=
  match ev with Interval => true | _ => false end.

Definition is_fulfilled (ev : Event) : bool :=
  match ev with PublishFulfilled _ _ _ _ => true | _ => false end.

Definition is_rejected (ev : Event) : bool :=
  match ev with PublishRejected _ _ _ _ => true | _ => false end.

(** The number of fulfilled and of rejected publishes among some events. *)
Definition fulfilled (evs : list Event) : Z :=
  Z.of_nat (length (List.filter is_fulfilled evs)).

Definition rejected (evs : list Event) : Z :=
  Z.of_nat (length (List.filter is_rejected evs)).

Definition no_interval (evs : list Event) : bool :=
  forallb (fun ev => negb (is_interval ev)) evs.

(** The shared variables after one event. *)
Definition after (ev : Event) (st : State) : State :=
  match ev with
  | PublishFulfilled _ _ _ _ =>
      set_nRecentForwarded (add1 (nRecentForwarded st)) st
  | PublishRejected _ _ _ _ =>
      set_nRecentDropped (add1 (nRecentDropped st)) st
  | Interval => mkState 0 0 (writer st) (writerClosed st)
  | WriterClose => set_writerClosed true st
  | _ => st
  end.

(** The calls of [writer.end] in a trace. *)
Definition writer_ends (t : list Effect) : list Effect :=
  List.filter is_writer_end t.

(** The pairs of counters that the reports in a trace show. *)
Definition reports (t : list Effect) : list (Z * Z) :=
  flat_map (fun e => match e with
                     | ELog Info [(_, VNum f); (_, VNum d)] _ => [(f, d)]
                     | _ => []
                     end) t.

(** The writer can take no record: it was never opened or it has closed. *)
Definition writer_gone (st : State) : bool :=
  negb (bool_decide (is_Some (writer st))) || writerClosed st.

(** One delivery of a client's "close" event. *)
Definition closeEvent (c : ClientName * Exc unit) : Event :=
  ClientClose (fst c) (snd c).

(** The events whose listeners are those of [attachClientEventLogs], "close"
    apart, and the "error" listener of the write stream. *)
Definition is_notice (ev : Event) : bool :=
  match ev with
  | WriterError _ | ClientNoticed _ _ => true
  | _ => false
  end.

Definition without_notices (evs : list Event) : list Event :=
  List.filter (fun ev => negb (is_notice ev)) evs.

Definition is_log (e : Effect) : bool :=
  match e with ELog _ _ _ => true | _ => false end.

(** What a trace does besides logging. *)
Definition calls (t : list Effect) : list Effect :=
  List.filter (fun e => negb (is_log e)) t.




(** A write that the stream reports as failed: [fs.WriteStream] emits
    "error" and, destroying itself, "close". *)
Definition stream_failure (err : Thrown) : list Event :=
  [WriterError err; WriterClose].

(** *** Start-up *)

Definition is_connect (e : Effect) : bool :=
  match e with EConnect _ _ => true | _ => false end.

Definition is_file_system (e : Effect) : bool :=
  match e with
  | EMkdirSync _ | ECreateWriteStream _ | EWriterOn _ _ => true
  | _ => false
  end.

Definition is_listener (e : Effect) : bool :=
  match e with EOn _ _ _ => true | _ => false end.

Definition connects (t : list Effect) : list Effect := List.filter is_connect t.
Definition subscribes (t : list Effect) : list Effect := List.filter is_subscribe t.
Definition file_system_calls (t : list Effect) : list Effect :=
  List.filter is_file_system t.
Definition listeners (t : list Effect) : list Effect := List.filter is_listener t.

(** [ensureWriter] makes the directory unless [path.dirname] gives the empty
    text or a dot. *)
Definition makes_directory (pd : jsstring -> jsstring)
    (cfg : SaveToFileConfig) : bool :=
  negb (bool_decide (pd (filePath cfg) = []))
  && negb (bool_decide (pd (filePath cfg) = js ".")).

(** The writer that [createDuplicator] leaves behind. *)
Definition writer_after_startup (pd : jsstring -> jsstring)
    (saveToFile : option SaveToFileConfig) (env : StartupEnv)
  : option WriteStream :=
  match saveToFile with
  | Some cfg =>
      if enabled cfg then
        match (if makes_directory pd cfg then mkdirSync_answer env else Ok tt),
              createWriteStream_answer env with
        | Ok _, Ok _ => Some (WriteStreamOn (filePath cfg))
        | _, _ => None
        end
      else None
  | None => None
  end.

(** The first failure of start-up, in the order of the calls. *)
Definition startup_failure (env : StartupEnv) : option Thrown :=
  match connect_source env, connect_dest env, subscribe_answer env with
  | Throw e, _, _ => Some e
  | Ok _, Throw e, _ => Some e
  | Ok _, Ok _, Throw e => Some e
  | Ok _, Ok _, Ok _ => None
  end.

End Reading.

(** ** index.ts: the main function *)

Module Main.
Import Platform Config World Mqtt Index.

Local Open Scope string_scope.
Local Open Scope list_scope.
Local Open Scope Z_scope.

(** Modelled from the spec: gcpLogging.ts and healthCheck.ts, whose
    [createLogger] and [createHealthCheckServer] are external collaborators:
    calls to the outside that return or throw.  With them, what the main
    function does to the process besides what the duplicator and
    [exitGracefully] do. *)
Inductive ProcessEffect :=
| PCore (e : Effect)
| PCreateLogger (name : string)
| PProcessOn (event : string) (exitCode : Z)
| PCreateHealthCheckServer (cfg : HealthCheckConfig)
| PConsoleError (e : Thrown)
| PProcessExit (code : Z).

(** What the outside answers during the main function. *)
Record MainEnv := mkMainEnv {
  createLogger_answer : Exc unit;
  process_env : gmap string jsstring;
  randomBytes : Z -> Exc Buffer;
  createHealthCheckServer_answer : Exc unit;
  startup : StartupEnv;
  setHealthOk_true_answer : Exc unit;
  shutdown : ShutdownEnv
}.

Definition serviceName : string := "mqtt-mqtt-duplicator".

(** The listeners installed with [process.on], each with the exit code it
    hands to [exitHandler]. *)
Definition registrations : list ProcessEffect :=
  [PProcessOn "beforeExit" 1;
   PProcessOn "unhandledRejection" 1;
   PProcessOn "uncaughtException" 1;
   PProcessOn "SIGINT" 130;
   PProcessOn "SIGQUIT" 131;
   PProcessOn "SIGTERM" 143].

(** [exitHandler] while no handle has been assigned yet. *)
Definition exitHandler_early (exitCode : Z) (exitError : option Thrown)
  : M unit :=
  exitGracefully exitCode exitError None None None None None.

(** [exitHandler] once [createHealthCheckServer] has returned and before
    [createDuplicator] has. *)
Definition exitHandler_health (env : ShutdownEnv) (exitCode : Z)
    (exitError : option Thrown) : M unit :=
  exitGracefully exitCode exitError
    (Some (setHealthOk env)) (Some (closeHealthCheckServer env))
    None None None.

Section WithHelpers.

Variable transformUnknownToError : Thrown -> Thrown.
Variable path_dirname : jsstring -> jsstring.

Definition lift (t : list Effect) : list ProcessEffect := map PCore t.

(** The main function.  The handles that [exitHandler] sees are those
    assigned when the exception is caught: none before
    [createHealthCheckServer] has returned, the two of the health check
    server before [createDuplicator] has returned, all of them after. *)
Definition main (env : MainEnv) (st : State) : list ProcessEffect :=
  PCreateLogger serviceName
  :: match createLogger_answer env with
     | Throw loggerErr => [PConsoleError loggerErr; PProcessExit 1]
     | Ok _ =>
         registrations
         ++ lift [ELog Info [] "Start service mqtt-mqtt-duplicator";
                  ELog Info [] "Read configuration"]
         ++ match getConfig (process_env env) (randomBytes env) with
            | Throw err =>
                lift (trace (run (exitHandler_early 1
                                    (Some (transformUnknownToError err))) st))
            | Ok config =>
                [PCore (ELog Info [] "Create health check server");
                 PCreateHealthCheckServer (healthCheck config)]
                ++ match createHealthCheckServer_answer env with
                   | Throw err =>
                       lift (trace (run (exitHandler_early 1
                                           (Some (transformUnknownToError err)))
                                      st))
                   | Ok _ =>
                       let r :=
                         run (createDuplicator transformUnknownToError
                                path_dirname (source config) (dest config)
                                (Some (saveToFile config)) (startup env)) st in
                       PCore (ELog Info [] "Start MQTT duplicator")
                       :: lift (trace r)
                       ++ match outcome r with
                          | Throw err =>
                              lift (trace
                                      (run (exitHandler_health (shutdown env) 1
                                              (Some (transformUnknownToError err)))
                                         (final r)))
                          | Ok _ =>
                              lift [ELog Info [] "Set health check status to OK";
                                    ESetHealthOk true]
                              ++ match setHealthOk_true_answer env with
                                 | Throw err =>
                                     lift (trace
                                             (run (exitHandler
                                                     transformUnknownToError
                                                     (source config) (dest config)
                                                     (shutdown env) 1
                                                     (Some (transformUnknownToError err)))
                                                (final r)))
                                 | Ok _ => []
                                 end
                          end
                   end
            end
     end.

End WithHelpers.

(** The effects of the duplicator and of the shutdown within a trace of the
    main function. *)
Definition core (t : list ProcessEffect) : list Effect :=
  flat_map (fun e => match e with PCore e => [e] | _ => [] end) t.

Definition health_servers (t : list ProcessEffect) : list ProcessEffect :=
  List.filter (fun e => match e with
                        | PCreateHealthCheckServer _ => true
                        | _ => false
                        end) t.

Definition exit_codes (t : list Effect) : list Z :=
  flat_map (fun e => match e with ESetExitCode c => [c] | _ => [] end) t.

(** Every answer of the outside is a success. *)
Definition all_well (env : MainEnv) : Prop :=
  createLogger_answer env = Ok tt
  /\ createHealthCheckServer_answer env = Ok tt
  /\ connect_source (startup env) = Ok tt
  /\ connect_dest (startup env) = Ok tt
  /\ subscribe_answer (startup env) = Ok tt
  /\ setHealthOk_true_answer env = Ok tt.

End Main.

(** * Properties *)

(** ** Facts about the platform model *)

Module PlatformFacts.
Import Platform Bits.

Lemma byte_to_Z_range (b : byte) : 0 <= byte_to_Z b < 256.
Proof.
  unfold byte_to_Z. pose proof (Byte.to_N_bounded b). lia.
Qed.

Lemma byte_of_to_Z (b : byte) : byte_of_Z (byte_to_Z b) = b.
Proof.
  unfold byte_of_Z. pose proof (byte_to_Z_range b) as Hb.
  rewrite Z.mod_small by lia. unfold byte_to_Z.
  rewrite N2Z.id, Byte.of_to_N. reflexivity.
Qed.

Lemma Buffer_equals_refl (a : Buffer) : Buffer_equals a a = true.
Proof.
  induction a as [|x a IH]; simpl; [reflexivity|].
  rewrite (Byte.byte_dec_lb (x:=x) eq_refl). exact IH.
Qed.

Lemma Buffer_equals_eq (a b : Buffer) : Buffer_equals a b = true <-> a = b.
Proof.
  split; [|intros ->; apply Buffer_equals_refl].
  revert b. induction a as [|x a IH]; intros [|y b]; simpl; try discriminate.
  - reflexivity.
  - intros [Hxy Hab]%andb_true_iff.
    apply Byte.byte_dec_bl in Hxy. apply IH in Hab. congruence.
Qed.

Lemma In_below (n : nat) (z : Z) : 0 <= z < Z.of_nat n -> In z (below n).
Proof.
  intros Hz. unfold below. apply in_map_iff. exists (Z.to_nat z).
  split; [lia|]. apply in_seq. lia.
Qed.

Lemma forallb_below (n : nat) (P : Z -> bool) :
  forallb P (below n) = true -> forall z, 0 <= z < Z.of_nat n -> P z = true.
Proof.
  intros H z Hz. rewrite forallb_forall in H. apply H, In_below, Hz.
Qed.

Lemma forallb_below2 (n m : nat) (P : Z -> Z -> bool) :
  forallb (fun a => forallb (P a) (below m)) (below n) = true ->
  forall a b, 0 <= a < Z.of_nat n -> 0 <= b < Z.of_nat m -> P a b = true.
Proof.
  intros H a b Ha Hb.
  apply (forallb_below m (P a)); [|exact Hb].
  apply (forallb_below n (fun a => forallb (P a) (below m))); assumption.
Qed.

Lemma unbase64_base64_char (v : Z) :
  is_sextet v = true -> unbase64 (base64_char v) = Some v.
Proof.
  intros Hv.
  assert (H : unbase64_inverts v = true).
  { apply (forallb_below 64 unbase64_inverts); [vm_compute; reflexivity|].
    unfold is_sextet in Hv. lia. }
  unfold unbase64_inverts in H.
  destruct (unbase64 (base64_char v)) as [w|]; [|discriminate].
  f_equal. lia.
Qed.

Lemma sextet1_ok (a : Z) : 0 <= a < 256 -> is_sextet (sextet1 a) = true.
Proof.
  apply (forallb_below 256 (fun a => is_sextet (sextet1 a))).
  vm_compute; reflexivity.
Qed.

Lemma sextet4_ok (c : Z) : 0 <= c < 256 -> is_sextet (sextet4 c) = true.
Proof.
  apply (forallb_below 256 (fun c => is_sextet (sextet4 c))).
  vm_compute; reflexivity.
Qed.

Lemma sextet2_ok (a b : Z) :
  0 <= a < 256 -> 0 <= b < 256 -> is_sextet (sextet2 a b) = true.
Proof.
  apply (forallb_below2 256 256 (fun a b => is_sextet (sextet2 a b))).
  vm_compute; reflexivity.
Qed.

Lemma sextet3_ok (b c : Z) :
  0 <= b < 256 -> 0 <= c < 256 -> is_sextet (sextet3 b c) = true.
Proof.
  apply (forallb_below2 256 256 (fun b c => is_sextet (sextet3 b c))).
  vm_compute; reflexivity.
Qed.

Lemma eqZ2_all (f g : Z -> Z -> Z) :
  forallb (fun a => forallb (eqZ2 f g a) (below 256)) (below 256) = true ->
  forall a b, 0 <= a < 256 -> 0 <= b < 256 -> f a b = g a b.
Proof.
  intros H a b Ha Hb.
  pose proof (forallb_below2 256 256 (eqZ2 f g) H a b Ha Hb) as E.
  unfold eqZ2 in E. lia.
Qed.

Lemma unpack1_bits (a b : Z) :
  0 <= a < 256 -> 0 <= b < 256 ->
  Z.lor (Z.shiftl (Z.land (sextet1 a) 0x3F) 2)
        (Z.shiftr (Z.land (sextet2 a b) 0x30) 4) = a.
Proof.
  apply (eqZ2_all
           (fun a b => Z.lor (Z.shiftl (Z.land (sextet1 a) 0x3F) 2)
                             (Z.shiftr (Z.land (sextet2 a b) 0x30) 4))
           (fun a _ => a)).
  vm_compute; reflexivity.
Qed.

Lemma unpack2_bits_hi (a b : Z) :
  0 <= a < 256 -> 0 <= b < 256 ->
  Z.land (sextet2 a b) 0x0F = Z.shiftr b 4.
Proof.
  apply (eqZ2_all (fun a b => Z.land (sextet2 a b) 0x0F)
                  (fun _ b => Z.shiftr b 4)).
  vm_compute; reflexivity.
Qed.

Lemma unpack2_bits_lo (b c : Z) :
  0 <= b < 256 -> 0 <= c < 256 ->
  Z.shiftr (Z.land (sextet3 b c) 0x3C) 2 = Z.land b 0x0F.
Proof.
  apply (eqZ2_all (fun b c => Z.shiftr (Z.land (sextet3 b c) 0x3C) 2)
                  (fun b _ => Z.land b 0x0F)).
  vm_compute; reflexivity.
Qed.

Lemma nibbles (b : Z) :
  0 <= b < 256 -> Z.lor (Z.shiftl (Z.shiftr b 4) 4) (Z.land b 0x0F) = b.
Proof.
  intros Hb.
  refine (eqZ2_all
            (fun b _ => Z.lor (Z.shiftl (Z.shiftr b 4) 4) (Z.land b 0x0F))
            (fun b _ => b) _ b 0 Hb _); [vm_compute; reflexivity|lia].
Qed.

Lemma unpack3_bits (b c : Z) :
  0 <= b < 256 -> 0 <= c < 256 ->
  Z.lor (Z.shiftl (Z.land (sextet3 b c) 0x03) 6)
        (Z.land (sextet4 c) 0x3F) = c.
Proof.
  apply (eqZ2_all
           (fun b c => Z.lor (Z.shiftl (Z.land (sextet3 b c) 0x03) 6)
                             (Z.land (sextet4 c) 0x3F))
           (fun _ c => c)).
  vm_compute; reflexivity.
Qed.

Lemma unpack1_sextets (x y : byte) :
  unpack1 (sextet1 (byte_to_Z x)) (sextet2 (byte_to_Z x) (byte_to_Z y)) = x.
Proof.
  unfold unpack1.
  rewrite unpack1_bits by apply byte_to_Z_range. apply byte_of_to_Z.
Qed.

Lemma unpack1_sextets_last (x : byte) :
  unpack1 (sextet1 (byte_to_Z x)) (sextet2 (byte_to_Z x) 0) = x.
Proof.
  unfold unpack1.
  rewrite unpack1_bits by (try apply byte_to_Z_range; lia).
  apply byte_of_to_Z.
Qed.

Lemma unpack2_sextets (x y : byte) (c : Z) :
  0 <= c < 256 ->
  unpack2 (sextet2 (byte_to_Z x) (byte_to_Z y)) (sextet3 (byte_to_Z y) c) = y.
Proof.
  intros Hc. unfold unpack2.
  rewrite unpack2_bits_hi by apply byte_to_Z_range.
  rewrite unpack2_bits_lo by (try apply byte_to_Z_range; lia).
  rewrite nibbles by apply byte_to_Z_range. apply byte_of_to_Z.
Qed.

Lemma unpack3_sextets (y z : byte) :
  unpack3 (sextet3 (byte_to_Z y) (byte_to_Z z)) (sextet4 (byte_to_Z z)) = z.
Proof.
  unfold unpack3.
  rewrite unpack3_bits by apply byte_to_Z_range. apply byte_of_to_Z.
Qed.

(** Reading back the characters that the encoder writes. *)
Lemma sextets_char (v : Z) (s : jsstring) :
  is_sextet v = true ->
  base64_sextets (base64_char v :: s) = v :: base64_sextets s.
Proof.
  intros Hv. cbn [base64_sextets].
  rewrite (unbase64_base64_char v Hv). reflexivity.
Qed.

Lemma sextets_pad (s : jsstring) : base64_sextets (PAD :: s) = [].
Proof. reflexivity. Qed.

Lemma toString_base64_1 (x : byte) :
  Buffer_toString_base64 [x] =
  [base64_char (sextet1 (byte_to_Z x));
   base64_char (sextet2 (byte_to_Z x) 0); PAD; PAD].
Proof.
  cbn [Buffer_toString_base64]. unfold sextet1, sextet2.
  rewrite Z.shiftr_0_l, Z.lor_0_r. reflexivity.
Qed.

Lemma toString_base64_2 (x y : byte) :
  Buffer_toString_base64 [x; y] =
  [base64_char (sextet1 (byte_to_Z x));
   base64_char (sextet2 (byte_to_Z x) (byte_to_Z y));
   base64_char (sextet3 (byte_to_Z y) 0); PAD].
Proof.
  cbn [Buffer_toString_base64]. unfold sextet1, sextet2, sextet3.
  rewrite Z.shiftr_0_l, Z.lor_0_r. reflexivity.
Qed.

Lemma toString_base64_3 (x y z : byte) (rest : Buffer) :
  Buffer_toString_base64 (x :: y :: z :: rest) =
  base64_char (sextet1 (byte_to_Z x))
  :: base64_char (sextet2 (byte_to_Z x) (byte_to_Z y))
  :: base64_char (sextet3 (byte_to_Z y) (byte_to_Z z))
  :: base64_char (sextet4 (byte_to_Z z))
  :: Buffer_toString_base64 rest.
Proof. reflexivity. Qed.

Lemma base64_unpack_4 (s1 s2 s3 s4 : Z) (rest : list Z) :
  base64_unpack (s1 :: s2 :: s3 :: s4 :: rest) =
  unpack1 s1 s2 :: unpack2 s2 s3 :: unpack3 s3 s4 :: base64_unpack rest.
Proof. reflexivity. Qed.

(** Induction over a buffer in steps of three octets. *)
Lemma Buffer_ind3 (P : Buffer -> Prop) :
  P [] ->
  (forall x, P [x]) ->
  (forall x y, P [x; y]) ->
  (forall x y z rest, P rest -> P (x :: y :: z :: rest)) ->
  forall buf, P buf.
Proof.
  intros H0 H1 H2 H3 buf.
  assert (H : P buf /\ (forall x, P (x :: buf)) /\ (forall x y, P (x :: y :: buf))).
  { induction buf as [|z rest (IH0 & IH1 & IH2)].
    - auto.
    - repeat split; auto. }
  apply H.
Qed.

(** Decoding a Base64 text written by the encoder gives the octets back. *)
Lemma base64_round_trip (buf : Buffer) :
  Buffer_from_base64 (Buffer_toString_base64 buf) = buf.
Proof.
  unfold Buffer_from_base64.
  induction buf as [|x|x y|x y z rest IH] using Buffer_ind3.
  - reflexivity.
  - rewrite toString_base64_1.
    pose proof (byte_to_Z_range x) as Hx.
    rewrite !sextets_char, sextets_pad
      by (first [apply sextet1_ok | apply sextet2_ok]; lia).
    cbn [base64_unpack]. rewrite unpack1_sextets_last. reflexivity.
  - rewrite toString_base64_2.
    pose proof (byte_to_Z_range x) as Hx.
    pose proof (byte_to_Z_range y) as Hy.
    rewrite !sextets_char, sextets_pad
      by (first [apply sextet1_ok | apply sextet2_ok | apply sextet3_ok]; lia).
    cbn [base64_unpack].
    rewrite unpack1_sextets, unpack2_sextets by lia. reflexivity.
  - rewrite toString_base64_3.
    pose proof (byte_to_Z_range x) as Hx.
    pose proof (byte_to_Z_range y) as Hy.
    pose proof (byte_to_Z_range z) as Hz.
    rewrite !sextets_char
      by (first [apply sextet1_ok | apply sextet2_ok
                | apply sextet3_ok | apply sextet4_ok]; lia).
    rewrite base64_unpack_4, IH.
    rewrite unpack1_sextets, unpack2_sextets, unpack3_sextets
      by apply byte_to_Z_range.
    reflexivity.
Qed.

End PlatformFacts.

(** ** What one run of the message listener does *)

Module MqttFacts.
Import Platform Config World Mqtt Observe PlatformFacts.

Local Open Scope string_scope.
Local Open Scope list_scope.
Local Open Scope Z_scope.

Lemma encodePayload_run (message : Buffer) (st : State) :
  run (encodePayload message) st = mkResult [] st (Ok (encoded message)).
Proof.
  unfold encodePayload, encoded, strict_utf8_round_trip.
  destruct (Buffer_equals _ message); reflexivity.
Qed.

(** Unfolding the monad, and nothing else. *)
Ltac run_monad :=
  cbv [mbind M_bind mret M_ret run perform call throw get put when try_catch
       trace final outcome];
  cbn [app].

Lemma onMessage_run dest saveToFile topic message packet env st :
  run (onMessage dest saveToFile topic message packet env) st =
  mkResult
    (receivedLog topic message packet
     :: (if auditing saveToFile st then
           EWriterWrite (recordOf topic message packet env)
           :: writeFailureLog env
         else [])
     ++ [publishOf dest topic message packet])
    st (Ok tt).
Proof.
  unfold onMessage, auditing, writeFailureLog, recordOf, publishOf, receivedLog.
  run_monad.
  destruct (saveEnabled saveToFile && bool_decide (is_Some (writer st))
            && negb (writerClosed st)); [|reflexivity].
  fold (run (encodePayload message) st).
  rewrite encodePayload_run.
  destruct (encoded message) as [enc text].
  run_monad. cbn [fst snd].
  destruct (write_answer env) as [[]|e]; reflexivity.
Qed.

Lemma run_bind_ok {A B} (m : M A) (f : A -> M B) st t st' a :
  run m st = mkResult t st' (Ok a) ->
  run (m ≫= f) st =
  mkResult (t ++ trace (run (f a) st')) (final (run (f a) st'))
    (outcome (run (f a) st')).
Proof.
  intros H. unfold mbind, M_bind. cbn [run]. rewrite H.
  destruct (run (f a) st'). reflexivity.
Qed.

Lemma run_bind_throw {A B} (m : M A) (f : A -> M B) st t st' e :
  run m st = mkResult t st' (Throw e) ->
  run (m ≫= f) st = mkResult t st' (Throw e).
Proof.
  intros H. unfold mbind, M_bind. cbn [run]. rewrite H. reflexivity.
Qed.




Lemma written_messageTrace dest saveToFile st i :
  written (messageTrace dest saveToFile st i) =
  if auditing saveToFile st then
    [recordOf (in_topic i) (in_message i) (in_packet i) (in_env i)]
  else [].
Proof.
  unfold messageTrace, writeFailureLog.
  destruct (auditing saveToFile st); [|reflexivity].
  destruct (write_answer (in_env i)); reflexivity.
Qed.


Lemma written_app (t u : list Effect) : written (t ++ u) = written t ++ written u.
Proof. apply flat_map_app. Qed.

Lemma reconstructed_recordOf topic message packet env :
  reconstructed_bytes (recordOf topic message packet env) = message.
Proof.
  unfold reconstructed_bytes, recordOf, encoded. cbn [payloadEncoding payload].
  destruct (strict_utf8_round_trip message) eqn:E; cbn [fst snd].
  - apply Buffer_equals_eq. exact E.
  - apply base64_round_trip.
Qed.

(** A payload of ASCII octets, as the text of most JSON documents is,
    passes the strict validation. *)
Lemma toString_utf8_ascii (b : byte) (message : Buffer) :
  byte_to_Z b < 0x80 ->
  Buffer_toString_utf8 (b :: message)
  = byte_to_Z b :: Buffer_toString_utf8 message.
Proof.
  intros Hb. unfold Buffer_toString_utf8. cbn [utf8_decode]. unfold utf8_lead.
  destruct (Z.leb_spec (byte_to_Z b) 0x7F); [|lia].
  cbn [app flat_map]. unfold utf16_of_code_point at 1.
  destruct (Z.ltb_spec (byte_to_Z b) 0x10000); [reflexivity|lia].
Qed.

Lemma from_utf8_ascii (z : Z) (s : jsstring) :
  0 <= z < 0x80 ->
  Buffer_from_utf8 (z :: s) = byte_of_Z z :: Buffer_from_utf8 s.
Proof.
  intros Hz. cbn [Buffer_from_utf8].
  unfold is_high_surrogate, is_low_surrogate, utf8_of_code_point.
  destruct (Z.leb_spec 0xD800 z); [lia|].
  destruct (Z.leb_spec 0xDC00 z); [lia|].
  destruct (Z.ltb_spec z 0x80); [reflexivity|lia].
Qed.

Lemma ascii_round_trip (message : Buffer) :
  Forall (fun b => byte_to_Z b < 0x80) message ->
  strict_utf8_round_trip message = true.
Proof.
  intros H. unfold strict_utf8_round_trip. apply Buffer_equals_eq.
  induction H as [|b message Hb _ IH]; [reflexivity|].
  pose proof (byte_to_Z_range b) as Rb.
  rewrite toString_utf8_ascii by exact Hb.
  rewrite from_utf8_ascii by lia.
  rewrite byte_of_to_Z, IH. reflexivity.
Qed.

End MqttFacts.

(** ** The forwarding pipeline *)

Module Forwarding.
Import Platform Config World Mqtt Observe PlatformFacts MqttFacts.

Local Open Scope string_scope.
Local Open Scope list_scope.
Local Open Scope Z_scope.

Ltac listener_cases :=
  rewrite onMessage_run; cbn [trace];
  unfold writeFailureLog, publishOf, receivedLog, Math_min;
  destruct (auditing _ _); [destruct (write_answer _)|].

(** C1.  For an inbound QoS and a ceiling that both are 0, 1 or 2, the QoS
    handed to the one destination publish is the smaller of the two; it is
    0 whenever the inbound QoS is 0, and it is again 0, 1 or 2. *)
Theorem qos_clamp dest saveToFile topic message packet env st :
  0 <= packet_qos packet <= 2 ->
  0 <= qosMax dest <= 2 ->
  let out :=
    published_qos
      (trace (run (onMessage dest saveToFile topic message packet env) st)) in
  out = [Z.min (packet_qos packet) (qosMax dest)]
  /\ (packet_qos packet = 0 -> out = [0])
  /\ Forall (fun q => 0 <= q <= 2) out.
Proof.
  intros Hq Hm out. subst out.
  assert (E : published_qos
                (trace (run (onMessage dest saveToFile topic message packet env) st))
              = [Z.min (packet_qos packet) (qosMax dest)])
    by (listener_cases; reflexivity).
  rewrite E. repeat split.
  - intros H0. f_equal. lia.
  - constructor; [lia|constructor].
Qed.

Lemma qos_clamp_witness :
  0 <= 2 <= 2 /\ 0 <= 1 <= 2 /\
  published_qos
    (trace (run (onMessage Sample.dest (Some Sample.saveToFile) (js "t/1")
                   Sample.hi (mkPacket 2 true false) Sample.write_ok)
              Sample.open_state))
  = [1].
Proof.
  split; [lia|]. split; [lia|].
  apply (qos_clamp Sample.dest (Some Sample.saveToFile) (js "t/1") Sample.hi
           (mkPacket 2 true false) Sample.write_ok Sample.open_state);
    simpl; lia.
Defined.

(** C2.  The retain flag handed to the one destination publish is
    [forwardRetain AND inbound retain]: always false when [forwardRetain]
    is false, the inbound flag when it is true. *)
Theorem retain_policy dest saveToFile topic message packet env st :
  let out :=
    published_retain
      (trace (run (onMessage dest saveToFile topic message packet env) st)) in
  out = [forwardRetain dest && packet_retain packet]
  /\ (forwardRetain dest = false -> out = [false])
  /\ (forwardRetain dest = true -> out = [packet_retain packet]).
Proof.
  intros out. subst out.
  assert (E : published_retain
                (trace (run (onMessage dest saveToFile topic message packet env) st))
              = [forwardRetain dest && packet_retain packet])
    by (listener_cases; destruct (forwardRetain dest); reflexivity).
  rewrite E. repeat split; intros ->; reflexivity.
Qed.

Lemma retain_policy_witness :
  forwardRetain Sample.dest = true /\
  published_retain
    (trace (run (onMessage Sample.dest (Some Sample.saveToFile) (js "t/1")
                   Sample.hi (mkPacket 2 true false) Sample.write_ok)
              Sample.open_state))
  = [true].
Proof.
  split; [reflexivity|].
  apply (retain_policy Sample.dest (Some Sample.saveToFile) (js "t/1") Sample.hi
           (mkPacket 2 true false) Sample.write_ok Sample.open_state).
  reflexivity.
Defined.

(** C3.  Whatever the octets of the payload are, every record that the
    listener hands to the writer gives them back when its [payload] text is
    read according to its [payloadEncoding]; and the listener does hand one
    record to the writer whenever the writer is enabled and open. *)
Theorem audit_round_trip dest saveToFile topic message packet env st :
  let records :=
    written
      (trace (run (onMessage dest saveToFile topic message packet env) st)) in
  Forall (fun r => reconstructed_bytes r = message) records
  /\ length records = if auditing saveToFile st then 1%nat else 0%nat.
Proof.
  intros records. subst records.
  rewrite onMessage_run. cbn [trace].
  pose proof (written_messageTrace dest saveToFile st
                (mkInbound topic message packet env)) as E.
  unfold messageTrace in E. cbn [in_topic in_message in_packet in_env] in E.
  rewrite E. destruct (auditing saveToFile st); split; try reflexivity.
  - constructor; [apply reconstructed_recordOf|constructor].
  - constructor.
Qed.

(** C4.  The encoding of a record is a function of the payload alone.  The
    listener hands the writer one record whenever the writer is enabled and
    open, and that record has the decoded text under [utf8] when decoding
    the payload as UTF-8 and encoding again gives the same octets, the
    Base64 text of the octets under [base64] otherwise.  The octets of the
    text [{"a":1}] are of the first kind and are recorded as that text; the
    octets FF FE 00 01 are of the second and are recorded as [//4AAQ==]. *)
Theorem encoding_choice dest saveToFile topic message packet env st :
  let choice (m : Buffer) :=
    map (fun r => (payloadEncoding r, payload r))
      (written
         (trace (run (onMessage dest saveToFile topic m packet env) st))) in
  choice message
  = (if auditing saveToFile st
     then [if strict_utf8_round_trip message
           then (utf8, Buffer_toString_utf8 message)
           else (base64, Buffer_toString_base64 message)]
     else [])
  /\ strict_utf8_round_trip json_payload = true
  /\ choice json_payload
     = (if auditing saveToFile st
        then [(utf8, [123; 34; 97; 34; 58; 49; 125])] else [])
  /\ strict_utf8_round_trip raw_payload = false
  /\ choice raw_payload
     = (if auditing saveToFile st then [(base64, js "//4AAQ==")] else [])
  /\ outcome (run (encodePayload json_payload) st)
     = Ok (utf8, [123; 34; 97; 34; 58; 49; 125])
  /\ outcome (run (encodePayload raw_payload) st)
     = Ok (base64, js "//4AAQ==").
Proof.
  assert (C : forall m,
             map (fun r => (payloadEncoding r, payload r))
               (written
                  (trace (run (onMessage dest saveToFile topic m packet env)
                            st)))
             = if auditing saveToFile st
               then [if strict_utf8_round_trip m
                     then (utf8, Buffer_toString_utf8 m)
                     else (base64, Buffer_toString_base64 m)]
               else []).
  { intros m. rewrite onMessage_run. cbn [trace].
    pose proof (written_messageTrace dest saveToFile st
                  (mkInbound topic m packet env)) as E.
    unfold messageTrace in E. cbn [in_topic in_message in_packet in_env] in E.
    rewrite E. destruct (auditing saveToFile st); [|reflexivity].
    unfold recordOf, encoded. cbn [map payloadEncoding payload].
    destruct (strict_utf8_round_trip m); reflexivity. }
  cbv zeta. split; [apply C|].
  split; [vm_compute; reflexivity|].
  split; [rewrite C; destruct (auditing saveToFile st); vm_compute; reflexivity|].
  split; [vm_compute; reflexivity|].
  split; [rewrite C; destruct (auditing saveToFile st); vm_compute; reflexivity|].
  split; rewrite encodePayload_run; vm_compute; reflexivity.
Qed.

(** C5.  The one destination publish of the listener carries the topic and
    the payload octets of the inbound message as they came. *)
Theorem publish_topic_payload_unmodified
    dest saveToFile topic message packet env st :
  published_topic_payload
    (trace (run (onMessage dest saveToFile topic message packet env) st))
  = [(topic, message)].
Proof. listener_cases; reflexivity. Qed.


(** *** The scenarios of the specification, evaluated *)

(** Message [("t/1", "hi", qos 2, retain)] under [{qosMax: 1,
    forwardRetain: true}] with the writer open: one publish with QoS 1 and
    retain, one record with the incoming values and the text [hi]. *)
Example end_to_end :
  let r := run (dispatch Sample.toErr Sample.source Sample.dest
                  (Some Sample.saveToFile) (messageEvent Sample.inbound))
             Sample.open_state in
  publishes (trace r) = [EPublish (js "t/1") Sample.hi 1 true]
  /\ written (trace r)
     = [mkAuditRecord Sample.clock (js "t/1") 2 true false utf8 (js "hi")].
Proof. vm_compute. split; reflexivity. Qed.

Example record_of_empty_payload :
  written
    (trace (run (onMessage Sample.dest (Some Sample.saveToFile) (js "t/1") []
                   (mkPacket 0 false false) Sample.write_ok)
              Sample.open_state))
  = [mkAuditRecord Sample.clock (js "t/1") 0 false false utf8 []].
Proof. vm_compute. reflexivity. Qed.

Example record_of_payload_with_nul :
  written
    (trace (run (onMessage Sample.dest (Some Sample.saveToFile) (js "t/1")
                   Sample.with_nul (mkPacket 0 false false) Sample.write_ok)
              Sample.open_state))
  = [mkAuditRecord Sample.clock (js "t/1") 0 false false utf8 [97; 0; 98]].
Proof. vm_compute. reflexivity. Qed.

Example record_of_raw_payload :
  written
    (trace (run (onMessage Sample.dest (Some Sample.saveToFile) (js "t/1")
                   raw_payload (mkPacket 0 false false) Sample.write_ok)
              Sample.open_state))
  = [mkAuditRecord Sample.clock (js "t/1") 0 false false base64 (js "//4AAQ==")]
  /\ Buffer_from_base64 (js "//4AAQ==") = raw_payload.
Proof. vm_compute. split; reflexivity. Qed.

(** A write that throws: the error is logged and the publish is as before. *)
Example failed_write :
  let r := run (onMessage Sample.dest (Some Sample.saveToFile) (js "t/1")
                  Sample.hi (mkPacket 2 true false) Sample.write_fails)
             Sample.open_state in
  error_logs (trace r)
  = [ELog Error [("err", VErr (JsError "ENOSPC"))]
       "Failed to write message to file"]
  /\ publishes (trace r) = [EPublish (js "t/1") Sample.hi 1 true]
  /\ final r = Sample.open_state.
Proof. vm_compute. repeat split; reflexivity. Qed.

End Forwarding.

(** ** Start-up: the trace of [createDuplicator] *)

Module Startup.
Import Platform Config World Mqtt Observe PlatformFacts MqttFacts.

Local Open Scope string_scope.
Local Open Scope list_scope.
Local Open Scope Z_scope.

Lemma no_subscribe_app (t u : list Effect) :
  no_subscribe (t ++ u) = no_subscribe t && no_subscribe u.
Proof. apply forallb_app. Qed.

Lemma no_subscribe_In (t : list Effect) f o :
  no_subscribe t = true -> ~ In (ESubscribe f o) t.
Proof.
  intros H Hin. unfold no_subscribe in H. rewrite forallb_forall in H.
  specialize (H _ Hin). discriminate.
Qed.

(** [ensureWriter] swallows every failure and does not touch the broker. *)
Lemma ensureWriter_run pd saveToFile env st :
  exists t st',
    run (ensureWriter pd saveToFile env) st = mkResult t st' (Ok tt)
    /\ no_subscribe t = true.
Proof.
  unfold ensureWriter. run_monad.
  destruct (negb (saveEnabled saveToFile) || bool_decide (is_Some (writer st))
            || writerClosed st); [eauto|].
  destruct saveToFile as [cfg|]; [|eauto].
  destruct (negb (bool_decide (pd (filePath cfg) = []))
            && negb (bool_decide (pd (filePath cfg) = js ".")));
    [destruct (mkdirSync_answer env) as [[]|e1]|];
    destruct (createWriteStream_answer env) as [[]|e2];
    eexists; eexists; split; reflexivity.
Qed.

(** An occurrence of [x] before anything that subscribes stays before the
    first [ESubscribe] however the trace is cut there. *)
Lemma before_subscribe (pre rest l1 l2 : list Effect) x f o :
  no_subscribe pre = true ->
  is_subscribe x = false ->
  pre ++ x :: rest = l1 ++ ESubscribe f o :: l2 ->
  In x l1.
Proof.
  revert l1. induction pre as [|p pre IH]; intros l1 Hpre Hx E.
  - destruct l1 as [|e l1]; cbn in E; inversion E; subst.
    + discriminate.
    + left; reflexivity.
  - cbn in Hpre. apply andb_true_iff in Hpre as [Hp Hpre].
    destruct l1 as [|e l1]; cbn in E; inversion E; subst.
    + discriminate.
    + right. apply IH; assumption.
Qed.

Lemma createDuplicator_not_connected toErr pd source dest saveToFile env st :
  connect_source env <> Ok tt \/ connect_dest env <> Ok tt ->
  no_subscribe
    (trace (run (createDuplicator toErr pd source dest saveToFile env) st))
  = true.
Proof.
  intros H. unfold createDuplicator, connectMqtt. run_monad.
  destruct (connect_source env) as [[]|e1]; [|reflexivity].
  destruct (connect_dest env) as [[]|e2]; [|reflexivity].
  destruct H as [H|H]; congruence.
Qed.

Lemma createDuplicator_connected toErr pd source dest saveToFile env st :
  connect_source env = Ok tt ->
  connect_dest env = Ok tt ->
  exists pre tail,
    trace (run (createDuplicator toErr pd source dest saveToFile env) st)
    = pre
      ++ [ESetInterval HReport 60000;
          EOn SourceClient "message" (HMessage dest saveToFile);
          ELog Info [] "Subscribe to source MQTT topics";
          ESubscribe (topicFilter source) (subscribeOptions source)]
      ++ tail
    /\ no_subscribe pre = true.
Proof.
  intros Hs Hd.
  destruct (ensureWriter_run pd saveToFile env (mkState 0 0 None false))
    as (tw & stw & Ew & Hw).
  unfold createDuplicator, connectMqtt, attachClientEventLogs.
  run_monad. rewrite Hs, Hd.
  fold (run (ensureWriter pd saveToFile env) (mkState 0 0 None false)).
  rewrite Ew. run_monad.
  destruct (subscribe_answer env) as [[]|e];
    (eexists (_ :: _ :: _ :: _ :: _ :: _ :: _ :: _ :: _ :: _ :: _ :: _ :: _ :: _ :: tw);
     eexists; split; [cbn [app]; reflexivity | exact Hw]).
Qed.

(** C10.  However [createDuplicator] goes, wherever its trace has a
    subscribe call, the "message" listener that carries the destination
    policy and the audit configuration has been installed on the source
    client earlier in the trace. *)
Theorem handler_installed_before_subscribe
    toErr pd source dest saveToFile env st l1 l2 f o :
  trace (run (createDuplicator toErr pd source dest saveToFile env) st)
  = l1 ++ ESubscribe f o :: l2 ->
  In (EOn SourceClient "message" (HMessage dest saveToFile)) l1.
Proof.
  intros E.
  destruct (connect_source env) as [[]|e1] eqn:Hs;
    [destruct (connect_dest env) as [[]|e2] eqn:Hd|].
  - destruct (createDuplicator_connected toErr pd source dest saveToFile env st Hs Hd)
      as (pre & tail & Et & Hpre).
    rewrite Et in E.
    change (pre ++ [ESetInterval HReport 60000;
                    EOn SourceClient "message" (HMessage dest saveToFile);
                    ELog Info [] "Subscribe to source MQTT topics";
                    ESubscribe (topicFilter source) (subscribeOptions source)]
                ++ tail)
      with (pre ++ [ESetInterval HReport 60000]
                ++ EOn SourceClient "message" (HMessage dest saveToFile)
                   :: ELog Info [] "Subscribe to source MQTT topics"
                   :: ESubscribe (topicFilter source) (subscribeOptions source)
                   :: tail) in E.
    rewrite app_assoc in E.
    apply (before_subscribe _ _ _ _ _ _ _) in E; [exact E| |reflexivity].
    rewrite no_subscribe_app, Hpre. reflexivity.
  - exfalso.
    apply (no_subscribe_In
             (trace (run (createDuplicator toErr pd source dest saveToFile env) st))
             f o).
    + apply createDuplicator_not_connected. right. congruence.
    + rewrite E. apply in_elt.
  - exfalso.
    apply (no_subscribe_In
             (trace (run (createDuplicator toErr pd source dest saveToFile env) st))
             f o).
    + apply createDuplicator_not_connected. left. congruence.
    + rewrite E. apply in_elt.
Qed.

Lemma handler_installed_before_subscribe_witness :
  let t := trace (run (createDuplicator Sample.toErr Sample.dirname
                         Sample.source Sample.dest (Some Sample.saveToFile)
                         Sample.startup_ok)
                    Sample.open_state) in
  t = firstn 21 t
      ++ ESubscribe (topicFilter Sample.source) (subscribeOptions Sample.source)
         :: skipn 22 t
  /\ In (EOn SourceClient "message"
           (HMessage Sample.dest (Some Sample.saveToFile)))
        (firstn 21 t).
Proof.
  intros t.
  assert (E : t = firstn 21 t
                  ++ ESubscribe (topicFilter Sample.source)
                       (subscribeOptions Sample.source)
                     :: skipn 22 t)
    by (vm_compute; reflexivity).
  split; [exact E|].
  exact (handler_installed_before_subscribe Sample.toErr Sample.dirname
           Sample.source Sample.dest (Some Sample.saveToFile)
           Sample.startup_ok Sample.open_state
           (firstn 21 t) (skipn 22 t)
           (topicFilter Sample.source) (subscribeOptions Sample.source) E).
Defined.

(** With both brokers reachable the subscribe call is there. *)
Lemma subscribe_issued toErr pd source dest saveToFile env st :
  connect_source env = Ok tt ->
  connect_dest env = Ok tt ->
  exists l1 l2,
    trace (run (createDuplicator toErr pd source dest saveToFile env) st)
    = l1 ++ ESubscribe (topicFilter source) (subscribeOptions source) :: l2.
Proof.
  intros Hs Hd.
  destruct (createDuplicator_connected toErr pd source dest saveToFile env st Hs Hd)
    as (pre & tail & Et & _).
  exists (pre ++ [ESetInterval HReport 60000;
                  EOn SourceClient "message" (HMessage dest saveToFile);
                  ELog Info [] "Subscribe to source MQTT topics"]), tail.
  rewrite Et, <- app_assoc. reflexivity.
Qed.

Lemma timer_installed toErr pd source dest saveToFile env st :
  connect_source env = Ok tt ->
  connect_dest env = Ok tt ->
  In (ESetInterval HReport 60000)
     (trace (run (createDuplicator toErr pd source dest saveToFile env) st)).
Proof.
  intros Hs Hd.
  destruct (createDuplicator_connected toErr pd source dest saveToFile env st Hs Hd)
    as (pre & tail & Et & _).
  rewrite Et. apply in_or_app. right. left. reflexivity.
Qed.

End Startup.

(** ** The counters *)

Module Counters.
Import Platform Config World Mqtt Observe PlatformFacts MqttFacts Startup.

Local Open Scope string_scope.
Local Open Scope list_scope.
Local Open Scope Z_scope.

Lemma add1_exact (n : Z) : n < 2 ^ 53 -> add1 n = n + 1.
Proof. unfold add1. lia. Qed.

Lemma iter_add1 (n : nat) (d : Z) :
  d + Z.of_nat n <= 2 ^ 53 -> Nat.iter n add1 d = d + Z.of_nat n.
Proof.
  induction n as [|n IH]; intros H; [cbn; lia|].
  rewrite Nat.iter_succ, IH by lia. rewrite add1_exact by lia. lia.
Qed.

Lemma publishFulfilled_run topic message qos retain st :
  run (publishFulfilled topic message qos retain) st =
  mkResult
    [ELog Debug [("topic", VStr topic); ("qos", VNum qos);
                 ("retain", VBool retain);
                 ("payloadBytes", VNum (Z.of_nat (length message)))]
       "Published message to destination MQTT"]
    (set_nRecentForwarded (add1 (nRecentForwarded st)) st) (Ok tt).
Proof. reflexivity. Qed.

Lemma publishRejected_run toErr topic qos retain error st :
  run (publishRejected toErr topic qos retain error) st =
  mkResult
    [ELog Error [("err", VErr (toErr error)); ("topic", VStr topic);
                 ("qos", VNum qos); ("retain", VBool retain)]
       "Publishing to destination failed"]
    (set_nRecentDropped (add1 (nRecentDropped st)) st) (Ok tt).
Proof. reflexivity. Qed.

Lemma report_run st :
  run report st =
  mkResult
    [ELog Info [("nRecentForwarded", VNum (nRecentForwarded st));
                ("nRecentDropped", VNum (nRecentDropped st))]
       "messages forwarded to destination MQTT"]
    (mkState 0 0 (writer st) (writerClosed st)) (Ok tt).
Proof. reflexivity. Qed.

Lemma rejections_run toErr source dest saveToFile (fs : list Failure) st :
  exists t,
    run (dispatchAll toErr source dest saveToFile (map rejectedEvent fs)) st
    = mkResult t
        (set_nRecentDropped (Nat.iter (length fs) add1 (nRecentDropped st)) st)
        (Ok tt)
    /\ publishes t = [].
Proof.
  revert st. induction fs as [|f fs IH]; intros st.
  - exists []. destruct st. split; reflexivity.
  - destruct (IH (set_nRecentDropped (add1 (nRecentDropped st)) st))
      as (t & Et & Ht).
    destruct f as [tp q r e].
    eexists. cbn [map dispatchAll].
    change (rejectedEvent (mkFailure tp q r e)) with (PublishRejected tp q r e).
    cbn [dispatch].
    rewrite (run_bind_ok _ _ _ _ _ _ (publishRejected_run toErr tp q r e st)).
    cbv beta. rewrite Et. cbn [trace final outcome length].
    rewrite Nat.iter_succ_r. split; [reflexivity|].
    cbn [app]. exact Ht.
Qed.

(** C6.  A fulfilled publish adds 1 to [nRecentForwarded] and nothing to
    [nRecentDropped]; a rejected one adds 1 to [nRecentDropped] and nothing
    to [nRecentForwarded], and publishes nothing again; N rejections in a
    row add N to [nRecentDropped]; the timer callback logs both counters
    and sets both to 0, and it is installed with a period of 60 000 ms.
    The additions are those of Numbers, exact while the counter is below
    2^53. *)
Theorem counters_correct toErr source dest saveToFile st :
  (forall topic message qos retain,
      nRecentForwarded st < 2 ^ 53 ->
      let r := run (dispatch toErr source dest saveToFile
                      (PublishFulfilled topic message qos retain)) st in
      nRecentForwarded (final r) = nRecentForwarded st + 1
      /\ nRecentDropped (final r) = nRecentDropped st
      /\ publishes (trace r) = [])
  /\ (forall topic qos retain error,
      nRecentDropped st < 2 ^ 53 ->
      let r := run (dispatch toErr source dest saveToFile
                      (PublishRejected topic qos retain error)) st in
      nRecentDropped (final r) = nRecentDropped st + 1
      /\ nRecentForwarded (final r) = nRecentForwarded st
      /\ publishes (trace r) = [])
  /\ (forall failures : list Failure,
      nRecentDropped st + Z.of_nat (length failures) <= 2 ^ 53 ->
      let r := run (dispatchAll toErr source dest saveToFile
                      (map rejectedEvent failures)) st in
      nRecentDropped (final r)
      = nRecentDropped st + Z.of_nat (length failures)
      /\ nRecentForwarded (final r) = nRecentForwarded st
      /\ publishes (trace r) = [])
  /\ (let r := run (dispatch toErr source dest saveToFile Interval) st in
      trace r
      = [ELog Info [("nRecentForwarded", VNum (nRecentForwarded st));
                    ("nRecentDropped", VNum (nRecentDropped st))]
           "messages forwarded to destination MQTT"]
      /\ nRecentForwarded (final r) = 0
      /\ nRecentDropped (final r) = 0)
  /\ (forall pd env st0,
      connect_source env = Ok tt ->
      connect_dest env = Ok tt ->
      In (ESetInterval HReport (1000 * 60))
         (trace (run (createDuplicator toErr pd source dest saveToFile env) st0))).
Proof.
  repeat apply conj.
  - intros topic message qos retain H r. subst r. cbn [dispatch].
    rewrite publishFulfilled_run. cbn. rewrite add1_exact by exact H. auto.
  - intros topic qos retain error H r. subst r. cbn [dispatch].
    rewrite publishRejected_run. cbn. rewrite add1_exact by exact H. auto.
  - intros failures H r. subst r.
    destruct (rejections_run toErr source dest saveToFile failures st)
      as (t & Et & Ht).
    rewrite Et. cbn [trace final set_nRecentDropped nRecentDropped nRecentForwarded].
    rewrite iter_add1 by exact H. auto.
  - reflexivity.
  - reflexivity.
  - reflexivity.
  - intros pd env st0 Hs Hd. apply timer_installed; assumption.
Qed.

Lemma counters_correct_witness :
  nRecentDropped Sample.open_state + Z.of_nat 3 <= 2 ^ 53 /\
  let r := run (dispatchAll Sample.toErr Sample.source Sample.dest
                  (Some Sample.saveToFile)
                  (map rejectedEvent
                     [Sample.failure; Sample.failure; Sample.failure]))
             Sample.open_state in
  nRecentDropped (final r) = 3 /\ nRecentForwarded (final r) = 0
  /\ publishes (trace r) = [].
Proof.
  split; [cbn; lia|].
  destruct (counters_correct Sample.toErr Sample.source Sample.dest
              (Some Sample.saveToFile) Sample.open_state)
    as (_ & _ & H & _).
  apply (H [Sample.failure; Sample.failure; Sample.failure]).
  cbn. lia.
Defined.

End Counters.

(** ** Shutdown *)

Module Shutdown.
Import Platform Config World Mqtt Index Observe PlatformFacts MqttFacts.

Local Open Scope string_scope.
Local Open Scope list_scope.
Local Open Scope Z_scope.

Lemma shutdown_view_app (t u : list Effect) :
  shutdown_view (t ++ u) = shutdown_view t ++ shutdown_view u.
Proof. apply List.filter_app. Qed.

Lemma closeWriterIfOpen_run answer st :
  exists t,
    run (closeWriterIfOpen answer) st = mkResult t st (Ok tt)
    /\ shutdown_view t = if writer_open st then [EWriterEnd] else [].
Proof.
  unfold closeWriterIfOpen, writer_open. run_monad.
  destruct (bool_decide (is_Some (writer st)) && negb (writerClosed st));
    [destruct answer as [[]|e]|]; eexists; split; reflexivity.
Qed.

Lemma client_end_run source dest c ans st :
  exists t,
    run (client_end (client source dest c ans)) st
    = mkResult (EClientEnd c :: t) st (end_result ans)
    /\ shutdown_view t
       = if writer_open st && close_emitted ans then [EWriterEnd] else [].
Proof.
  destruct (closeWriterIfOpen_run (writer_end_answer ans) st) as (t & Et & Ht).
  unfold client, onClientClose, logEvent. cbn [client_end].
  run_monad. destruct (close_emitted ans).
  - fold (run (closeWriterIfOpen (writer_end_answer ans)) st). rewrite Et.
    eexists. split; [reflexivity|].
    rewrite andb_true_r, app_nil_r.
    change (shutdown_view (?e :: t)) with (shutdown_view t). exact Ht.
  - eexists. split; [reflexivity|]. rewrite andb_false_r. reflexivity.
Qed.

Lemma run_seq (m k : M unit) st t t' (o : Exc unit) :
  run m st = mkResult t st (Ok tt) ->
  run k st = mkResult t' st o ->
  run (m;; k) st = mkResult (t ++ t') st o.
Proof.
  intros Hm Hk. rewrite (run_bind_ok _ _ _ _ _ _ Hm). rewrite Hk. reflexivity.
Qed.

Lemma run_try (body : M unit) (msg : string) st t (o : Exc unit) :
  run body st = mkResult t st o ->
  run (try_catch body
         (fun err => perform (ELog Error [("err", VErr err)] msg))) st
  = mkResult (t ++ caught msg o) st (Ok tt).
Proof.
  intros H. unfold try_catch. cbn [run]. rewrite H.
  destruct o as [[]|e]; cbn [caught run perform].
  - rewrite app_nil_r. reflexivity.
  - reflexivity.
Qed.

Lemma In_caught (msg : string) (o : Exc unit) e :
  thrown o = Some e -> In (ELog Error [("err", VErr e)] msg) (caught msg o).
Proof. destruct o as [[]|e']; intros [= ->]. left. reflexivity. Qed.

Lemma shutdown_view_caught (msg : string) (o : Exc unit) :
  shutdown_view (caught msg o) = [].
Proof. destruct o as [[]|e]; reflexivity. Qed.

Lemma unsubscribe_run toErr source answer st :
  run (unsubscribe toErr source answer) st
  = mkResult [EUnsubscribe (topicFilter source)] st
      (match answer with Ok a => Ok a | Throw e => Throw (toErr e) end).
Proof. destruct answer as [[]|e]; reflexivity. Qed.

Lemma thrown_unsubscribe toErr (answer : Exc unit) :
  thrown (match answer with Ok a => Ok a | Throw e => Throw (toErr e) end)
  = toErr <$> thrown answer.
Proof. destruct answer as [[]|e]; reflexivity. Qed.

(** The run of [exitHandler], step by step. *)
Lemma exitHandler_run toErr source dest env exitCode exitError st :
  exists pre ts td,
    run (exitHandler toErr source dest env exitCode exitError) st
    = mkResult
        (pre
         ++ ([ELog Info [] "Set health checks to fail"; ESetHealthOk false]
             ++ caught (step_message StepHealth) (setHealthOk_answer env))
         ++ ([ELog Info [] "Unsubscribe from source MQTT topics";
              EUnsubscribe (topicFilter source)]
             ++ caught (step_message StepUnsubscribe)
                  (match unsubscribe_answer env with
                   | Ok a => Ok a
                   | Throw e => Throw (toErr e)
                   end))
         ++ ((ELog Info [] "Disconnect source MQTT client"
              :: EClientEnd SourceClient :: ts)
             ++ caught (step_message StepSourceEnd) (end_result (source_end env)))
         ++ ((ELog Info [] "Disconnect destination MQTT client"
              :: EClientEnd DestClient :: td)
             ++ caught (step_message StepDestEnd) (end_result (dest_end env)))
         ++ ([ELog Info [] "Close health check server"; ECloseHealthCheckServer]
             ++ caught (step_message StepHealthServer)
                  (closeHealthCheckServer_answer env))
         ++ [ELog Info [] "Exit process"; EProcessExit])
        st (Ok tt)
    /\ shutdown_view pre = []
    /\ shutdown_view ts
       = (if writer_open st && close_emitted (source_end env)
          then [EWriterEnd] else [])
    /\ shutdown_view td
       = (if writer_open st && close_emitted (dest_end env)
          then [EWriterEnd] else []).
Proof.
  destruct (client_end_run source dest SourceClient (source_end env) st)
    as (ts & Es & Hts).
  destruct (client_end_run source dest DestClient (dest_end env) st)
    as (td & Ed & Htd).
  exists (match exitError with
          | Some e => [ELog Fatal [("err", VErr e)] EmptyString]
          | None => []
          end
          ++ [ELog Info [] "Start exiting gracefully"; ESetExitCode exitCode]),
    ts, td.
  split; [|split; [destruct exitError; reflexivity|split; assumption]].
  unfold exitHandler, exitGracefully. cbv beta iota.
  rewrite <- app_assoc.
  apply run_seq; [destruct exitError; reflexivity|].
  apply (run_seq _ _ _ [_]); [reflexivity|].
  apply (run_seq _ _ _ [_]); [reflexivity|].
  apply run_seq.
  { apply run_try. reflexivity. }
  apply run_seq.
  { apply run_try.
    apply (run_seq _ _ _ [_] [_]); [reflexivity|apply unsubscribe_run]. }
  apply run_seq.
  { apply run_try. apply (run_seq _ _ _ [_]); [reflexivity|exact Es]. }
  apply run_seq.
  { apply run_try. apply (run_seq _ _ _ [_]); [reflexivity|exact Ed]. }
  apply run_seq.
  { apply run_try. reflexivity. }
  reflexivity.
Qed.

(** C9, as the code has it.  A shutdown that holds every handle attempts,
    in this order and each exactly once: set the health check to fail,
    unsubscribe the topic filter, end the source client, end the
    destination client, close the health check server, exit.  Whatever a
    step throws is caught and logged and the next step is attempted all the
    same.  Closing the audit writer is no step of this sequence: the
    "close" listeners of the two clients call [writer.end] when their event
    is delivered while the writer is open, so the first such call follows
    the ending of the source client and precedes that of the destination
    client. *)
Theorem shutdown_order toErr source dest env exitCode exitError st :
  let r := run (exitHandler toErr source dest env exitCode exitError) st in
  shutdown_view (trace r)
  = [ESetHealthOk false; EUnsubscribe (topicFilter source);
     EClientEnd SourceClient]
    ++ (if writer_open st && close_emitted (source_end env)
        then [EWriterEnd] else [])
    ++ [EClientEnd DestClient]
    ++ (if writer_open st && close_emitted (dest_end env)
        then [EWriterEnd] else [])
    ++ [ECloseHealthCheckServer; EProcessExit]
  /\ outcome r = Ok tt
  /\ forall s e,
      step_failure toErr env s = Some e ->
      In (ELog Error [("err", VErr e)] (step_message s)) (trace r).
Proof.
  intros r. subst r.
  destruct (exitHandler_run toErr source dest env exitCode exitError st)
    as (pre & ts & td & E & Hpre & Hts & Htd).
  rewrite E. cbn [trace outcome]. split; [|split; [reflexivity|]].
  - rewrite !shutdown_view_app, !shutdown_view_caught, Hpre.
    change (shutdown_view (ELog Info [] "Disconnect source MQTT client"
                           :: EClientEnd SourceClient :: ts))
      with (EClientEnd SourceClient :: shutdown_view ts).
    change (shutdown_view (ELog Info [] "Disconnect destination MQTT client"
                           :: EClientEnd DestClient :: td))
      with (EClientEnd DestClient :: shutdown_view td).
    rewrite Hts, Htd. cbn [shutdown_view List.filter is_shutdown_step
                             is_writer_end orb app].
    rewrite !app_nil_r.
    destruct (writer_open st && close_emitted (source_end env));
      destruct (writer_open st && close_emitted (dest_end env)); reflexivity.
  - intros s e Hs.
    apply in_or_app; right.
    destruct s; cbn [step_failure] in Hs.
    + apply in_or_app; left. apply in_or_app; right.
      apply In_caught, Hs.
    + apply in_or_app; right. apply in_or_app; left. apply in_or_app; right.
      apply In_caught. rewrite thrown_unsubscribe. exact Hs.
    + do 2 (apply in_or_app; right). apply in_or_app; left.
      apply in_or_app; right. apply In_caught, Hs.
    + do 3 (apply in_or_app; right). apply in_or_app; left.
      apply in_or_app; right. apply In_caught, Hs.
    + do 4 (apply in_or_app; right). apply in_or_app; left.
      apply in_or_app; right. apply In_caught, Hs.
Qed.

Lemma shutdown_order_witness :
  step_failure Sample.toErr Sample.shutdown_env_failing StepUnsubscribe
  = Some (JsError "client disconnecting") /\
  In (ELog Error [("err", VErr (JsError "client disconnecting"))]
        (step_message StepUnsubscribe))
     (trace (run (exitHandler Sample.toErr Sample.source Sample.dest
                    Sample.shutdown_env_failing 143 None)
               Sample.open_state)).
Proof.
  split; [reflexivity|].
  apply (shutdown_order Sample.toErr Sample.source Sample.dest
           Sample.shutdown_env_failing 143 None Sample.open_state).
  reflexivity.
Defined.

(** C9, as the contract words it, fails: when the source client delivers
    its "close" event while it is being ended and the writer is open,
    [writer.end] is called before the destination client is ended. *)
Lemma audit_sink_closed_before_destination :
  ~ audit_sink_closed_last
      (trace (run (exitHandler Sample.toErr Sample.source Sample.dest
                     Sample.shutdown_env 143 None)
                Sample.open_state)).
Proof.
  intros H.
  set (t := trace (run (exitHandler Sample.toErr Sample.source Sample.dest
                          Sample.shutdown_env 143 None)
                     Sample.open_state)) in H.
  specialize (H (firstn 9 t) (skipn 10 t)).
  assert (E : t = firstn 9 t ++ EWriterEnd :: skipn 10 t)
    by (vm_compute; reflexivity).
  specialize (H E). vm_compute in H.
  repeat (destruct H as [H|H]; [discriminate H|]).
  exact H.
Qed.

End Shutdown.

(** ** Configuration *)

Module ConfigFacts.
Import Platform Config Observe.

Local Open Scope string_scope.
Local Open Scope list_scope.
Local Open Scope Z_scope.

Lemma bind_throw_l {A B} (m : Exc A) (f : A -> Exc B) :
  is_throw m -> is_throw (m ≫= f).
Proof. intros [e ->]. exists e. reflexivity. Qed.

Lemma bind_throw_r {A B} (m : Exc A) (f : A -> Exc B) :
  (forall a, is_throw (f a)) -> is_throw (m ≫= f).
Proof.
  intros H. destruct m as [a|e]; [apply H|exists e; reflexivity].
Qed.

Lemma bind_Ok_inv {A B} (m : Exc A) (f : A -> Exc B) b :
  m ≫= f = Ok b -> exists a, m = Ok a /\ f a = Ok b.
Proof.
  destruct m as [a|e]; [|discriminate]. intros H. exists a. auto.
Qed.

Lemma getQoS_rejects env envVar defaultStr s n :
  env !! envVar = Some s ->
  parseInt s = Some n ->
  n <> 0 -> n <> 1 -> n <> 2 ->
  getQoS env envVar defaultStr
  = Throw (JsError ("If defined, " +:+ envVar +:+
                    " must be 0, 1 or 2. Default is " +:+ defaultStr +:+ ".")).
Proof.
  intros Hs Hn H0 H1 H2. unfold getQoS. rewrite Hs. cbn [from_option id].
  rewrite Hn.
  destruct (Z.eqb_spec n 0); [contradiction|].
  destruct (Z.eqb_spec n 1); [contradiction|].
  destruct (Z.eqb_spec n 2); [contradiction|].
  reflexivity.
Qed.

Lemma getQoS_accepts env envVar defaultStr qos :
  getQoS env envVar defaultStr = Ok qos -> 0 <= qos <= 2.
Proof.
  unfold getQoS.
  destruct (parseInt _) as [n|]; [|discriminate].
  destruct (Z.eqb_spec n 0); [intros [= <-]; lia|].
  destruct (Z.eqb_spec n 1); [intros [= <-]; lia|].
  destruct (Z.eqb_spec n 2); [intros [= <-]; lia|].
  discriminate.
Qed.

Lemma getQoS_absent env envVar defaultStr :
  env !! envVar = None ->
  getQoS env envVar defaultStr = getQoS ∅ envVar defaultStr.
Proof.
  intros H. unfold getQoS. rewrite H, lookup_empty. reflexivity.
Qed.

Lemma getDestMqttConfig_qosMax env rb cfg :
  getDestMqttConfig env rb = Ok cfg ->
  getQoS env "FORWARD_QOS_MAX" "1" = Ok (qosMax cfg).
Proof.
  unfold getDestMqttConfig. intros H.
  apply bind_Ok_inv in H as (url & _ & H).
  apply bind_Ok_inv in H as (auth & _ & H).
  apply bind_Ok_inv in H as (cid & _ & H).
  apply bind_Ok_inv in H as (cl & _ & H).
  apply bind_Ok_inv in H as (q & Hq & H).
  apply bind_Ok_inv in H as (fr & _ & H).
  injection H as <-. exact Hq.
Qed.

Lemma getDestMqttConfig_throws env rb :
  is_throw (getQoS env "FORWARD_QOS_MAX" "1") ->
  is_throw (getDestMqttConfig env rb).
Proof.
  intros H. unfold getDestMqttConfig.
  do 4 (apply bind_throw_r; intros ?).
  apply bind_throw_l, H.
Qed.

Lemma getConfig_throws env rb :
  is_throw (getDestMqttConfig env rb) -> is_throw (getConfig env rb).
Proof.
  intros H. unfold getConfig.
  apply bind_throw_r; intros ?. apply bind_throw_l, H.
Qed.

(** C8.  When [FORWARD_QOS_MAX] is set and [parseInt] reads from it an
    integer that is none of 0, 1, 2 (any integer above 2 among them),
    [getQoS] throws, and so do [getDestMqttConfig] and [getConfig]: no
    configuration comes out, clamped or not.  When the variable is not set
    the ceiling is 1.  A ceiling that is accepted is 0, 1 or 2. *)
Theorem qos_ceiling_validated (env : gmap string jsstring) rb :
  (forall s n,
      env !! "FORWARD_QOS_MAX" = Some s ->
      parseInt s = Some n ->
      n <> 0 -> n <> 1 -> n <> 2 ->
      getQoS env "FORWARD_QOS_MAX" "1"
      = Throw (JsError
                 "If defined, FORWARD_QOS_MAX must be 0, 1 or 2. Default is 1.")
      /\ is_throw (getDestMqttConfig env rb)
      /\ is_throw (getConfig env rb))
  /\ (env !! "FORWARD_QOS_MAX" = None ->
      getQoS env "FORWARD_QOS_MAX" "1" = Ok 1
      /\ forall cfg, getDestMqttConfig env rb = Ok cfg -> qosMax cfg = 1)
  /\ (forall cfg, getDestMqttConfig env rb = Ok cfg -> 0 <= qosMax cfg <= 2).
Proof.
  repeat apply conj.
  - intros s n Hs Hn H0 H1 H2.
    pose proof (getQoS_rejects env "FORWARD_QOS_MAX" "1" s n Hs Hn H0 H1 H2) as E.
    assert (T : is_throw (getQoS env "FORWARD_QOS_MAX" "1"))
      by (rewrite E; eexists; reflexivity).
    repeat split.
    + exact E.
    + apply getDestMqttConfig_throws, T.
    + apply getConfig_throws, getDestMqttConfig_throws, T.
  - intros Habs. split.
    + rewrite (getQoS_absent _ _ _ Habs). reflexivity.
    + intros cfg Hcfg.
      apply getDestMqttConfig_qosMax in Hcfg.
      rewrite (getQoS_absent _ _ _ Habs) in Hcfg.
      change (getQoS ∅ "FORWARD_QOS_MAX" "1") with (Ok 1) in Hcfg.
      congruence.
  - intros cfg Hcfg. apply getDestMqttConfig_qosMax in Hcfg.
    apply getQoS_accepts in Hcfg. exact Hcfg.
Qed.

Lemma qos_ceiling_validated_witness :
  (Sample.process_env_3 !! "FORWARD_QOS_MAX" = Some (js "3")
   /\ parseInt (js "3") = Some 3
   /\ is_throw (getConfig Sample.process_env_3 Sample.randomBytes))
  /\ (Sample.process_env !! "FORWARD_QOS_MAX" = None
      /\ exists cfg,
          getDestMqttConfig Sample.process_env Sample.randomBytes = Ok cfg
          /\ qosMax cfg = 1).
Proof.
  destruct (qos_ceiling_validated Sample.process_env_3 Sample.randomBytes)
    as (H3 & _ & _).
  destruct (qos_ceiling_validated Sample.process_env Sample.randomBytes)
    as (_ & H0 & _).
  split.
  - assert (E : Sample.process_env_3 !! "FORWARD_QOS_MAX" = Some (js "3"))
      by (vm_compute; reflexivity).
    split; [exact E|]. split; [reflexivity|].
    apply (H3 (js "3") 3 E eq_refl); lia.
  - assert (E : Sample.process_env !! "FORWARD_QOS_MAX" = None)
      by (vm_compute; reflexivity).
    split; [exact E|].
    destruct (H0 E) as (_ & Hcfg).
    destruct (getDestMqttConfig Sample.process_env Sample.randomBytes)
      as [cfg|e] eqn:G; [|vm_compute in G; discriminate G].
    exists cfg. split; [reflexivity|]. apply Hcfg. reflexivity.
Defined.

End ConfigFacts.

(** ** More on the configuration *)

Module ConfigExtras.
Import Platform Config Bits Observe Reading PlatformFacts ConfigFacts.

Local Open Scope string_scope.
Local Open Scope list_scope.
Local Open Scope Z_scope.

Ltac bind_inv H :=
  repeat (let a := fresh "a" in
          let E := fresh "E" in
          apply bind_Ok_inv in H as (a & E & H)).

Lemma getRequired_Ok env k v : getRequired env k = Ok v <-> env !! k = Some v.
Proof.
  unfold getRequired. destruct (env !! k); split; intros H; congruence.
Qed.

Lemma getRequired_missing env k : env !! k = None -> is_throw (getRequired env k).
Proof. intros H. unfold getRequired. rewrite H. eexists. reflexivity. Qed.

Lemma createMqttClientId_missing env rb k l :
  env !! k = None -> is_throw (createMqttClientId env rb k l).
Proof.
  intros H. unfold createMqttClientId.
  apply bind_throw_l, getRequired_missing, H.
Qed.

Lemma getSourceMqttConfig_throws env rb :
  is_throw (getSourceMqttConfig env rb) -> is_throw (getConfig env rb).
Proof. intros H. unfold getConfig. apply bind_throw_l, H. Qed.

(** X1.  Each of the five required variables is needed: without it [getConfig]
    throws. *)
Theorem required_variables_needed env rb k :
  In k required_variables ->
  env !! k = None ->
  is_throw (getConfig env rb).
Proof.
  intros Hk Hnone. cbn in Hk.
  destruct Hk as [<-|[<-|[<-|[<-|[<-|[]]]]]].
  - apply getSourceMqttConfig_throws. unfold getSourceMqttConfig.
    apply bind_throw_l, getRequired_missing, Hnone.
  - apply getSourceMqttConfig_throws. unfold getSourceMqttConfig.
    do 2 (apply bind_throw_r; intros ?).
    apply bind_throw_l, createMqttClientId_missing, Hnone.
  - apply getSourceMqttConfig_throws. unfold getSourceMqttConfig.
    do 3 (apply bind_throw_r; intros ?).
    apply bind_throw_l, getRequired_missing, Hnone.
  - apply getConfig_throws. unfold getDestMqttConfig.
    apply bind_throw_l, getRequired_missing, Hnone.
  - apply getConfig_throws. unfold getDestMqttConfig.
    do 2 (apply bind_throw_r; intros ?).
    apply bind_throw_l, createMqttClientId_missing, Hnone.
Qed.

Lemma required_variables_needed_witness :
  In "DEST_MQTT_URL" required_variables
  /\ (delete "DEST_MQTT_URL" Sample.process_env) !! "DEST_MQTT_URL" = None
  /\ is_throw (getConfig (delete "DEST_MQTT_URL" Sample.process_env)
                 Sample.randomBytes).
Proof.
  assert (Hin : In "DEST_MQTT_URL" required_variables)
    by (cbn; tauto).
  assert (Hno : (delete "DEST_MQTT_URL" Sample.process_env) !! "DEST_MQTT_URL"
                = None) by apply lookup_delete_eq.
  split; [exact Hin|]. split; [exact Hno|].
  exact (required_variables_needed _ Sample.randomBytes _ Hin Hno).
Defined.

Ltac unfold_getters :=
  unfold getConfig, getSourceMqttConfig, getDestMqttConfig,
    getHealthCheckConfig, getSaveToFileConfig, createMqttClientId,
    getMqttAuthFromPaths, getQoS, getOptionalBooleanWithDefault,
    getOptionalNonNegativeInteger, getOptional, getRequired.

(** X2.  With the five required variables set and no other, [getConfig] returns,
    and what it returns carries the values of the five and the defaults of
    the others: subscription QoS 2, clean session false at the source and
    true at the destination, ceiling 1, retain forwarded, port 8080, no
    saving to file, client identifiers without suffix. *)
Theorem config_defaults env rb url_s prefix_s filter url_d prefix_d bytes :
  env !! "SOURCE_MQTT_URL" = Some url_s ->
  env !! "SOURCE_MQTT_CLIENT_ID_PREFIX" = Some prefix_s ->
  env !! "SOURCE_MQTT_TOPIC_FILTER" = Some filter ->
  env !! "DEST_MQTT_URL" = Some url_d ->
  env !! "DEST_MQTT_CLIENT_ID_PREFIX" = Some prefix_d ->
  Forall (fun k => env !! k = None) optional_variables ->
  rb 0 = Ok bytes ->
  getConfig env rb
  = Ok (mkConfig
          (mkSourceMqttConfig url_s filter
             (mkClientOptions prefix_s false None None)
             (mkSubscribeOptions 2))
          (mkDestMqttConfig url_d
             (mkClientOptions prefix_d true None None) 1 true)
          (mkHealthCheckConfig (Some 8080))
          (mkSaveToFileConfig false (js "./messages.ndjson"))).
Proof.
  intros H1 H2 H3 H4 H5 Hopt Hrb. unfold optional_variables in Hopt.
  repeat (apply Forall_cons in Hopt as [? Hopt]).
  unfold_getters.
  repeat match goal with H : env !! _ = _ |- _ => rewrite H; clear H end.
  cbn [mbind Exc_bind from_option id]. rewrite Hrb.
  cbn [mbind Exc_bind from_option id Z.to_nat take fmap option_fmap option_map].
  rewrite !app_nil_r. reflexivity.
Qed.

Lemma config_defaults_witness :
  getConfig Sample.process_env Sample.randomBytes
  = Ok (mkConfig
          (mkSourceMqttConfig (js "mqtt://source") (js "apc-from-vehicle/#")
             (mkClientOptions (js "dup-source-") false None None)
             (mkSubscribeOptions 2))
          (mkDestMqttConfig (js "mqtt://dest")
             (mkClientOptions (js "dup-dest-") true None None) 1 true)
          (mkHealthCheckConfig (Some 8080))
          (mkSaveToFileConfig false (js "./messages.ndjson"))).
Proof.
  apply (config_defaults Sample.process_env Sample.randomBytes
           (js "mqtt://source") (js "dup-source-") (js "apc-from-vehicle/#")
           (js "mqtt://dest") (js "dup-dest-") []);
    try (vm_compute; reflexivity).
  unfold optional_variables.
  repeat (apply Forall_cons; split; [vm_compute; reflexivity|]).
  apply Forall_nil. exact I.
Defined.

Lemma getMqttAuthFromPaths_Ok env u p auth :
  getMqttAuthFromPaths env u p = Ok auth ->
  fst <$> auth = env !! u /\ snd <$> auth = env !! p
  /\ (is_Some (env !! u) <-> is_Some (env !! p)).
Proof.
  unfold getMqttAuthFromPaths.
  destruct (env !! u) as [x|], (env !! p) as [y|]; intros [= <-];
    repeat split; auto; intros [? [=]].
Qed.

Lemma getMqttAuthFromPaths_lone env u p :
  ~ (is_Some (env !! u) <-> is_Some (env !! p)) ->
  is_throw (getMqttAuthFromPaths env u p).
Proof.
  unfold getMqttAuthFromPaths. intros H.
  destruct (env !! u) as [x|], (env !! p) as [y|];
    try (eexists; reflexivity); exfalso; apply H; split; eauto;
    intros [? [=]].
Qed.

(** X3.  The user name and the password of a client are the values of the
    [*_USERNAME_PATH] and [*_PASSWORD_PATH] variables as they stand, both
    there or both missing; where exactly one of a pair is set, [getConfig]
    throws. *)
Theorem credentials_both_or_neither env rb :
  (forall cfg, getSourceMqttConfig env rb = Ok cfg ->
     username (source_clientOptions cfg) = env !! "SOURCE_MQTT_USERNAME_PATH"
     /\ password (source_clientOptions cfg) = env !! "SOURCE_MQTT_PASSWORD_PATH"
     /\ (is_Some (username (source_clientOptions cfg))
         <-> is_Some (password (source_clientOptions cfg))))
  /\ (forall cfg, getDestMqttConfig env rb = Ok cfg ->
     username (dest_clientOptions cfg) = env !! "DEST_MQTT_USERNAME_PATH"
     /\ password (dest_clientOptions cfg) = env !! "DEST_MQTT_PASSWORD_PATH"
     /\ (is_Some (username (dest_clientOptions cfg))
         <-> is_Some (password (dest_clientOptions cfg))))
  /\ (~ (is_Some (env !! "SOURCE_MQTT_USERNAME_PATH")
         <-> is_Some (env !! "SOURCE_MQTT_PASSWORD_PATH")) ->
      is_throw (getConfig env rb))
  /\ (~ (is_Some (env !! "DEST_MQTT_USERNAME_PATH")
         <-> is_Some (env !! "DEST_MQTT_PASSWORD_PATH")) ->
      is_throw (getConfig env rb)).
Proof.
  repeat apply conj.
  - intros cfg H. unfold getSourceMqttConfig in H. bind_inv H.
    injection H as <-. cbn [source_clientOptions username password].
    match goal with E : getMqttAuthFromPaths _ _ _ = Ok _ |- _ =>
      apply getMqttAuthFromPaths_Ok in E as (Eu & Ep & Eb) end.
    rewrite Eu, Ep. auto.
  - intros cfg H. unfold getDestMqttConfig in H. bind_inv H.
    injection H as <-. cbn [dest_clientOptions username password].
    match goal with E : getMqttAuthFromPaths _ _ _ = Ok _ |- _ =>
      apply getMqttAuthFromPaths_Ok in E as (Eu & Ep & Eb) end.
    rewrite Eu, Ep. auto.
  - intros H. apply getSourceMqttConfig_throws. unfold getSourceMqttConfig.
    apply bind_throw_r; intros ?.
    apply bind_throw_l, getMqttAuthFromPaths_lone, H.
  - intros H. apply getConfig_throws. unfold getDestMqttConfig.
    apply bind_throw_r; intros ?.
    apply bind_throw_l, getMqttAuthFromPaths_lone, H.
Qed.

Lemma credentials_both_or_neither_witness :
  is_throw
    (getConfig (<["DEST_MQTT_USERNAME_PATH" := js "/run/secrets/user"]>
                  Sample.process_env)
       Sample.randomBytes).
Proof.
  destruct (credentials_both_or_neither
              (<["DEST_MQTT_USERNAME_PATH" := js "/run/secrets/user"]>
                 Sample.process_env)
              Sample.randomBytes) as (_ & _ & _ & H).
  apply H. vm_compute. intros [H1 _].
  destruct H1 as [x Hx]; [eexists; reflexivity|discriminate Hx].
Defined.

Lemma getOptionalBooleanWithDefault_strict env k d s :
  env !! k = Some s ->
  s <> js "true" -> s <> js "false" ->
  is_throw (getOptionalBooleanWithDefault env k d).
Proof.
  intros Hs Ht Hf. unfold getOptionalBooleanWithDefault, getOptional.
  rewrite Hs. rewrite bool_decide_eq_false_2; [eexists; reflexivity|].
  intros Hin. apply elem_of_cons in Hin as [->|Hin]; [congruence|].
  apply elem_of_cons in Hin as [->|Hin]; [congruence|].
  apply elem_of_nil in Hin. exact Hin.
Qed.

(** X4.  The four boolean variables take the texts [true] and [false] and no
    other: with any other text in one of them, [getConfig] throws. *)
Theorem boolean_variables_strict env rb k s :
  In k boolean_variables ->
  env !! k = Some s ->
  s <> js "true" -> s <> js "false" ->
  is_throw (getConfig env rb).
Proof.
  intros Hk Hs Ht Hf. cbn in Hk.
  destruct Hk as [<-|[<-|[<-|[<-|[]]]]].
  - apply getSourceMqttConfig_throws. unfold getSourceMqttConfig.
    do 5 (apply bind_throw_r; intros ?).
    apply bind_throw_l.
    apply (getOptionalBooleanWithDefault_strict _ _ _ s); assumption.
  - apply getConfig_throws. unfold getDestMqttConfig.
    do 3 (apply bind_throw_r; intros ?).
    apply bind_throw_l.
    apply (getOptionalBooleanWithDefault_strict _ _ _ s); assumption.
  - apply getConfig_throws. unfold getDestMqttConfig.
    do 5 (apply bind_throw_r; intros ?).
    apply bind_throw_l.
    apply (getOptionalBooleanWithDefault_strict _ _ _ s); assumption.
  - unfold getConfig. do 3 (apply bind_throw_r; intros ?).
    apply bind_throw_l. unfold getSaveToFileConfig.
    apply bind_throw_l.
    apply (getOptionalBooleanWithDefault_strict _ _ _ s); assumption.
Qed.

Lemma boolean_variables_strict_witness :
  In "FORWARD_RETAIN" boolean_variables
  /\ is_throw
       (getConfig (<["FORWARD_RETAIN" := js "TRUE"]> Sample.process_env)
          Sample.randomBytes).
Proof.
  assert (Hin : In "FORWARD_RETAIN" boolean_variables) by (cbn; tauto).
  split; [exact Hin|].
  apply (boolean_variables_strict _ Sample.randomBytes "FORWARD_RETAIN"
           (js "TRUE") Hin).
  - apply lookup_insert_eq.
  - discriminate.
  - discriminate.
Defined.

Lemma getOptionalBooleanWithDefault_Ok env k d b :
  getOptionalBooleanWithDefault env k d = Ok b ->
  b = from_option (fun s => bool_decide (s = js "true")) d (env !! k).
Proof.
  unfold getOptionalBooleanWithDefault, getOptional.
  destruct (env !! k) as [s|]; cbn [from_option].
  - destruct (negb _); [discriminate|]. intros [= <-]. reflexivity.
  - intros [= <-]. reflexivity.
Qed.

Lemma createMqttClientId_prefix env rb k l cid :
  createMqttClientId env rb k l = Ok cid ->
  exists prefix suffix, env !! k = Some prefix /\ cid = prefix ++ suffix.
Proof.
  unfold createMqttClientId. intros H. bind_inv H. injection H as <-.
  match goal with E : getRequired _ _ = Ok _ |- _ =>
    apply getRequired_Ok in E end.
  eauto.
Qed.

(** X5.  What [getConfig] returns mirrors the environment: the URLs and the topic
    filter are the values of their variables, each client identifier begins
    with its prefix, the subscription QoS is 0, 1 or 2, each boolean is true
    exactly for the text [true] and has its default when the variable is not
    set, the file path and the port are read with their defaults. *)
Theorem config_reflects_environment env rb cfg :
  getConfig env rb = Ok cfg ->
  env !! "SOURCE_MQTT_URL" = Some (source_url (source cfg))
  /\ env !! "SOURCE_MQTT_TOPIC_FILTER" = Some (topicFilter (source cfg))
  /\ env !! "DEST_MQTT_URL" = Some (dest_url (dest cfg))
  /\ (exists prefix suffix,
        env !! "SOURCE_MQTT_CLIENT_ID_PREFIX" = Some prefix
        /\ clientId (source_clientOptions (source cfg)) = prefix ++ suffix)
  /\ (exists prefix suffix,
        env !! "DEST_MQTT_CLIENT_ID_PREFIX" = Some prefix
        /\ clientId (dest_clientOptions (dest cfg)) = prefix ++ suffix)
  /\ 0 <= sub_qos (subscribeOptions (source cfg)) <= 2
  /\ clean (source_clientOptions (source cfg))
     = from_option (fun s => bool_decide (s = js "true")) false
         (env !! "SOURCE_MQTT_CLEAN_SESSION")
  /\ clean (dest_clientOptions (dest cfg))
     = from_option (fun s => bool_decide (s = js "true")) true
         (env !! "DEST_MQTT_CLEAN_SESSION")
  /\ forwardRetain (dest cfg)
     = from_option (fun s => bool_decide (s = js "true")) true
         (env !! "FORWARD_RETAIN")
  /\ enabled (saveToFile cfg)
     = from_option (fun s => bool_decide (s = js "true")) false
         (env !! "SAVE_MESSAGES_TO_FILE")
  /\ filePath (saveToFile cfg)
     = default (js "./messages.ndjson") (env !! "SAVE_MESSAGES_FILE_PATH")
  /\ port (healthCheck cfg)
     = parseInt (default (js "8080") (env !! "HEALTH_CHECK_PORT")).
Proof.
  intros H. unfold getConfig in H.
  apply bind_Ok_inv in H as (s & Es & H).
  apply bind_Ok_inv in H as (d & Ed & H).
  apply bind_Ok_inv in H as (h & Eh & H).
  apply bind_Ok_inv in H as (f & Ef & H).
  injection H as <-. cbn [source dest healthCheck saveToFile].
  unfold getSourceMqttConfig in Es.
  apply bind_Ok_inv in Es as (url & Eurl & Es).
  apply bind_Ok_inv in Es as (auth & Eauth & Es).
  apply bind_Ok_inv in Es as (cid & Ecid & Es).
  apply bind_Ok_inv in Es as (tf & Etf & Es).
  apply bind_Ok_inv in Es as (q & Eq & Es).
  apply bind_Ok_inv in Es as (cl & Ecl & Es).
  injection Es as <-.
  unfold getDestMqttConfig in Ed.
  apply bind_Ok_inv in Ed as (durl & Edurl & Ed).
  apply bind_Ok_inv in Ed as (dauth & Edauth & Ed).
  apply bind_Ok_inv in Ed as (dcid & Edcid & Ed).
  apply bind_Ok_inv in Ed as (dcl & Edcl & Ed).
  apply bind_Ok_inv in Ed as (dq & Edq & Ed).
  apply bind_Ok_inv in Ed as (fr & Efr & Ed).
  injection Ed as <-.
  unfold getSaveToFileConfig in Ef.
  apply bind_Ok_inv in Ef as (en & Een & Ef).
  injection Ef as <-.
  unfold getHealthCheckConfig in Eh. injection Eh as <-.
  cbn [source_url topicFilter dest_url source_clientOptions dest_clientOptions
       clientId clean subscribeOptions sub_qos forwardRetain enabled filePath
       port].
  apply getRequired_Ok in Eurl, Etf, Edurl.
  repeat apply conj; try assumption.
  - eapply createMqttClientId_prefix, Ecid.
  - eapply createMqttClientId_prefix, Edcid.
  - apply getQoS_accepts in Eq. lia.
  - apply getQoS_accepts in Eq. lia.
  - eapply getOptionalBooleanWithDefault_Ok, Ecl.
  - eapply getOptionalBooleanWithDefault_Ok, Edcl.
  - eapply getOptionalBooleanWithDefault_Ok, Efr.
  - eapply getOptionalBooleanWithDefault_Ok, Een.
  - reflexivity.
  - reflexivity.
Qed.

Lemma config_reflects_environment_witness :
  exists cfg,
    getConfig (<["FORWARD_RETAIN" := js "false"]> Sample.process_env)
      Sample.randomBytes = Ok cfg
    /\ forwardRetain (dest cfg) = false
    /\ dest_url (dest cfg) = js "mqtt://dest".
Proof.
  destruct (getConfig (<["FORWARD_RETAIN" := js "false"]> Sample.process_env)
              Sample.randomBytes) as [cfg|e] eqn:G;
    [|vm_compute in G; discriminate G].
  exists cfg. split; [reflexivity|].
  destruct (config_reflects_environment _ _ _ G)
    as (_ & _ & Hu & _ & _ & _ & _ & _ & Hr & _).
  split.
  - rewrite Hr. reflexivity.
  - vm_compute in Hu. injection Hu as Hu. symmetry. exact Hu.
Defined.

Lemma base64_char_in_alphabet (v : Z) :
  is_sextet v = true -> is_base64_char (base64_char v) = true.
Proof.
  intros Hv.
  apply (forallb_below 64 (fun v => is_base64_char (base64_char v)));
    [vm_compute; reflexivity|].
  unfold is_sextet in Hv. lia.
Qed.

(** The text of the encoder: characters of the alphabet, at least as many
    as there are octets, and then the padding. *)
Lemma base64_body (buf : Buffer) :
  exists body pads,
    Buffer_toString_base64 buf = body ++ pads
    /\ Forall (fun c => is_base64_char c = true) body
    /\ (length buf <= length body)%nat.
Proof.
  induction buf as [|x|x y|x y z rest IH] using Buffer_ind3.
  - exists [], []. repeat split; [constructor|reflexivity].
  - pose proof (byte_to_Z_range x) as Hx.
    exists [base64_char (sextet1 (byte_to_Z x));
            base64_char (sextet2 (byte_to_Z x) 0)], [PAD; PAD].
    rewrite toString_base64_1. repeat split; [|cbn; lia].
    repeat constructor; apply base64_char_in_alphabet;
      [apply sextet1_ok|apply sextet2_ok]; lia.
  - pose proof (byte_to_Z_range x) as Hx.
    pose proof (byte_to_Z_range y) as Hy.
    exists [base64_char (sextet1 (byte_to_Z x));
            base64_char (sextet2 (byte_to_Z x) (byte_to_Z y));
            base64_char (sextet3 (byte_to_Z y) 0)], [PAD].
    rewrite toString_base64_2. repeat split; [|cbn; lia].
    repeat constructor; apply base64_char_in_alphabet;
      [apply sextet1_ok|apply sextet2_ok|apply sextet3_ok]; lia.
  - destruct IH as (body & pads & E & Hbody & Hlen).
    pose proof (byte_to_Z_range x) as Hx.
    pose proof (byte_to_Z_range y) as Hy.
    pose proof (byte_to_Z_range z) as Hz.
    exists (base64_char (sextet1 (byte_to_Z x))
            :: base64_char (sextet2 (byte_to_Z x) (byte_to_Z y))
            :: base64_char (sextet3 (byte_to_Z y) (byte_to_Z z))
            :: base64_char (sextet4 (byte_to_Z z)) :: body), pads.
    rewrite toString_base64_3, E. repeat split; [|cbn; lia].
    repeat (constructor; [apply base64_char_in_alphabet;
                          first [apply sextet1_ok | apply sextet2_ok
                                | apply sextet3_ok | apply sextet4_ok]; lia|]).
    exact Hbody.
Qed.

Lemma getOptionalNonNegativeInteger_Ok env l n :
  getOptionalNonNegativeInteger env l = Ok n -> 0 <= default 0 n.
Proof.
  unfold getOptionalNonNegativeInteger, getOptional.
  destruct (env !! l) as [s|]; [|intros [= <-]; cbn; lia].
  destruct (parseInt s) as [m|]; [|discriminate].
  destruct (Z.ltb_spec m 0); [discriminate|].
  intros [= <-]. cbn. lia.
Qed.

(** X6.  When [crypto.randomBytes] gives as many octets as it is asked for, the
    client identifier is the prefix followed by exactly as many characters
    as the suffix length says, all of them from the Base64 alphabet and
    none the padding character. *)
Theorem client_id_suffix env rb k l cid :
  (forall n bytes, rb n = Ok bytes -> length bytes = Z.to_nat n) ->
  createMqttClientId env rb k l = Ok cid ->
  exists prefix suffix n,
    env !! k = Some prefix
    /\ getOptionalNonNegativeInteger env l = Ok n
    /\ cid = prefix ++ suffix
    /\ Z.of_nat (length suffix) = default 0 n
    /\ Forall (fun c => is_base64_char c = true) suffix.
Proof.
  intros Hrb H. unfold createMqttClientId in H.
  apply bind_Ok_inv in H as (prefix & Ep & H).
  apply bind_Ok_inv in H as (n & En & H).
  apply bind_Ok_inv in H as (bytes & Eb & H).
  injection H as <-.
  apply getRequired_Ok in Ep.
  pose proof (getOptionalNonNegativeInteger_Ok _ _ _ En) as Hn.
  apply Hrb in Eb.
  destruct (base64_body bytes) as (body & pads & E & Hbody & Hlen).
  exists prefix, (take (Z.to_nat (default 0 n)) (Buffer_toString_base64 bytes)), n.
  repeat split; try assumption.
  - rewrite E, take_app_le by lia. rewrite length_take. lia.
  - rewrite E, take_app_le by lia. apply Forall_take, Hbody.
Qed.

Lemma client_id_suffix_witness :
  exists suffix,
    createMqttClientId
      (<["DEST_MQTT_CLIENT_ID_SUFFIX_LENGTH" := js "5"]> Sample.process_env)
      Sample.randomBytes
      "DEST_MQTT_CLIENT_ID_PREFIX" "DEST_MQTT_CLIENT_ID_SUFFIX_LENGTH"
    = Ok (js "dup-dest-" ++ suffix)
    /\ Z.of_nat (length suffix) = 5.
Proof.
  destruct (createMqttClientId
              (<["DEST_MQTT_CLIENT_ID_SUFFIX_LENGTH" := js "5"]>
                 Sample.process_env)
              Sample.randomBytes
              "DEST_MQTT_CLIENT_ID_PREFIX" "DEST_MQTT_CLIENT_ID_SUFFIX_LENGTH")
    as [cid|e] eqn:G; [|vm_compute in G; discriminate G].
  assert (Hrb : forall n bytes,
             Sample.randomBytes n = Ok bytes -> length bytes = Z.to_nat n).
  { intros n bytes [= <-]. apply repeat_length. }
  destruct (client_id_suffix _ _ _ _ _ Hrb G)
    as (prefix & suffix & n & Ep & En & Ec & Hl & _).
  exists suffix.
  vm_compute in Ep. injection Ep as <-.
  vm_compute in En. injection En as <-.
  split; [rewrite Ec; reflexivity|exact Hl].
Defined.

(** X7.  A suffix length that [parseInt] reads as no number or as a negative
    one makes [getConfig] throw. *)
Theorem suffix_length_validated env rb l s :
  In l suffix_length_variables ->
  env !! l = Some s ->
  from_option (fun m => m <? 0) true (parseInt s) = true ->
  is_throw (getConfig env rb).
Proof.
  intros Hl Hs Hbad.
  assert (T : is_throw (getOptionalNonNegativeInteger env l)).
  { unfold getOptionalNonNegativeInteger, getOptional. rewrite Hs.
    destruct (parseInt s) as [m|]; cbn [from_option] in Hbad;
      [rewrite Hbad|]; eexists; reflexivity. }
  cbn in Hl. destruct Hl as [<-|[<-|[]]].
  - apply getSourceMqttConfig_throws. unfold getSourceMqttConfig.
    do 2 (apply bind_throw_r; intros ?).
    apply bind_throw_l. unfold createMqttClientId.
    apply bind_throw_r; intros ?. apply bind_throw_l, T.
  - apply getConfig_throws. unfold getDestMqttConfig.
    do 2 (apply bind_throw_r; intros ?).
    apply bind_throw_l. unfold createMqttClientId.
    apply bind_throw_r; intros ?. apply bind_throw_l, T.
Qed.

Lemma suffix_length_validated_witness :
  is_throw
    (getConfig
       (<["SOURCE_MQTT_CLIENT_ID_SUFFIX_LENGTH" := js "-1"]> Sample.process_env)
       Sample.randomBytes).
Proof.
  apply (suffix_length_validated _ Sample.randomBytes
           "SOURCE_MQTT_CLIENT_ID_SUFFIX_LENGTH" (js "-1")).
  - cbn. tauto.
  - apply lookup_insert_eq.
  - reflexivity.
Defined.

(** X8.  [HEALTH_CHECK_PORT] is read and not checked: whatever text it holds,
    [getConfig] throws or returns as it does without it, and the port of the
    configuration is what [parseInt] makes of the text, [NaN] included. *)
Theorem health_check_port_unchecked env rb v :
  getConfig (<["HEALTH_CHECK_PORT" := v]> env) rb
  = (cfg ← getConfig env rb; Ok (with_port (parseInt v) cfg)).
Proof.
  assert (Es : getSourceMqttConfig (<["HEALTH_CHECK_PORT" := v]> env) rb
               = getSourceMqttConfig env rb).
  { unfold_getters. rewrite !lookup_insert_ne by discriminate. reflexivity. }
  assert (Ed : getDestMqttConfig (<["HEALTH_CHECK_PORT" := v]> env) rb
               = getDestMqttConfig env rb).
  { unfold_getters. rewrite !lookup_insert_ne by discriminate. reflexivity. }
  assert (Ef : getSaveToFileConfig (<["HEALTH_CHECK_PORT" := v]> env)
               = getSaveToFileConfig env).
  { unfold_getters. rewrite !lookup_insert_ne by discriminate. reflexivity. }
  assert (Eh : getHealthCheckConfig (<["HEALTH_CHECK_PORT" := v]> env)
               = Ok (mkHealthCheckConfig (parseInt v))).
  { unfold_getters. rewrite lookup_insert_eq. reflexivity. }
  unfold getConfig. rewrite Es, Ed, Ef, Eh.
  destruct (getSourceMqttConfig env rb) as [s|e]; [|reflexivity].
  destruct (getDestMqttConfig env rb) as [d|e]; [|reflexivity].
  cbn [mbind Exc_bind]. unfold getHealthCheckConfig.
  destruct (getSaveToFileConfig env) as [f|e]; reflexivity.
Qed.

Lemma trimStart_skips (ws s : jsstring) :
  Forall (fun c => isWhiteSpace c = true) ws ->
  trimStart (ws ++ s) = trimStart s.
Proof.
  induction 1 as [|c ws Hc _ IH]; [reflexivity|].
  cbn [app trimStart]. rewrite Hc. exact IH.
Qed.

Lemma digits10_stops (acc : option Z) (rest : jsstring) :
  stops_digits rest = true -> digits10 acc rest = acc.
Proof.
  destruct rest as [|c rest]; [reflexivity|]. cbn [stops_digits digits10].
  unfold is_digit, digit10. destruct ((48 <=? c) && (c <=? 57)); [discriminate|].
  reflexivity.
Qed.

(** X9.  [getQoS] reads the leading integer of the text and nothing else: white
    space before a digit 0, 1 or 2 and any text after it that does not go on
    with a digit are ignored, and the digit is the QoS. *)
Theorem getQoS_reads_leading_integer (env : gmap string jsstring) k d
    (ws : jsstring) q (rest : jsstring) :
  env !! k = Some (ws ++ (48 + q) :: rest) ->
  Forall (fun c => isWhiteSpace c = true) ws ->
  0 <= q <= 2 ->
  stops_digits rest = true ->
  getQoS env k d = Ok q.
Proof.
  intros Hs Hws Hq Hrest. unfold getQoS. unfold jsstring in *.
  rewrite Hs. cbn [from_option id].
  assert (Ews : parseInt (ws ++ (48 + q) :: rest) = parseInt ((48 + q) :: rest))
    by (unfold parseInt; rewrite trimStart_skips by exact Hws; reflexivity).
  rewrite Ews.
  assert (Hq' : q = 0 \/ q = 1 \/ q = 2) by lia.
  destruct Hq' as [-> | [-> | ->]].
  - change (parseInt ((48 + 0) :: rest))
      with (match digits10 (Some 0) rest with
            | Some m => Some (1 * m)
            | None => None
            end).
    rewrite digits10_stops by exact Hrest. reflexivity.
  - change (parseInt ((48 + 1) :: rest))
      with (match digits10 (Some 1) rest with
            | Some m => Some (1 * m)
            | None => None
            end).
    rewrite digits10_stops by exact Hrest. reflexivity.
  - change (parseInt ((48 + 2) :: rest))
      with (match digits10 (Some 2) rest with
            | Some m => Some (1 * m)
            | None => None
            end).
    rewrite digits10_stops by exact Hrest. reflexivity.
Qed.

Lemma getQoS_reads_leading_integer_witness :
  getQoS (<["FORWARD_QOS_MAX" := js " 2.9 (exactly once)"]> Sample.process_env)
    "FORWARD_QOS_MAX" "1"
  = Ok 2.
Proof.
  apply (getQoS_reads_leading_integer _ "FORWARD_QOS_MAX" "1" (js " ") 2
           (js ".9 (exactly once)")).
  - apply lookup_insert_eq.
  - repeat constructor.
  - lia.
  - reflexivity.
Defined.

End ConfigExtras.

(** ** The event loop as a whole *)

Module EventLoop.
Import Platform Config World Mqtt Observe Reading PlatformFacts MqttFacts.

Local Open Scope string_scope.
Local Open Scope list_scope.
Local Open Scope Z_scope.

Lemma writer_open_auditing saveToFile st :
  auditing saveToFile st = saveEnabled saveToFile && writer_open st.
Proof. unfold auditing, writer_open. rewrite andb_assoc. reflexivity. Qed.

Lemma writer_gone_open st : writer_gone st = negb (writer_open st).
Proof.
  unfold writer_gone, writer_open.
  destruct (bool_decide _), (writerClosed st); reflexivity.
Qed.

(** One event: the listener returns, publishes what [publishOfEvent] says,
    leaves the variables as [after] says, writes a record only for a
    message while the writer is enabled and open, and ends the writer only
    for a close event of a client while the writer is open. *)
Lemma dispatch_run toErr source dest saveToFile ev st :
  exists t,
    run (dispatch toErr source dest saveToFile ev) st
    = mkResult t (after ev st) (Ok tt)
    /\ publishes t = publishOfEvent dest ev
    /\ (auditing saveToFile st = false -> written t = [])
    /\ (writer_open st = false -> writer_ends t = [])
    /\ reports t
       = (if is_interval ev
          then [(nRecentForwarded st, nRecentDropped st)] else []).
Proof.
  destruct ev as [topic message packet env|topic message qos retain
                 |topic qos retain error| |err| |c what|c end_answer].
  - eexists. cbn [dispatch]. rewrite onMessage_run. split; [reflexivity|].
    unfold writeFailureLog. cbn [publishOfEvent is_interval].
    destruct (auditing saveToFile st);
      [destruct (write_answer env)|]; repeat split; intros; try reflexivity;
      discriminate.
  - eexists. split; [reflexivity|]. repeat split; intros; reflexivity.
  - eexists. split; [reflexivity|]. repeat split; intros; reflexivity.
  - eexists. split; [reflexivity|]. repeat split; intros; reflexivity.
  - eexists. split; [reflexivity|]. repeat split; intros; reflexivity.
  - eexists. split; [destruct st; reflexivity|].
    repeat split; intros; reflexivity.
  - destruct what; eexists; (split; [reflexivity|]);
      repeat split; intros; reflexivity.
  - cbn [dispatch after]. unfold onClientClose, closeWriterIfOpen, logEvent.
    run_monad. fold (writer_open st).
    destruct (writer_open st); [destruct end_answer as [[]|e]|];
      eexists; (split; [reflexivity|]);
      repeat split; intros; try reflexivity; discriminate.
Qed.

Lemma dispatchAll_cons toErr source dest saveToFile ev evs st t :
  run (dispatch toErr source dest saveToFile ev) st
  = mkResult t (after ev st) (Ok tt) ->
  run (dispatchAll toErr source dest saveToFile (ev :: evs)) st
  = mkResult
      (t ++ trace (run (dispatchAll toErr source dest saveToFile evs)
                     (after ev st)))
      (final (run (dispatchAll toErr source dest saveToFile evs) (after ev st)))
      (outcome (run (dispatchAll toErr source dest saveToFile evs)
                  (after ev st))).
Proof.
  intros H. cbn [dispatchAll]. rewrite (run_bind_ok _ _ _ _ _ _ H).
  reflexivity.
Qed.

(** The shared variables after a sequence of events. *)
Lemma dispatchAll_final toErr source dest saveToFile evs st :
  final (run (dispatchAll toErr source dest saveToFile evs) st)
  = fold_left (fun s ev => after ev s) evs st
  /\ outcome (run (dispatchAll toErr source dest saveToFile evs) st) = Ok tt.
Proof.
  revert st. induction evs as [|ev evs IH]; intros st; [split; reflexivity|].
  destruct (dispatch_run toErr source dest saveToFile ev st) as (t & E & _).
  rewrite (dispatchAll_cons _ _ _ _ _ _ _ _ E). cbn [final outcome fold_left].
  apply IH.
Qed.

Lemma dispatchAll_app toErr source dest saveToFile evs evs' st :
  trace (run (dispatchAll toErr source dest saveToFile (evs ++ evs')) st)
  = trace (run (dispatchAll toErr source dest saveToFile evs) st)
    ++ trace (run (dispatchAll toErr source dest saveToFile evs')
                (fold_left (fun s ev => after ev s) evs st)).
Proof.
  revert st. induction evs as [|ev evs IH]; intros st; [reflexivity|].
  destruct (dispatch_run toErr source dest saveToFile ev st) as (t & E & _).
  cbn [app]. rewrite !(dispatchAll_cons _ _ _ _ _ _ _ _ E).
  cbn [trace fold_left]. rewrite IH, app_assoc. reflexivity.
Qed.

Lemma publishes_dispatchAll toErr source dest saveToFile evs st :
  publishes (trace (run (dispatchAll toErr source dest saveToFile evs) st))
  = flat_map (publishOfEvent dest) evs.
Proof.
  revert st. induction evs as [|ev evs IH]; intros st; [reflexivity|].
  destruct (dispatch_run toErr source dest saveToFile ev st)
    as (t & E & Hp & _).
  rewrite (dispatchAll_cons _ _ _ _ _ _ _ _ E). cbn [trace flat_map].
  unfold publishes in *. rewrite List.filter_app, Hp, IH. reflexivity.
Qed.

Lemma publishOfEvent_messages dest (msgs : list Inbound) :
  flat_map (publishOfEvent dest) (map messageEvent msgs)
  = map (fun i => publishOf dest (in_topic i) (in_message i) (in_packet i)) msgs.
Proof.
  induction msgs as [|i msgs IH]; [reflexivity|].
  cbn [map flat_map]. rewrite IH. destruct i. reflexivity.
Qed.

Lemma after_writer ev st : writer (after ev st) = writer st.
Proof. destruct ev; reflexivity. Qed.

Lemma after_gone ev st : writer_gone st = true -> writer_gone (after ev st) = true.
Proof.
  unfold writer_gone. rewrite after_writer.
  destruct ev; cbn [after set_nRecentForwarded set_nRecentDropped
                    set_writerClosed writerClosed]; auto.
  intros _. apply orb_true_r.
Qed.

Lemma gone_dispatchAll toErr source dest saveToFile evs st :
  writer_gone st = true ->
  written (trace (run (dispatchAll toErr source dest saveToFile evs) st)) = []
  /\ writer_ends (trace (run (dispatchAll toErr source dest saveToFile evs) st))
     = []
  /\ writer_gone (final (run (dispatchAll toErr source dest saveToFile evs) st))
     = true.
Proof.
  revert st. induction evs as [|ev evs IH]; intros st Hg; [auto|].
  destruct (dispatch_run toErr source dest saveToFile ev st)
    as (t & E & _ & Hw & He & _).
  rewrite (dispatchAll_cons _ _ _ _ _ _ _ _ E). cbn [trace final].
  destruct (IH (after ev st) (after_gone ev st Hg)) as (IHw & IHe & IHg).
  assert (Ho : writer_open st = false)
    by (rewrite writer_gone_open in Hg; destruct (writer_open st);
        [discriminate|reflexivity]).
  assert (Ha : auditing saveToFile st = false)
    by (rewrite writer_open_auditing, Ho; apply andb_false_r).
  unfold writer_ends in *. rewrite written_app, List.filter_app.
  rewrite (Hw Ha), (He Ho), IHw, IHe. auto.
Qed.

Lemma disabled_dispatchAll toErr source dest saveToFile evs st :
  saveEnabled saveToFile = false ->
  written (trace (run (dispatchAll toErr source dest saveToFile evs) st)) = [].
Proof.
  intros Hd. revert st. induction evs as [|ev evs IH]; intros st; [auto|].
  destruct (dispatch_run toErr source dest saveToFile ev st)
    as (t & E & _ & Hw & _).
  rewrite (dispatchAll_cons _ _ _ _ _ _ _ _ E). cbn [trace].
  rewrite written_app, IH, Hw; [reflexivity|].
  rewrite writer_open_auditing, Hd. reflexivity.
Qed.

(** X10.  No listener lets an exception out, whatever the events are and whatever
    the outside answers: a write that throws, a [writer.end] that throws, a
    rejected publish are all dealt with inside. *)
Theorem listeners_never_throw toErr source dest saveToFile evs st :
  outcome (run (dispatchAll toErr source dest saveToFile evs) st) = Ok tt.
Proof. apply dispatchAll_final. Qed.

(** X11.  Destination publishes are started by messages and by nothing else: one
    for each message, in the order of arrival, whatever happens in between,
    timer, settled publishes, closed clients or writer. *)
Theorem publishes_follow_messages toErr source dest saveToFile evs st :
  publishes (trace (run (dispatchAll toErr source dest saveToFile evs) st))
  = flat_map (publishOfEvent dest) evs.
Proof. apply publishes_dispatchAll. Qed.

(** X12.  Without saving to file enabled no record is ever written.  And once the
    writer has closed, or when it could not be opened, it stays so: no
    record is written and [writer.end] is not called, whatever events
    follow. *)
Theorem writer_gone_for_good toErr source dest saveToFile evs st :
  (saveEnabled saveToFile = false ->
   written (trace (run (dispatchAll toErr source dest saveToFile evs) st)) = [])
  /\ (writer_gone st = true ->
      written (trace (run (dispatchAll toErr source dest saveToFile evs) st))
      = []
      /\ writer_ends
           (trace (run (dispatchAll toErr source dest saveToFile evs) st))
         = []
      /\ writer_gone
           (final (run (dispatchAll toErr source dest saveToFile evs) st))
         = true).
Proof.
  split; [apply disabled_dispatchAll|apply gone_dispatchAll].
Qed.

Lemma writer_gone_for_good_witness :
  written
    (trace (run (dispatchAll Sample.toErr Sample.source Sample.dest
                   (Some Sample.saveToFile)
                   [WriterClose; messageEvent Sample.inbound;
                    ClientClose DestClient (Ok tt)])
              (set_writerClosed true Sample.open_state)))
  = [].
Proof.
  destruct (writer_gone_for_good Sample.toErr Sample.source Sample.dest
              (Some Sample.saveToFile)
              [WriterClose; messageEvent Sample.inbound;
               ClientClose DestClient (Ok tt)]
              (set_writerClosed true Sample.open_state)) as (_ & H).
  apply H. reflexivity.
Defined.

(** X13.  When a client closes while the writer is open, [writer.end] is called;
    once the writer's own close event has followed, messages are forwarded
    as before and none of them is recorded. *)
Theorem connection_loss_stops_audit toErr source dest saveToFile
    c end_answer (msgs : list Inbound) st :
  writer_open st = true ->
  let r := run (dispatchAll toErr source dest saveToFile
                  (ClientClose c end_answer :: WriterClose
                   :: map messageEvent msgs)) st in
  writer_ends (trace r) = [EWriterEnd]
  /\ written (trace r) = []
  /\ publishes (trace r)
     = map (fun i => publishOf dest (in_topic i) (in_message i) (in_packet i))
         msgs.
Proof.
  intros Ho r. subst r.
  destruct (dispatch_run toErr source dest saveToFile
              (ClientClose c end_answer) st) as (t1 & E1 & _ & _ & _ & _).
  assert (Et1 : writer_ends t1 = [EWriterEnd] /\ written t1 = []).
  { cbn [dispatch after] in E1.
    unfold onClientClose, closeWriterIfOpen, logEvent in E1.
    revert E1. run_monad. fold (writer_open st). rewrite Ho.
    destruct end_answer as [[]|e]; intros [= <-]; split; reflexivity. }
  destruct Et1 as (He1 & Hw1).
  destruct (dispatch_run toErr source dest saveToFile WriterClose
              (after (ClientClose c end_answer) st))
    as (t2 & E2 & _ & _ & _ & _).
  assert (Et2 : t2 = []) by (revert E2; intros [= <-]; reflexivity).
  subst t2.
  assert (Hg : writer_gone (after WriterClose (after (ClientClose c end_answer) st))
               = true) by (unfold writer_gone; cbn; apply orb_true_r).
  destruct (gone_dispatchAll toErr source dest saveToFile
              (map messageEvent msgs) _ Hg) as (Hw & He & _).
  split; [|split].
  - rewrite (dispatchAll_cons _ _ _ _ _ _ _ _ E1). cbn [trace].
    rewrite (dispatchAll_cons _ _ _ _ _ _ _ _ E2). cbn [trace app].
    unfold writer_ends in *. rewrite List.filter_app, He1, He. reflexivity.
  - rewrite (dispatchAll_cons _ _ _ _ _ _ _ _ E1). cbn [trace].
    rewrite (dispatchAll_cons _ _ _ _ _ _ _ _ E2). cbn [trace app].
    rewrite written_app, Hw1, Hw. reflexivity.
  - rewrite publishes_dispatchAll. cbn [flat_map publishOfEvent app].
    apply publishOfEvent_messages.
Qed.

Lemma connection_loss_stops_audit_witness :
  writer_open Sample.open_state = true
  /\ written
       (trace (run (dispatchAll Sample.toErr Sample.source Sample.dest
                      (Some Sample.saveToFile)
                      (ClientClose SourceClient (Ok tt) :: WriterClose
                       :: map messageEvent [Sample.inbound]))
                 Sample.open_state))
     = [].
Proof.
  split; [reflexivity|].
  apply (connection_loss_stops_audit Sample.toErr Sample.source Sample.dest
           (Some Sample.saveToFile) SourceClient (Ok tt) [Sample.inbound]
           Sample.open_state).
  reflexivity.
Defined.

Lemma fold_after_counters evs st :
  no_interval evs = true ->
  nRecentForwarded (fold_left (fun s ev => after ev s) evs st)
  = Nat.iter (length (List.filter is_fulfilled evs)) add1 (nRecentForwarded st)
  /\ nRecentDropped (fold_left (fun s ev => after ev s) evs st)
     = Nat.iter (length (List.filter is_rejected evs)) add1 (nRecentDropped st).
Proof.
  revert st. induction evs as [|ev evs IH]; intros st H; [split; reflexivity|].
  cbn [no_interval forallb] in H. apply andb_true_iff in H as [Hev H].
  cbn [fold_left]. destruct (IH (after ev st) H) as (IHf & IHd).
  rewrite IHf, IHd.
  destruct ev; try discriminate Hev;
    cbn [List.filter is_fulfilled is_rejected length after];
    rewrite ?Nat.iter_succ_r; split; reflexivity.
Qed.

(** X14.  Between two reports the counters count: over events with no timer tick
    among them, however messages, settled publishes and closings are
    interleaved, [nRecentForwarded] grows by the number of fulfilled
    publishes and [nRecentDropped] by the number of rejected ones (the
    additions being exact below 2^53). *)
Theorem counters_count_settlements toErr source dest saveToFile evs st :
  no_interval evs = true ->
  nRecentForwarded st + fulfilled evs <= 2 ^ 53 ->
  nRecentDropped st + rejected evs <= 2 ^ 53 ->
  let r := run (dispatchAll toErr source dest saveToFile evs) st in
  nRecentForwarded (final r) = nRecentForwarded st + fulfilled evs
  /\ nRecentDropped (final r) = nRecentDropped st + rejected evs.
Proof.
  intros Hn Hf Hd r. subst r.
  destruct (dispatchAll_final toErr source dest saveToFile evs st) as (E & _).
  rewrite E. destruct (fold_after_counters evs st Hn) as (Ef & Ed).
  rewrite Ef, Ed. unfold fulfilled, rejected in *.
  rewrite !Counters.iter_add1 by assumption. auto.
Qed.

Lemma counters_count_settlements_witness :
  let evs := [messageEvent Sample.inbound;
              PublishRejected (js "t/1") 1 true (JsError "connection lost");
              WriterClose;
              PublishFulfilled (js "t/1") Sample.hi 1 true;
              PublishRejected (js "t/1") 1 true (JsError "connection lost")] in
  let r := run (dispatchAll Sample.toErr Sample.source Sample.dest
                  (Some Sample.saveToFile) evs) Sample.open_state in
  nRecentForwarded (final r) = 1 /\ nRecentDropped (final r) = 2.
Proof.
  intros evs.
  apply (counters_count_settlements Sample.toErr Sample.source Sample.dest
           (Some Sample.saveToFile) evs Sample.open_state);
    [reflexivity|vm_compute; discriminate|vm_compute; discriminate].
Defined.

Lemma reports_app (t u : list Effect) : reports (t ++ u) = reports t ++ reports u.
Proof. apply flat_map_app. Qed.

Lemma reports_no_interval toErr source dest saveToFile evs st :
  no_interval evs = true ->
  reports (trace (run (dispatchAll toErr source dest saveToFile evs) st)) = [].
Proof.
  revert st. induction evs as [|ev evs IH]; intros st H; [reflexivity|].
  cbn [no_interval forallb] in H. apply andb_true_iff in H as [Hev H].
  destruct (dispatch_run toErr source dest saveToFile ev st)
    as (t & E & _ & _ & _ & Hr).
  rewrite (dispatchAll_cons _ _ _ _ _ _ _ _ E). cbn [trace].
  rewrite reports_app, Hr, (IH _ H).
  destruct (is_interval ev); [discriminate|reflexivity].
Qed.

Lemma reports_interval toErr source dest saveToFile st :
  reports (trace (run (dispatchAll toErr source dest saveToFile [Interval]) st))
  = [(nRecentForwarded st, nRecentDropped st)].
Proof. reflexivity. Qed.

(** X15.  A report shows what happened since the report before it: after a timer
    tick, events without a tick and then the next tick, the second report
    logs the number of publishes fulfilled and the number rejected in
    between. *)
Theorem reports_show_settlements toErr source dest saveToFile pre post st :
  no_interval post = true ->
  fulfilled post <= 2 ^ 53 ->
  rejected post <= 2 ^ 53 ->
  reports
    (trace (run (dispatchAll toErr source dest saveToFile
                   ((pre ++ [Interval]) ++ post ++ [Interval])) st))
  = reports
      (trace (run (dispatchAll toErr source dest saveToFile
                     (pre ++ [Interval])) st))
    ++ [(fulfilled post, rejected post)].
Proof.
  intros Hn Hf Hd.
  rewrite dispatchAll_app, reports_app. f_equal.
  rewrite dispatchAll_app, reports_app.
  rewrite (reports_no_interval _ _ _ _ _ _ Hn), reports_interval.
  cbn [app]. rewrite fold_left_app. cbn [fold_left].
  destruct (fold_after_counters post
              (after Interval (fold_left (fun s ev => after ev s) pre st)) Hn)
    as (Ef & Ed).
  rewrite Ef, Ed. cbn [after nRecentForwarded nRecentDropped].
  unfold fulfilled, rejected in *.
  rewrite !Counters.iter_add1 by (cbn; lia). reflexivity.
Qed.

Lemma reports_show_settlements_witness :
  reports
    (trace (run (dispatchAll Sample.toErr Sample.source Sample.dest
                   (Some Sample.saveToFile)
                   (([PublishFulfilled (js "t/1") Sample.hi 1 true]
                     ++ [Interval])
                    ++ [PublishRejected (js "t/1") 1 true (JsError "lost");
                        messageEvent Sample.inbound]
                    ++ [Interval]))
              Sample.open_state))
  = [(1, 0); (0, 1)].
Proof.
  rewrite (reports_show_settlements Sample.toErr Sample.source Sample.dest
             (Some Sample.saveToFile)
             [PublishFulfilled (js "t/1") Sample.hi 1 true]
             [PublishRejected (js "t/1") 1 true (JsError "lost");
              messageEvent Sample.inbound]
             Sample.open_state);
    [reflexivity|reflexivity|vm_compute; discriminate|vm_compute; discriminate].
Defined.

(** X16.  The record of a message carries what came in, not what goes out: the
    time of handling, the topic, the incoming QoS before the ceiling is
    applied, the incoming retain flag before it is suppressed, and the
    duplicate flag. *)
Theorem record_carries_incoming dest saveToFile topic message packet env st :
  Forall
    (fun r =>
       time r = now env /\ World.topic r = topic
       /\ incomingQos r = packet_qos packet
       /\ incomingRetain r = packet_retain packet
       /\ dup r = packet_dup packet)
    (written
       (trace (run (onMessage dest saveToFile topic message packet env) st))).
Proof.
  rewrite onMessage_run. cbn [trace]. unfold writeFailureLog.
  destruct (auditing saveToFile st); [destruct (write_answer env)|];
    cbn; repeat constructor.
Qed.

Lemma close_run toErr source dest saveToFile c end_answer st :
  exists t,
    run (dispatch toErr source dest saveToFile (ClientClose c end_answer)) st
    = mkResult t st (Ok tt)
    /\ writer_ends t = if writer_open st then [EWriterEnd] else [].
Proof.
  cbn [dispatch]. unfold onClientClose, closeWriterIfOpen, logEvent.
  run_monad. fold (writer_open st).
  destruct (writer_open st); [destruct end_answer as [[]|e]|];
    eexists; split; reflexivity.
Qed.

(** X17.  Every "close" event of either client calls [writer.end] while the
    writer is open, and leaves the shared variables as they are: until the
    writer's own close event arrives, a further close event calls
    [writer.end] once more. *)
Theorem close_events_end_writer toErr source dest saveToFile
    (closes : list (ClientName * Exc unit)) st :
  let r := run (dispatchAll toErr source dest saveToFile
                  (map closeEvent closes)) st in
  final r = st
  /\ writer_ends (trace r)
     = if writer_open st then repeat EWriterEnd (length closes) else [].
Proof.
  intros r. subst r. induction closes as [|[c a] closes IH].
  - split; [reflexivity|]. destruct (writer_open st); reflexivity.
  - destruct (close_run toErr source dest saveToFile c a st) as (t & E & Ht).
    cbn [map]. change (closeEvent (c, a)) with (ClientClose c a).
    rewrite (dispatchAll_cons _ _ _ _ _ _ _ _ E).
    cbn [after trace final]. destruct IH as (IHf & IHe).
    split; [exact IHf|].
    unfold writer_ends in *. rewrite List.filter_app, Ht, IHe.
    destruct (writer_open st); reflexivity.
Qed.

Lemma notice_run toErr source dest saveToFile ev st :
  is_notice ev = true ->
  exists t,
    run (dispatch toErr source dest saveToFile ev) st = mkResult t st (Ok tt)
    /\ calls t = [].
Proof.
  destruct ev as [| | | |err| |c what|]; try discriminate; intros _.
  - eexists. split; reflexivity.
  - destruct what; eexists; split; reflexivity.
Qed.

(** Taking the log-only events out of a sequence changes neither the shared
    variables nor the calls. *)
Lemma notices_removed toErr source dest saveToFile evs st :
  let r := run (dispatchAll toErr source dest saveToFile evs) st in
  let r' :=
    run (dispatchAll toErr source dest saveToFile (without_notices evs)) st in
  final r = final r' /\ calls (trace r) = calls (trace r').
Proof.
  cbv zeta. revert st. induction evs as [|ev evs IH]; intros st; [auto|].
  unfold without_notices. cbn [List.filter].
  destruct (is_notice ev) eqn:N; cbn [negb].
  - destruct (notice_run toErr source dest saveToFile ev st N) as (t & E & C).
    assert (A : after ev st = st)
      by (destruct ev as [| | | |err| |c what|]; try discriminate; reflexivity).
    rewrite <- A in E at 2.
    rewrite (dispatchAll_cons _ _ _ _ _ _ _ _ E), A. cbn [final trace].
    unfold calls in *. rewrite List.filter_app, C. apply IH.
  - destruct (dispatch_run toErr source dest saveToFile ev st) as (t & E & _).
    rewrite !(dispatchAll_cons _ _ _ _ _ _ _ _ E). cbn [final trace].
    destruct (IH (after ev st)) as [IHf IHc].
    split; [exact IHf|].
    unfold calls in *. rewrite !List.filter_app. f_equal. exact IHc.
Qed.

(** X25.  The "connect", "reconnect", "offline" and "error" listeners of the
    clients and the "error" listener of the write stream log and do nothing
    else: with these events taken out of a sequence, the shared variables
    end the same and the same calls are made, publishes, writes and
    [writer.end] alike.  The "error" listener of the write stream does not
    itself end the recording; the "close" event that the stream emits after
    an error does: once both have been delivered, no record is written,
    whatever follows. *)
Theorem notices_only_log toErr source dest saveToFile evs err st :
  let r := run (dispatchAll toErr source dest saveToFile evs) st in
  let r' :=
    run (dispatchAll toErr source dest saveToFile (without_notices evs)) st in
  final r = final r'
  /\ calls (trace r) = calls (trace r')
  /\ written
       (trace (run (dispatchAll toErr source dest saveToFile
                      (stream_failure err ++ evs)) st))
     = [].
Proof.
  cbv zeta. split; [|split].
  - apply notices_removed.
  - apply notices_removed.
  - change (stream_failure err ++ evs) with (WriterError err :: WriterClose :: evs).
    assert (E1 : run (dispatch toErr source dest saveToFile (WriterError err)) st
                 = mkResult [ELog Error [("err", VErr err)] "File writer error"]
                     (after (WriterError err) st) (Ok tt)) by reflexivity.
    assert (E2 : run (dispatch toErr source dest saveToFile WriterClose) st
                 = mkResult [] (after WriterClose st) (Ok tt))
      by (destruct st; reflexivity).
    rewrite (dispatchAll_cons _ _ _ _ _ _ _ _ E1). cbn [trace after].
    rewrite (dispatchAll_cons _ _ _ _ _ _ _ _ E2). cbn [trace app].
    apply gone_dispatchAll.
    unfold writer_gone. cbn. apply orb_true_r.
Qed.

End EventLoop.

(** ** Failures of the audit and the forwarding *)

Module Isolation.
Import Platform Config World Mqtt Observe Reading PlatformFacts MqttFacts
  EventLoop.

Local Open Scope string_scope.
Local Open Scope list_scope.
Local Open Scope Z_scope.











End Isolation.

(** ** More on start-up *)

Module StartupExtras.
Import Platform Config World Mqtt Observe Reading PlatformFacts MqttFacts.

Local Open Scope string_scope.
Local Open Scope list_scope.
Local Open Scope Z_scope.

(** [ensureWriter] on the fresh variables of [createDuplicator]. *)
Lemma ensureWriter_fresh pd saveToFile env :
  exists tw,
    run (ensureWriter pd saveToFile env) (mkState 0 0 None false)
    = mkResult tw (mkState 0 0 (writer_after_startup pd saveToFile env) false)
        (Ok tt)
    /\ connects tw = [] /\ subscribes tw = []
    /\ (shutdown_view tw = [] /\ Main.exit_codes tw = [])
    /\ (saveEnabled saveToFile = false -> file_system_calls tw = [])
    /\ (forall cfg e,
          saveToFile = Some cfg -> enabled cfg = true ->
          makes_directory pd cfg = true ->
          mkdirSync_answer env = Throw e ->
          file_system_calls tw = [EMkdirSync (pd (filePath cfg))]
          /\ In (ELog Error [("err", VErr e)]
                   "Failed to initialize save-to-file writer") tw)
    /\ (forall cfg e,
          saveToFile = Some cfg -> enabled cfg = true ->
          createWriteStream_answer env = Throw e ->
          In (ELog Error [("err", VErr e)]
                "Failed to initialize save-to-file writer") tw
          \/ exists e', mkdirSync_answer env = Throw e').
Proof.
  unfold ensureWriter, writer_after_startup, makes_directory. run_monad.
  cbn [writer writerClosed].
  change (bool_decide (is_Some (@None WriteStream))) with false.
  destruct saveToFile as [cfg|]; cbn [saveEnabled from_option];
    [|eexists; split; [reflexivity|]; repeat split; intros; try reflexivity;
      discriminate].
  destruct (enabled cfg) eqn:Hen; cbn [negb orb];
    [|eexists; split; [reflexivity|]; repeat split; intros; try reflexivity;
      congruence].
  destruct (negb (bool_decide (pd (filePath cfg) = []))
            && negb (bool_decide (pd (filePath cfg) = js "."))) eqn:Hdir;
    [destruct (mkdirSync_answer env) as [[]|e1] eqn:Hmk|];
    destruct (createWriteStream_answer env) as [[]|e2] eqn:Hcw;
    (eexists; split; [reflexivity|]);
    repeat split; intros; try reflexivity; try discriminate;
    repeat match goal with
           | H : Some _ = Some _ |- _ => injection H as <-
           | H : Throw _ = Throw _ |- _ => injection H as <-
           end;
    try congruence; cbn; eauto 10.
Qed.

Lemma createDuplicator_source_down toErr pd source dest saveToFile env st e :
  connect_source env = Throw e ->
  let r := run (createDuplicator toErr pd source dest saveToFile env) st in
  outcome r = Throw e /\ final r = st
  /\ connects (trace r)
     = [EConnect (source_url source) (source_clientOptions source)]
  /\ subscribes (trace r) = [] /\ file_system_calls (trace r) = []
  /\ listeners (trace r) = [].
Proof.
  intros H r. subst r. unfold createDuplicator, connectMqtt. run_monad.
  rewrite H. repeat split; reflexivity.
Qed.

Lemma createDuplicator_dest_down toErr pd source dest saveToFile env st e :
  connect_source env = Ok tt ->
  connect_dest env = Throw e ->
  let r := run (createDuplicator toErr pd source dest saveToFile env) st in
  outcome r = Throw e /\ final r = st
  /\ connects (trace r)
     = [EConnect (source_url source) (source_clientOptions source);
        EConnect (dest_url dest) (dest_clientOptions dest)]
  /\ subscribes (trace r) = [] /\ file_system_calls (trace r) = []
  /\ listeners (trace r) = [].
Proof.
  intros Hs H r. subst r. unfold createDuplicator, connectMqtt. run_monad.
  rewrite Hs, H. repeat split; reflexivity.
Qed.

Lemma createDuplicator_up toErr pd source dest saveToFile env st :
  connect_source env = Ok tt ->
  connect_dest env = Ok tt ->
  exists pre tw tail,
    run (ensureWriter pd saveToFile env) (mkState 0 0 None false)
    = mkResult tw (mkState 0 0 (writer_after_startup pd saveToFile env) false)
        (Ok tt)
    /\ run (createDuplicator toErr pd source dest saveToFile env) st
       = mkResult
           (pre ++ tw
            ++ [ESetInterval HReport 60000;
                EOn SourceClient "message" (HMessage dest saveToFile);
                ELog Info [] "Subscribe to source MQTT topics";
                ESubscribe (topicFilter source) (subscribeOptions source)]
            ++ tail)
           (mkState 0 0 (writer_after_startup pd saveToFile env) false)
           (match subscribe_answer env with
            | Ok _ =>
                Ok (mkDuplicatorClients SourceClient DestClient
                      (unsubscribe toErr source))
            | Throw e => Throw e
            end)
    /\ connects pre
       = [EConnect (source_url source) (source_clientOptions source);
          EConnect (dest_url dest) (dest_clientOptions dest)]
    /\ subscribes pre = [] /\ file_system_calls pre = []
    /\ connects tail = [] /\ subscribes tail = []
    /\ file_system_calls tail = []
    /\ (shutdown_view pre = [] /\ Main.exit_codes pre = [])
    /\ (shutdown_view tail = [] /\ Main.exit_codes tail = [])
    /\ (forall e, subscribe_answer env = Throw e ->
          tail = [ELog Fatal [("err", VErr e)]
                    "Subscribing to source MQTT topics failed"]).
Proof.
  intros Hs Hd.
  destruct (ensureWriter_fresh pd saveToFile env) as (tw & Ew & _).
  unfold createDuplicator, connectMqtt, attachClientEventLogs.
  run_monad. rewrite Hs, Hd.
  fold (run (ensureWriter pd saveToFile env) (mkState 0 0 None false)).
  rewrite Ew. run_monad.
  destruct (subscribe_answer env) as [[]|e];
    (eexists (_ :: _ :: _ :: _ :: _ :: _ :: _ :: _ :: _ :: _ :: _ :: _ :: _
              :: [_]), tw; eexists;
     split; [reflexivity|split; [cbn [app]; reflexivity|]]);
    repeat split; try reflexivity.
  - intros e' [=].
  - intros e' [= <-]. reflexivity.
Qed.

Lemma connects_app (t u : list Effect) : connects (t ++ u) = connects t ++ connects u.
Proof. apply List.filter_app. Qed.

Lemma subscribes_app (t u : list Effect) :
  subscribes (t ++ u) = subscribes t ++ subscribes u.
Proof. apply List.filter_app. Qed.


Lemma createDuplicator_outcome toErr pd source dest saveToFile env st :
  let r := run (createDuplicator toErr pd source dest saveToFile env) st in
  match startup_failure env with
  | Some e => outcome r = Throw e
  | None =>
      outcome r
      = Ok (mkDuplicatorClients SourceClient DestClient
              (unsubscribe toErr source))
  end
  /\ connects (trace r)
     = EConnect (source_url source) (source_clientOptions source)
       :: match connect_source env with
          | Ok _ => [EConnect (dest_url dest) (dest_clientOptions dest)]
          | Throw _ => []
          end
  /\ subscribes (trace r)
     = match connect_source env, connect_dest env with
       | Ok _, Ok _ =>
           [ESubscribe (topicFilter source) (subscribeOptions source)]
       | _, _ => []
       end
  /\ forall answer st',
      run (unsubscribe toErr source answer) st'
      = mkResult [EUnsubscribe (topicFilter source)] st'
          (match answer with Ok _ => Ok tt | Throw e => Throw (toErr e) end).
Proof.
  intros r. subst r. unfold startup_failure.
  destruct (connect_source env) as [[]|e1] eqn:Hs.
  - destruct (connect_dest env) as [[]|e2] eqn:Hd.
    + destruct (createDuplicator_up toErr pd source dest saveToFile env st Hs Hd)
        as (pre & tw & tail & Ew & E & Hc & Hsub & _ & Hct & Hst & _).
      destruct (ensureWriter_fresh pd saveToFile env)
        as (tw' & Ew' & Hcw & Hsw & _).
      assert (tw' = tw) by congruence. subst tw'.
      rewrite E. cbn [trace outcome].
      rewrite !connects_app, !subscribes_app, Hc, Hsub, Hcw, Hsw, Hct, Hst.
      repeat split.
      * destruct (subscribe_answer env) as [[]|e]; reflexivity.
      * intros answer st'. destruct answer as [[]|e]; reflexivity.
    + destruct (createDuplicator_dest_down toErr pd source dest saveToFile env
                  st e2 Hs Hd) as (Ho & _ & Hc & Hsub & _).
      repeat split; try assumption.
      intros answer st'. destruct answer as [[]|e]; reflexivity.
  - destruct (createDuplicator_source_down toErr pd source dest saveToFile env
                st e1 Hs) as (Ho & _ & Hc & Hsub & _).
    repeat split; try assumption.
    intros answer st'. destruct answer as [[]|e]; reflexivity.
Qed.

(** X18.  [createDuplicator] throws the first failure among connecting to the
    source, connecting to the destination and subscribing, as it was
    thrown, and returns the clients otherwise; a failure to open the file
    writer is none of them.  The destination is not connected to when the
    source cannot be; the subscribe call is made once, for the configured
    filter and options, when both are connected; and the [unsubscribe] that
    is returned unsubscribes that same filter. *)
Theorem startup_outcome toErr pd source dest saveToFile env st :
  let r := run (createDuplicator toErr pd source dest saveToFile env) st in
  match startup_failure env with
  | Some e => outcome r = Throw e
  | None =>
      outcome r
      = Ok (mkDuplicatorClients SourceClient DestClient
              (unsubscribe toErr source))
  end
  /\ connects (trace r)
     = EConnect (source_url source) (source_clientOptions source)
       :: match connect_source env with
          | Ok _ => [EConnect (dest_url dest) (dest_clientOptions dest)]
          | Throw _ => []
          end
  /\ subscribes (trace r)
     = match connect_source env, connect_dest env with
       | Ok _, Ok _ =>
           [ESubscribe (topicFilter source) (subscribeOptions source)]
       | _, _ => []
       end
  /\ forall answer st',
      run (unsubscribe toErr source answer) st'
      = mkResult [EUnsubscribe (topicFilter source)] st'
          (match answer with Ok _ => Ok tt | Throw e => Throw (toErr e) end).
Proof. apply createDuplicator_outcome. Qed.



(** [createDuplicator] takes no step of a shutdown and sets no exit code. *)
Lemma createDuplicator_quiet toErr pd source dest saveToFile env st :
  shutdown_view
    (trace (run (createDuplicator toErr pd source dest saveToFile env) st))
  = []
  /\ Main.exit_codes
       (trace (run (createDuplicator toErr pd source dest saveToFile env) st))
     = [].
Proof.
  destruct (connect_source env) as [[]|e1] eqn:Hs.
  - destruct (connect_dest env) as [[]|e2] eqn:Hd.
    + destruct (createDuplicator_up toErr pd source dest saveToFile env st Hs Hd)
        as (pre & tw & tail & Ew & E & _ & _ & _ & _ & _ & _
            & (Hp & Hpc) & (Ht & Htc) & _).
      destruct (ensureWriter_fresh pd saveToFile env)
        as (tw' & Ew' & _ & _ & (Hq & Hqc) & _).
      assert (tw' = tw) by congruence. subst tw'.
      rewrite E. cbn [trace]. unfold shutdown_view, Main.exit_codes in *.
      rewrite !List.filter_app, !flat_map_app, Hp, Hq, Ht, Hpc, Hqc, Htc.
      split; reflexivity.
    + unfold createDuplicator, connectMqtt. run_monad. rewrite Hs, Hd.
      split; reflexivity.
  - unfold createDuplicator, connectMqtt. run_monad. rewrite Hs.
    split; reflexivity.
Qed.

End StartupExtras.

(** ** The main function and the shutdown it triggers *)

Module MainFacts.
Import Platform Config World Mqtt Index Observe Reading.
Import PlatformFacts MqttFacts Shutdown StartupExtras ConfigFacts.

Local Open Scope string_scope.
Local Open Scope list_scope.
Local Open Scope Z_scope.

Lemma exitHandler_early_run exitCode exitError st :
  run (Main.exitHandler_early exitCode exitError) st
  = mkResult
      (match exitError with
       | Some e => [ELog Fatal [("err", VErr e)] EmptyString]
       | None => []
       end
       ++ [ELog Info [] "Start exiting gracefully"; ESetExitCode exitCode;
           ELog Info [] "Exit process"; EProcessExit])
      st (Ok tt).
Proof. destruct exitError; reflexivity. Qed.

(** The sequence of [exitGracefully]: three things first, five guarded
    steps, the exit. *)
Ltac exit_steps :=
  do 3 (eapply run_seq; [reflexivity|]);
  do 5 (eapply run_seq; [apply run_try; reflexivity|]);
  reflexivity.

Lemma exitHandler_health_run env exitCode exitError st :
  run (Main.exitHandler_health env exitCode exitError) st
  = mkResult
      ((match exitError with
        | Some e => [ELog Fatal [("err", VErr e)] EmptyString]
        | None => []
        end
        ++ [ELog Info [] "Start exiting gracefully"; ESetExitCode exitCode])
       ++ ([ELog Info [] "Set health checks to fail"; ESetHealthOk false]
           ++ caught (step_message StepHealth) (setHealthOk_answer env))
       ++ ([ELog Info [] "Close health check server"; ECloseHealthCheckServer]
           ++ caught (step_message StepHealthServer)
                (closeHealthCheckServer_answer env))
       ++ [ELog Info [] "Exit process"; EProcessExit])
      st (Ok tt).
Proof.
  match goal with |- _ = mkResult ?nice _ _ =>
    assert (H : exists T,
               run (Main.exitHandler_health env exitCode exitError) st
               = mkResult T st (Ok tt) /\ T = nice)
  end.
  { unfold Main.exitHandler_health, exitGracefully. cbv beta iota.
    destruct exitError as [e0|]; eexists; split;
      [exit_steps | destruct (setHealthOk_answer env) as [[]|e1],
                      (closeHealthCheckServer_answer env) as [[]|e2];
                    reflexivity
      | exit_steps | destruct (setHealthOk_answer env) as [[]|e1],
                       (closeHealthCheckServer_answer env) as [[]|e2];
                     reflexivity]. }
  destruct H as (T & E & ->). exact E.
Qed.

(** X20.  [exitGracefully] skips the steps whose handle has not been assigned and
    exits all the same: with no handle it sets the exit code and exits;
    with the handles of the health check server alone it sets the health
    check to fail, closes the server and exits, ending no client and
    unsubscribing nothing.  A step that throws is logged and the rest goes
    on. *)
Theorem shutdown_with_missing_handles env exitCode exitError st :
  (let r := run (Main.exitHandler_early exitCode exitError) st in
   shutdown_view (trace r) = [EProcessExit]
   /\ Main.exit_codes (trace r) = [exitCode]
   /\ outcome r = Ok tt)
  /\ (let r := run (Main.exitHandler_health env exitCode exitError) st in
     shutdown_view (trace r)
     = [ESetHealthOk false; ECloseHealthCheckServer; EProcessExit]
     /\ Main.exit_codes (trace r) = [exitCode]
     /\ outcome r = Ok tt
     /\ (forall e, setHealthOk_answer env = Throw e ->
         In (ELog Error [("err", VErr e)] (step_message StepHealth)) (trace r))
     /\ (forall e, closeHealthCheckServer_answer env = Throw e ->
         In (ELog Error [("err", VErr e)] (step_message StepHealthServer))
            (trace r))).
Proof.
  split.
  - cbv zeta. rewrite exitHandler_early_run. destruct exitError; repeat split.
  - cbv zeta. rewrite exitHandler_health_run. cbn [trace outcome].
    split; [|split; [|split; [reflexivity|split]]].
    + destruct exitError, (setHealthOk_answer env) as [[]|e1],
        (closeHealthCheckServer_answer env) as [[]|e2]; reflexivity.
    + destruct exitError, (setHealthOk_answer env) as [[]|e1],
        (closeHealthCheckServer_answer env) as [[]|e2]; reflexivity.
    + intros e He. rewrite He. apply in_or_app. right.
      apply in_or_app. left. cbn. auto.
    + intros e He. rewrite He. do 2 (apply in_or_app; right).
      apply in_or_app. left. cbn. auto.
Qed.

Lemma shutdown_with_missing_handles_witness :
  In (ELog Error [("err", VErr (JsError "server not running"))]
        (step_message StepHealthServer))
     (trace (run (Main.exitHandler_health
                    (mkShutdownEnv (Ok tt) (Ok tt)
                       (mkEndAnswer true (Ok tt) (Ok tt))
                       (mkEndAnswer true (Ok tt) (Ok tt))
                       (Throw (JsError "server not running")))
                    1 None)
               Sample.open_state)).
Proof.
  destruct (shutdown_with_missing_handles
              (mkShutdownEnv (Ok tt) (Ok tt)
                 (mkEndAnswer true (Ok tt) (Ok tt))
                 (mkEndAnswer true (Ok tt) (Ok tt))
                 (Throw (JsError "server not running")))
              1 None Sample.open_state) as (_ & _ & _ & _ & _ & H).
  apply H. reflexivity.
Defined.

Lemma core_app (t u : list Main.ProcessEffect) :
  Main.core (t ++ u) = Main.core t ++ Main.core u.
Proof. apply flat_map_app. Qed.

Lemma core_lift (t : list Effect) : Main.core (Main.lift t) = t.
Proof.
  induction t as [|e t IH]; [reflexivity|].
  cbn [Main.lift map Main.core flat_map app] in *. f_equal. exact IH.
Qed.

Lemma core_cons_core (e : Effect) (t : list Main.ProcessEffect) :
  Main.core (Main.PCore e :: t) = e :: Main.core t.
Proof. reflexivity. Qed.

Lemma core_cons_other (e : Main.ProcessEffect) (t : list Main.ProcessEffect) :
  Main.core [e] = [] -> Main.core (e :: t) = Main.core t.
Proof. intros H. change (e :: t) with ([e] ++ t). rewrite core_app, H. reflexivity. Qed.

Lemma health_servers_lift (t : list Effect) :
  Main.health_servers (Main.lift t) = [].
Proof. induction t as [|e t IH]; [reflexivity|exact IH]. Qed.

Lemma In_shutdown_view (e : Effect) (t : list Effect) :
  In e t -> is_shutdown_step e = true -> In e (shutdown_view t).
Proof.
  intros Hin He. unfold shutdown_view. apply filter_In. split; [exact Hin|].
  rewrite He. reflexivity.
Qed.

(** The trace of the main function up to the reading of the configuration
    holds nothing of the duplicator. *)
Lemma main_config_failure toErr pd env st e :
  Main.createLogger_answer env = Ok tt ->
  getConfig (Main.process_env env) (Main.randomBytes env) = Throw e ->
  Main.main toErr pd env st
  = Main.PCreateLogger Main.serviceName
    :: Main.registrations
    ++ Main.lift [ELog Info [] "Start service mqtt-mqtt-duplicator";
                  ELog Info [] "Read configuration"]
    ++ Main.lift (trace (run (Main.exitHandler_early 1 (Some (toErr e))) st)).
Proof. intros Hl Hc. unfold Main.main. rewrite Hl, Hc. reflexivity. Qed.

(** X21.  When reading the configuration throws, the main function starts
    nothing: no health check server is created and no broker is connected
    to.  The error is logged as fatal, the exit code is 1, and of the
    shutdown only the exit is left, no handle having been assigned. *)
Theorem config_failure_starts_nothing toErr pd env st e :
  Main.createLogger_answer env = Ok tt ->
  getConfig (Main.process_env env) (Main.randomBytes env) = Throw e ->
  let t := Main.main toErr pd env st in
  connects (Main.core t) = []
  /\ Main.health_servers t = []
  /\ shutdown_view (Main.core t) = [EProcessExit]
  /\ Main.exit_codes (Main.core t) = [1]
  /\ In (ELog Fatal [("err", VErr (toErr e))] EmptyString) (Main.core t).
Proof.
  intros Hl Hc t. subst t. rewrite (main_config_failure _ _ _ _ _ Hl Hc).
  rewrite exitHandler_early_run. cbn [trace].
  repeat split. cbn. auto.
Qed.

Lemma config_failure_starts_nothing_witness :
  let env := Main.mkMainEnv (Ok tt) Sample.process_env_3 Sample.randomBytes
               (Ok tt) Sample.startup_ok (Ok tt) Sample.shutdown_env in
  let t := Main.main Sample.toErr Sample.dirname env Sample.open_state in
  connects (Main.core t) = [] /\ shutdown_view (Main.core t) = [EProcessExit].
Proof.
  intros env.
  destruct (config_failure_starts_nothing Sample.toErr Sample.dirname env
              Sample.open_state
              (JsError
                 "If defined, FORWARD_QOS_MAX must be 0, 1 or 2. Default is 1.")
              eq_refl) as (Hc & _ & Hs & _).
  - vm_compute. reflexivity.
  - split; [exact Hc|exact Hs].
Defined.

Lemma main_startup toErr pd env st cfg :
  Main.createLogger_answer env = Ok tt ->
  getConfig (Main.process_env env) (Main.randomBytes env) = Ok cfg ->
  Main.createHealthCheckServer_answer env = Ok tt ->
  let r := run (createDuplicator toErr pd (source cfg) (dest cfg)
                  (Some (saveToFile cfg)) (Main.startup env)) st in
  Main.core (Main.main toErr pd env st)
  = [ELog Info [] "Start service mqtt-mqtt-duplicator";
     ELog Info [] "Read configuration";
     ELog Info [] "Create health check server";
     ELog Info [] "Start MQTT duplicator"]
    ++ trace r
    ++ match outcome r with
       | Throw err =>
           trace (run (Main.exitHandler_health (Main.shutdown env) 1
                         (Some (toErr err))) (final r))
       | Ok _ =>
           [ELog Info [] "Set health check status to OK"; ESetHealthOk true]
           ++ match Main.setHealthOk_true_answer env with
              | Throw err =>
                  trace (run (exitHandler toErr (source cfg) (dest cfg)
                                (Main.shutdown env) 1 (Some (toErr err)))
                           (final r))
              | Ok _ => []
              end
       end.
Proof.
  intros Hl Hc Hh r. unfold Main.main. rewrite Hl, Hc, Hh. fold r.
  rewrite core_cons_other by reflexivity.
  rewrite !core_app, core_lift.
  change (Main.core Main.registrations) with (@nil Effect).
  rewrite core_cons_core, core_cons_other, core_cons_core by reflexivity.
  rewrite core_app, core_lift. cbn [app Main.core flat_map].
  destruct (outcome r) as [clients|err];
    [destruct (Main.setHealthOk_true_answer env) as [[]|err]|];
    rewrite ?core_app, ?core_lift; reflexivity.
Qed.

Lemma exitHandler_health_view env exitCode e st :
  let t := trace (run (Main.exitHandler_health env exitCode (Some e)) st) in
  shutdown_view t = [ESetHealthOk false; ECloseHealthCheckServer; EProcessExit]
  /\ Main.exit_codes t = [exitCode]
  /\ connects t = []
  /\ In (ELog Fatal [("err", VErr e)] EmptyString) t.
Proof.
  cbv zeta. rewrite exitHandler_health_run. cbn [trace].
  destruct (setHealthOk_answer env) as [[]|e1],
    (closeHealthCheckServer_answer env) as [[]|e2];
    repeat split; cbn; auto.
Qed.

Lemma main_health_failure toErr pd env st cfg e :
  Main.createLogger_answer env = Ok tt ->
  getConfig (Main.process_env env) (Main.randomBytes env) = Ok cfg ->
  Main.createHealthCheckServer_answer env = Throw e ->
  Main.core (Main.main toErr pd env st)
  = [ELog Info [] "Start service mqtt-mqtt-duplicator";
     ELog Info [] "Read configuration";
     ELog Info [] "Create health check server"]
    ++ trace (run (Main.exitHandler_early 1 (Some (toErr e))) st).
Proof.
  intros Hl Hc Hh. unfold Main.main. rewrite Hl, Hc, Hh.
  rewrite core_cons_other by reflexivity.
  rewrite !core_app, !core_lift.
  change (Main.core Main.registrations) with (@nil Effect).
  reflexivity.
Qed.

Lemma startup_failure_outcome toErr pd source dest saveToFile env st e :
  startup_failure env = Some e ->
  outcome (run (createDuplicator toErr pd source dest saveToFile env) st)
  = Throw e.
Proof.
  intros H.
  destruct (createDuplicator_outcome toErr pd source dest saveToFile env st)
    as (Ho & _).
  rewrite H in Ho. exact Ho.
Qed.

Lemma startup_success_outcome toErr pd source dest saveToFile env st clients :
  outcome (run (createDuplicator toErr pd source dest saveToFile env) st)
  = Ok clients ->
  startup_failure env = None
  /\ connect_source env = Ok tt /\ connect_dest env = Ok tt.
Proof.
  intros H.
  destruct (createDuplicator_outcome toErr pd source dest saveToFile env st)
    as (Ho & _).
  unfold startup_failure in *.
  destruct (connect_source env) as [[]|e1]; [|congruence].
  destruct (connect_dest env) as [[]|e2]; [|congruence].
  destruct (subscribe_answer env) as [[]|e3]; [auto|congruence].
Qed.

(** X22.  When [createDuplicator] throws, because a broker could not be connected
    to or the subscription was refused, the shutdown that follows sets the
    health check to fail, closes the health check server and exits with
    code 1, the error logged as fatal.  It ends no client and unsubscribes
    nothing: the handles of the clients are assigned only when
    [createDuplicator] returns, so a connection that was made stays as it
    is until the process exits. *)
Theorem startup_failure_ends_no_client toErr pd env st cfg e :
  Main.createLogger_answer env = Ok tt ->
  getConfig (Main.process_env env) (Main.randomBytes env) = Ok cfg ->
  Main.createHealthCheckServer_answer env = Ok tt ->
  startup_failure (Main.startup env) = Some e ->
  let t := Main.core (Main.main toErr pd env st) in
  shutdown_view t = [ESetHealthOk false; ECloseHealthCheckServer; EProcessExit]
  /\ Main.exit_codes t = [1]
  /\ In (ELog Fatal [("err", VErr (toErr e))] EmptyString) t
  /\ connects t
     = EConnect (source_url (source cfg)) (source_clientOptions (source cfg))
       :: match connect_source (Main.startup env) with
          | Ok _ =>
              [EConnect (dest_url (dest cfg)) (dest_clientOptions (dest cfg))]
          | Throw _ => []
          end.
Proof.
  intros Hl Hc Hh Hf t. subst t.
  rewrite (main_startup _ _ _ _ _ Hl Hc Hh). cbv zeta.
  rewrite (startup_failure_outcome _ _ _ _ _ _ _ _ Hf).
  destruct (createDuplicator_quiet toErr pd (source cfg) (dest cfg)
              (Some (saveToFile cfg)) (Main.startup env) st) as (Hq & Hqc).
  destruct (createDuplicator_outcome toErr pd (source cfg) (dest cfg)
              (Some (saveToFile cfg)) (Main.startup env) st)
    as (_ & Hcon & _).
  destruct (exitHandler_health_view (Main.shutdown env) 1 (toErr e)
              (final (run (createDuplicator toErr pd (source cfg) (dest cfg)
                             (Some (saveToFile cfg)) (Main.startup env)) st)))
    as (Hv & Hx & Hxc & Hlog).
  unfold shutdown_view, Main.exit_codes, connects in *.
  rewrite !List.filter_app, !flat_map_app, Hq, Hqc, Hcon, Hv, Hx, Hxc.
  split; [reflexivity|]. split; [reflexivity|]. split.
  - do 2 (apply in_or_app; right). exact Hlog.
  - cbn [List.filter is_connect app]. rewrite app_nil_r. reflexivity.
Qed.

Lemma startup_failure_ends_no_client_witness :
  let env := Main.mkMainEnv (Ok tt) Sample.process_env Sample.randomBytes
               (Ok tt)
               (mkStartupEnv (Ok tt) (Ok tt) (Ok tt) (Ok tt)
                  (Throw (JsError "not authorized")))
               (Ok tt) Sample.shutdown_env in
  shutdown_view
    (Main.core (Main.main Sample.toErr Sample.dirname env Sample.open_state))
  = [ESetHealthOk false; ECloseHealthCheckServer; EProcessExit].
Proof.
  intros env.
  destruct (getConfig Sample.process_env Sample.randomBytes) as [cfg|e] eqn:G;
    [|vm_compute in G; discriminate G].
  apply (startup_failure_ends_no_client Sample.toErr Sample.dirname env
           Sample.open_state cfg (JsError "not authorized"));
    [reflexivity|exact G|reflexivity|reflexivity].
Defined.

(** X23.  Health is set to OK only after the subscription: wherever the trace of
    the main function sets the health check to OK, the configuration was
    read, nothing of start-up failed, and the subscribe call for the
    configured filter comes earlier in the trace, with no step of a
    shutdown before. *)
Theorem health_ok_only_after_subscribe toErr pd env st :
  In (ESetHealthOk true) (Main.core (Main.main toErr pd env st)) ->
  exists cfg l1 l2,
    getConfig (Main.process_env env) (Main.randomBytes env) = Ok cfg
    /\ startup_failure (Main.startup env) = None
    /\ Main.core (Main.main toErr pd env st) = l1 ++ ESetHealthOk true :: l2
    /\ In (ESubscribe (topicFilter (source cfg)) (subscribeOptions (source cfg)))
         l1
    /\ shutdown_view l1 = [].
Proof.
  intros Hin.
  destruct (Main.createLogger_answer env) as [[]|le] eqn:Hl;
    [|unfold Main.main in Hin; rewrite Hl in Hin; destruct Hin].
  destruct (getConfig (Main.process_env env) (Main.randomBytes env))
    as [cfg|ce] eqn:Hc.
  2:{ exfalso. rewrite (main_config_failure _ _ _ _ _ Hl Hc) in Hin.
      apply In_shutdown_view in Hin; [|reflexivity].
      rewrite core_cons_other, !core_app, !core_lift in Hin by reflexivity.
      rewrite exitHandler_early_run in Hin. cbn in Hin.
      destruct Hin as [Hin|[]]. discriminate Hin. }
  destruct (Main.createHealthCheckServer_answer env) as [[]|he] eqn:Hh.
  2:{ exfalso. rewrite (main_health_failure _ _ _ _ _ _ Hl Hc Hh) in Hin.
      apply In_shutdown_view in Hin; [|reflexivity].
      rewrite exitHandler_early_run in Hin. cbn in Hin.
      destruct Hin as [Hin|[]]. discriminate Hin. }
  pose proof (main_startup toErr pd env st cfg Hl Hc Hh) as E.
  cbv zeta in E.
  destruct (createDuplicator_quiet toErr pd (source cfg) (dest cfg)
              (Some (saveToFile cfg)) (Main.startup env) st) as (Hq & _).
  destruct (outcome (run (createDuplicator toErr pd (source cfg) (dest cfg)
                            (Some (saveToFile cfg)) (Main.startup env)) st))
    as [clients|err] eqn:Ho.
  - destruct (startup_success_outcome _ _ _ _ _ _ _ _ Ho) as (Hnone & Hs & Hd).
    destruct (createDuplicator_outcome toErr pd (source cfg) (dest cfg)
                (Some (saveToFile cfg)) (Main.startup env) st)
      as (_ & _ & Hsub & _).
    rewrite Hs, Hd in Hsub.
    exists cfg.
    exists ([ELog Info [] "Start service mqtt-mqtt-duplicator";
             ELog Info [] "Read configuration";
             ELog Info [] "Create health check server";
             ELog Info [] "Start MQTT duplicator"]
            ++ trace (run (createDuplicator toErr pd (source cfg) (dest cfg)
                             (Some (saveToFile cfg)) (Main.startup env)) st)
            ++ [ELog Info [] "Set health check status to OK"]).
    eexists.
    split; [reflexivity|]. split; [exact Hnone|].
    split; [rewrite E, <- !app_assoc; reflexivity|]. split.
    + apply in_or_app. right. apply in_or_app. left.
      assert (Hin' : In (ESubscribe (topicFilter (source cfg))
                           (subscribeOptions (source cfg)))
                        (subscribes
                           (trace (run (createDuplicator toErr pd (source cfg)
                                          (dest cfg) (Some (saveToFile cfg))
                                          (Main.startup env)) st))))
        by (rewrite Hsub; left; reflexivity).
      unfold subscribes in Hin'. apply filter_In in Hin'. apply Hin'.
    + unfold shutdown_view in *. rewrite !List.filter_app, Hq. reflexivity.
  - exfalso. rewrite E in Hin.
    apply In_shutdown_view in Hin; [|reflexivity].
    destruct (exitHandler_health_view (Main.shutdown env) 1 (toErr err)
                (final (run (createDuplicator toErr pd (source cfg) (dest cfg)
                               (Some (saveToFile cfg)) (Main.startup env)) st)))
      as (Hv & _).
    unfold shutdown_view in *. rewrite !List.filter_app, Hq, Hv in Hin.
    cbn in Hin. destruct Hin as [Hin|[Hin|[Hin|[]]]]; discriminate Hin.
Qed.

Lemma health_ok_only_after_subscribe_witness :
  let env := Main.mkMainEnv (Ok tt) Sample.process_env Sample.randomBytes
               (Ok tt) Sample.startup_ok (Ok tt) Sample.shutdown_env in
  let t := Main.core (Main.main Sample.toErr Sample.dirname env
                        Sample.open_state) in
  In (ESetHealthOk true) t
  /\ exists l1 l2,
       t = l1 ++ ESetHealthOk true :: l2
       /\ In (ESubscribe (js "apc-from-vehicle/#") (mkSubscribeOptions 2)) l1.
Proof.
  intros env t.
  assert (Hin : In (ESetHealthOk true) t).
  { vm_compute. repeat (first [left; reflexivity | right]). }
  split; [exact Hin|].
  destruct (health_ok_only_after_subscribe Sample.toErr Sample.dirname env
              Sample.open_state Hin)
    as (cfg & l1 & l2 & Hc & _ & E & Hs & _).
  exists l1, l2. split; [exact E|].
  vm_compute in Hc. injection Hc as <-. exact Hs.
Defined.

(** X24.  When every call succeeds, the main function connects to the source and
    then to the destination, subscribes once, sets the health check to OK
    as the last thing it does, and takes no step of a shutdown: no exit
    code is set and the process goes on. *)
Theorem successful_startup toErr pd env st cfg :
  Main.all_well env ->
  getConfig (Main.process_env env) (Main.randomBytes env) = Ok cfg ->
  let t := Main.core (Main.main toErr pd env st) in
  shutdown_view t = [ESetHealthOk true]
  /\ connects t
     = [EConnect (source_url (source cfg)) (source_clientOptions (source cfg));
        EConnect (dest_url (dest cfg)) (dest_clientOptions (dest cfg))]
  /\ subscribes t
     = [ESubscribe (topicFilter (source cfg)) (subscribeOptions (source cfg))]
  /\ Main.exit_codes t = []
  /\ exists l, t = l ++ [ESetHealthOk true].
Proof.
  intros (Hl & Hh & Hs & Hd & Hsub & Hok) Hc t. subst t.
  rewrite (main_startup _ _ _ _ _ Hl Hc Hh). cbv zeta.
  destruct (createDuplicator_quiet toErr pd (source cfg) (dest cfg)
              (Some (saveToFile cfg)) (Main.startup env) st) as (Hq & Hqc).
  destruct (createDuplicator_outcome toErr pd (source cfg) (dest cfg)
              (Some (saveToFile cfg)) (Main.startup env) st)
    as (Ho & Hcon & Hsubs & _).
  unfold startup_failure in Ho. rewrite Hs, Hd, Hsub in Ho.
  rewrite Hs in Hcon. rewrite Hs, Hd in Hsubs.
  rewrite Ho, Hok.
  unfold shutdown_view, Main.exit_codes, connects, subscribes in *.
  rewrite !List.filter_app, !flat_map_app, Hq, Hqc, Hcon, Hsubs.
  repeat split.
  exists ([ELog Info [] "Start service mqtt-mqtt-duplicator";
           ELog Info [] "Read configuration";
           ELog Info [] "Create health check server";
           ELog Info [] "Start MQTT duplicator"]
          ++ trace (run (createDuplicator toErr pd (source cfg) (dest cfg)
                           (Some (saveToFile cfg)) (Main.startup env)) st)
          ++ [ELog Info [] "Set health check status to OK"]).
  rewrite app_nil_r, <- !app_assoc. reflexivity.
Qed.

Lemma successful_startup_witness :
  let env := Main.mkMainEnv (Ok tt) Sample.process_env Sample.randomBytes
               (Ok tt) Sample.startup_ok (Ok tt) Sample.shutdown_env in
  shutdown_view
    (Main.core (Main.main Sample.toErr Sample.dirname env Sample.open_state))
  = [ESetHealthOk true].
Proof.
  intros env.
  destruct (getConfig Sample.process_env Sample.randomBytes) as [cfg|e] eqn:G;
    [|vm_compute in G; discriminate G].
  apply (successful_startup Sample.toErr Sample.dirname env
           Sample.open_state cfg); [|exact G].
  repeat split.
Defined.

End MainFacts.
